(** * GAMDL audio tools: a shallow embedding of [check.py] and [metadata.py]

    The two scripts are sequential Python: directory traversal, calls into
    the mutagen and PIL libraries, branching on file extensions and numeric
    thresholds, and [print].  The embedding keeps that shape.

    - Python [int] is [Z]; Python [float] is an IEEE-754 binary64 value,
      [spec_float] with [prec = 53] and [emax = 1024].
    - [str] is [string] (a sequence of bytes; the extensions and labels the
      code compares are ASCII).
    - A Python [dict] is an association list in insertion order.
    - Code that can raise runs in a state-and-exception monad; the
      mutable locals of a function are the monad's state, and [print] and
      every call that leaves the process (stat, the mutagen openers, PIL)
      is appended to a trace. *)

From Stdlib Require Import ZArith List String Ascii Bool Lia.
From Stdlib Require Import DecimalString SpecFloat Permutation Sorted QArith Qabs Lqa.
Import ListNotations.

Local Open Scope string_scope.
Local Open Scope Z_scope.

(* ================================================================= *)
(** ** Python values and built-ins *)

Module Py.

(** An exception is identified by its message, which is all the scripts
    ever look at ([{e}] in an f-string). *)
Definition exn := string.

Inductive result (A : Type) : Type :=
| Ok (a : A)
| Raise (e : exn).
Arguments Ok {A} a.
Arguments Raise {A} e.

Definition is_raise {A} (r : result A) : bool :=
  match r with Ok _ => false | Raise _ => true end.

(** *** str *)

(** [str(n)] for an [int]. *)
Definition str_of_int (n : Z) : string := NilZero.string_of_int (Z.to_int n).

Definition lower_ascii (c : ascii) : ascii :=
  let n := nat_of_ascii c in
  if (Nat.leb 65 n && Nat.leb n 90)%bool then ascii_of_nat (n + 32) else c.

(** [s.lower()].  Only bytes A-Z change: no Unicode letter lower-cases to
    one of the ASCII extensions the scripts compare with. *)
Fixpoint lower (s : string) : string :=
  match s with
  | EmptyString => EmptyString
  | String c s' => String (lower_ascii c) (lower s')
  end.

(** [needle in hay]. *)
Fixpoint contains (needle hay : string) : bool :=
  (String.prefix needle hay ||
   match hay with
   | EmptyString => false
   | String _ hay' => contains needle hay'
   end)%bool.

(** [x in [a, b, ...]] for strings. *)
Definition str_in (x : string) (l : list string) : bool :=
  existsb (String.eqb x) l.

(** White space as [str.strip] sees it.  A string holds text in UTF-8, so
    a white-space character takes one byte (U+0009-000D, U+001C-001F,
    U+0020), two (U+0085, U+00A0) or three (U+1680, U+2000-200A, U+2028,
    U+2029, U+202F, U+205F, U+3000). *)
Definition is_space (c : ascii) : bool :=
  let n := nat_of_ascii c in
  (Nat.eqb n 32 || (Nat.leb 9 n && Nat.leb n 13) || (Nat.leb 28 n && Nat.leb n 31))%bool.

Definition is_space2 (c1 c2 : ascii) : bool :=
  let n2 := nat_of_ascii c2 in
  (Nat.eqb (nat_of_ascii c1) 194 && (Nat.eqb n2 133 || Nat.eqb n2 160))%bool.

Definition is_space3 (c1 c2 c3 : ascii) : bool :=
  let n1 := nat_of_ascii c1 in
  let n2 := nat_of_ascii c2 in
  let n3 := nat_of_ascii c3 in
  ((Nat.eqb n1 225 && Nat.eqb n2 154 && Nat.eqb n3 128)
   || (Nat.eqb n1 226 && Nat.eqb n2 128
       && ((Nat.leb 128 n3 && Nat.leb n3 138) || Nat.eqb n3 168 || Nat.eqb n3 169
           || Nat.eqb n3 175))
   || (Nat.eqb n1 226 && Nat.eqb n2 129 && Nat.eqb n3 159)
   || (Nat.eqb n1 227 && Nat.eqb n2 128 && Nat.eqb n3 128))%bool.

(** Dropping from the front the characters that [p1], [p2] or [p3]
    takes, of one, two and three bytes. *)
Fixpoint drop_while (p1 : ascii -> bool) (p2 : ascii -> ascii -> bool)
    (p3 : ascii -> ascii -> ascii -> bool) (s : string) : string :=
  match s with
  | EmptyString => EmptyString
  | String c1 s1 =>
      if p1 c1 then drop_while p1 p2 p3 s1
      else
        match s1 with
        | EmptyString => s
        | String c2 s2 =>
            if p2 c1 c2 then drop_while p1 p2 p3 s2
            else
              match s2 with
              | EmptyString => s
              | String c3 s3 =>
                  if p3 c1 c2 c3 then drop_while p1 p2 p3 s3 else s
              end
        end
  end.

Fixpoint rev_onto (s acc : string) : string :=
  match s with
  | EmptyString => acc
  | String c s' => rev_onto s' (String c acc)
  end.

Definition reverse (s : string) : string := rev_onto s EmptyString.

Definition lstrip (s : string) : string :=
  drop_while is_space is_space2 is_space3 s.

(** From the end, the bytes of a character come last byte first. *)
Definition rstrip (s : string) : string :=
  reverse
    (drop_while is_space (fun c2 c1 => is_space2 c1 c2)
       (fun c3 c2 c1 => is_space3 c1 c2 c3) (reverse s)).

(** [s.strip()]. *)
Definition strip (s : string) : string := rstrip (lstrip s).

(** *** float *)

Definition pyfloat := spec_float.
Definition prec : Z := 53.
Definition emax : Z := 1024.

Definition fzero : pyfloat := S754_zero false.

(** [float(n)] as the arithmetic operators apply it to an [int] operand:
    correctly rounded, [OverflowError] when out of range. *)
Definition float_of_int (n : Z) : result pyfloat :=
  match binary_normalize prec emax n 0 false with
  | S754_infinity _ => Raise "int too large to convert to float"
  | x => Ok x
  end.

Definition float_mul (x y : pyfloat) : pyfloat := SFmul prec emax x y.
Definition float_add (x y : pyfloat) : pyfloat := SFadd prec emax x y.

Definition is_fzero (x : pyfloat) : bool :=
  match x with S754_zero _ => true | _ => false end.

(** [x / y] on floats. *)
Definition float_truediv (x y : pyfloat) : result pyfloat :=
  if is_fzero y then Raise "float division by zero"
  else Ok (SFdiv prec emax x y).

(** [x > 0] for a float [x]. *)
Definition float_gt0 (x : pyfloat) : bool := SFltb fzero x.

(** [int(x)]: truncation toward zero. *)
Definition int_of_float (x : pyfloat) : result Z :=
  match x with
  | S754_nan => Raise "cannot convert float NaN to integer"
  | S754_infinity _ => Raise "cannot convert float infinity to integer"
  | S754_zero _ => Ok 0
  | S754_finite s m e =>
      let a := match e with
               | Zneg p => Z.shiftr (Zpos m) (Zpos p)
               | _ => Z.shiftl (Zpos m) e
               end in
      Ok (if s then - a else a)
  end.

(** [a / b] on ints: the correctly rounded quotient. *)
Definition int_truediv (a b : Z) : result pyfloat :=
  if b =? 0 then Raise "division by zero"
  else if a =? 0 then Ok (S754_zero (b <? 0))
  else
    let '(q, e, l) := SFdiv_core_binary prec emax (Z.abs a) 0 (Z.abs b) 0 in
    match binary_round_aux prec emax (xorb (a <? 0) (b <? 0)) q e l with
    | S754_infinity _ => Raise "integer division result too large for a float"
    | x => Ok x
    end.

(** *** dict, in insertion order *)

Definition dict (V : Type) := list (string * V).

Fixpoint dict_get {V} (k : string) (d : dict V) : option V :=
  match d with
  | [] => None
  | (k', v) :: d' => if String.eqb k k' then Some v else dict_get k d'
  end.

(** [d[k] = v]: in place when the key is there, appended otherwise. *)
Fixpoint dict_set {V} (k : string) (v : V) (d : dict V) : dict V :=
  match d with
  | [] => [(k, v)]
  | (k', v') :: d' =>
      if String.eqb k k' then (k', v) :: d' else (k', v') :: dict_set k v d'
  end.

(** [d[k]], raising [KeyError]. *)
Definition dict_getitem {V} (k : string) (d : dict V) : result V :=
  match dict_get k d with
  | Some v => Ok v
  | None => Raise k
  end.

(** [d.get(k, default)]. *)
Definition dict_get_default {V} (k : string) (default : V) (d : dict V) : V :=
  match dict_get k d with
  | Some v => v
  | None => default
  end.

(** [d1 == d2]: the same keys with the same values, whatever the order. *)
Definition dict_eq {V} (d1 d2 : dict V) : Prop :=
  forall k, dict_get k d1 = dict_get k d2.

Definition dict_values {V} (d : dict V) : list V := map snd d.

(** *** pathlib *)

(** A path: the names of the directories above, outermost first, and the
    final component. *)
Record path := mkpath { parents : list string; name : string }.

(** [p.parent.name]. *)
Definition parent_name (p : path) : string := last (parents p) "".

(** [str(p)]. *)
Definition path_str (p : path) : string :=
  fold_right (fun d s => d ++ "/" ++ s) (name p) (parents p).

Fixpoint rfind_dot (s : string) (i : nat) (found : option nat) : option nat :=
  match s with
  | EmptyString => found
  | String c s' =>
      rfind_dot s' (S i) (if Ascii.eqb c "."%char then Some i else found)
  end.

(** [p.suffix]: from the last dot of the name, unless that dot is the
    first or the last character. *)
Definition suffix (p : path) : string :=
  let nm := name p in
  match rfind_dot nm 0 None with
  | Some i =>
      if (Nat.ltb 0 i && Nat.ltb i (String.length nm - 1))%bool
      then substring i (String.length nm - i) nm
      else ""
  | None => ""
  end.

End Py.

(* ================================================================= *)
(** ** The world outside the scripts: files, mutagen, PIL *)

Module Sys.
Import Py.
Local Open Scope list_scope.

(** The mutagen classes [check.py] and [metadata.py] construct. *)
Inductive opener := MP4 | MP3 | FLAC | WAVE.

(** [audio.info].  A field is [None] when the attribute is absent, which
    is what [hasattr] tests. *)
Record stream_info := mkinfo {
  info_bitrate : option Z;        (* bits per second *)
  info_sample_rate : option Z;    (* Hz *)
  info_length : option pyfloat    (* seconds *)
}.

(** One [MP4Cover]: its declared format, [len(cover)], and what
    [Image.open(BytesIO(cover)).size] gives. *)
Record cover := mkcover {
  imageformat : Z;
  cover_len : Z;
  image_size : result (Z * Z)
}.

Definition FORMAT_JPEG : Z := 13.

(** A mutagen file object: its truth value (mutagen objects are
    dict-like, so one without tags is falsy), [info], and the tags. *)
Record audio := mkaudio {
  audio_bool : bool;
  audio_info : stream_info;
  audio_tags : dict (list string);
  audio_covr : list cover
}.

(** What the file system and the decoders answer for one path. *)
Record node := mknode {
  node_exists : bool;                       (* Path.exists() *)
  node_stat : result Z;                     (* Path.stat().st_size *)
  node_open : opener -> result audio;       (* MP4(p), MP3(p), FLAC(p), WAVE(p) *)
  node_probe : result (option audio)        (* mutagen.File(p) *)
}.

Record file := mkfile { file_path : path; file_node : node }.

(** A directory tree: every entry has a name, its node, and the entries
    below it (none for a regular file). *)
#[warnings="-register-all"]
Inductive entry := Entry (nm : string) (n : node) (children : list entry).

Definition entry_name (e : entry) : string := let '(Entry nm _ _) := e in nm.
Definition entry_node (e : entry) : node := let '(Entry _ n _) := e in n.

(** A directory given by the components of its own path and its entries. *)
Record folder := mkfolder { folder_path : list string; folder_entries : list entry }.

(** pathlib matches names case-sensitively on POSIX and case-insensitively
    on Windows. *)
Inductive flavour := Posix | Windows.

(** [fnmatch] for patterns made of literal characters, [*] and [?]. *)
Fixpoint glob (pat s : string) : bool :=
  match pat with
  | EmptyString => match s with EmptyString => true | _ => false end
  | String c pat' =>
      if Ascii.eqb c "*"%char then
        (fix star (s : string) : bool :=
           (glob pat' s ||
            match s with
            | EmptyString => false
            | String _ s' => star s'
            end)%bool) s
      else
        match s with
        | EmptyString => false
        | String d s' =>
            ((Ascii.eqb c "?"%char || Ascii.eqb c d) && glob pat' s')%bool
        end
  end.

Definition name_matches (fl : flavour) (pat nm : string) : bool :=
  match fl with
  | Posix => glob pat nm
  | Windows => glob (lower pat) (lower nm)
  end.

(** The paths below a directory, as [rglob] visits them: the matching
    entries of the directory itself, then each entry's subtree in turn. *)
Fixpoint rglob_under (fl : flavour) (pat : string) (dirs : list string)
    (e : entry) : list file :=
  match e with
  | Entry nm _ cs =>
      let here := dirs ++ [nm] in
      map (fun c => mkfile (mkpath here (entry_name c)) (entry_node c))
          (filter (fun c => name_matches fl pat (entry_name c)) cs)
      ++ flat_map (rglob_under fl pat here) cs
  end.

(** [Path(d).rglob(pat)]. *)
Definition rglob (fl : flavour) (d : folder) (pat : string) : list file :=
  map (fun c => mkfile (mkpath (folder_path d) (entry_name c)) (entry_node c))
      (filter (fun c => name_matches fl pat (entry_name c)) (folder_entries d))
  ++ flat_map (rglob_under fl pat (folder_path d)) (folder_entries d).

(** Every path below a directory, matching or not. *)
Fixpoint beneath_entry (dirs : list string) (e : entry) : list file :=
  match e with
  | Entry nm n cs =>
      mkfile (mkpath dirs nm) n :: flat_map (beneath_entry (dirs ++ [nm])) cs
  end.

Definition beneath (d : folder) : list file :=
  flat_map (beneath_entry (folder_path d)) (folder_entries d).

(** The process's surroundings: the platform, the directory of the
    script, and what a typed folder path resolves to ([None] when it does
    not exist). *)
Record world := mkworld {
  os_flavour : flavour;
  script_dir : folder;
  resolve : string -> option folder
}.

(** *** Traces *)

(** The segments of a printed f-string: text, a float under [:.Nf], and
    a duration under [{int(x//60)}:{int(x%60):02d}]. *)
Inductive piece :=
| Lit (s : string)
| Flt (decimals : nat) (x : pyfloat)
| MinSec (x : pyfloat).

Definition line := list piece.

Inductive event :=
| Print (l : line)
| CallStat (p : path)
| CallOpen (o : opener) (p : path)
| CallProbe (p : path)
| CallImageOpen (p : path).

Definition trace := list event.

(** The printed lines of a trace. *)
Definition printed (t : trace) : list line :=
  flat_map (fun e => match e with Print l => [l] | _ => [] end) t.

(** *** The state-and-exception monad *)

Definition M (S A : Type) : Type := S -> trace -> result A * S * trace.

Definition ret {S A} (a : A) : M S A := fun s t => (Ok a, s, t).

Definition bind {S A B} (m : M S A) (k : A -> M S B) : M S B :=
  fun s t =>
    match m s t with
    | (Ok a, s', t') => k a s' t'
    | (Raise e, s', t') => (Raise e, s', t')
    end.

Definition lift {S A} (r : result A) : M S A := fun s t => (r, s, t).

Definition emit {S} (e : event) : M S unit := fun s t => (Ok tt, s, t ++ [e]).

Definition print {S} (l : line) : M S unit := emit (Print l).

Definition get {S} : M S S := fun s t => (Ok s, s, t).

Definition modify {S} (f : S -> S) : M S unit := fun s t => (Ok tt, f s, t).

(** [try: body except Exception as e: handler e].  The handler starts in
    the state the body had reached. *)
Definition try_except {S A} (body : M S A) (handler : exn -> M S A) : M S A :=
  fun s t =>
    match body s t with
    | (Raise e, s', t') => handler e s' t'
    | r => r
    end.

(** The locals and the trace a function ends with when it starts from
    locals [s0] and an empty trace, and how it ends. *)
Definition final_locals {S A} (m : M S A) (s0 : S) : S := snd (fst (m s0 [])).
Definition final_trace {S A} (m : M S A) (s0 : S) : trace := snd (m s0 []).
Definition outcome {S A} (m : M S A) (s0 : S) : result A := fst (fst (m s0 [])).

Fixpoint for_each {S X} (l : list X) (body : X -> M S unit) : M S unit :=
  match l with
  | [] => ret tt
  | x :: l' => bind (body x) (fun _ => for_each l' body)
  end.

(** The calls that leave the process. *)
Definition stat {S} (f : file) : M S Z :=
  bind (emit (CallStat (file_path f))) (fun _ => lift (node_stat (file_node f))).

Definition open_with {S} (o : opener) (f : file) : M S audio :=
  bind (emit (CallOpen o (file_path f))) (fun _ => lift (node_open (file_node f) o)).

Definition probe {S} (f : file) : M S (option audio) :=
  bind (emit (CallProbe (file_path f))) (fun _ => lift (node_probe (file_node f))).

End Sys.

Declare Scope py_scope.
Delimit Scope py_scope with py.
Notation "x <- m ;; k" := (Sys.bind m (fun x => k))
  (at level 61, m at next level, right associativity) : py_scope.
Notation "m ;; k" := (Sys.bind m (fun _ => k))
  (at level 61, right associativity) : py_scope.

(* ================================================================= *)
(** ** check.py *)

Module Check.
Import Py Sys.
Local Open Scope py_scope.

Definition nl : string := String (ascii_of_nat 10) EmptyString.

(** [s * n]. *)
Fixpoint str_mul (s : string) (n : nat) : string :=
  match n with
  | O => EmptyString
  | S n' => s ++ str_mul s n'
  end.

(** [int((file_size * 8) / (duration * 1000))], the size/duration estimate
    of the FLAC and WAV branches. *)
Definition size_duration_kbps {S} (file_size : Z) (duration : pyfloat) : M S Z :=
  k <- lift (float_of_int 1000) ;;
  a <- lift (float_of_int (file_size * 8)) ;;
  q <- lift (float_truediv a (float_mul duration k)) ;;
  lift (int_of_float q).

(** [audio.info.length if hasattr(audio.info, 'length') else 0]. *)
Definition length_or_0 (i : stream_info) : pyfloat :=
  match info_length i with Some d => d | None => fzero end.

(** [audio.info.bitrate if hasattr(audio.info, 'bitrate') else 0]. *)
Definition bitrate_or_0 (i : stream_info) : Z :=
  match info_bitrate i with Some b => b | None => 0 end.

(** The [try] block of [get_audio_bitrate]: [Some v] where a branch
    returns [v], [None] where control falls out of the [if] chain. *)
Definition get_audio_bitrate_try {S} (file_path : file) : M S (option Z) :=
  let file_ext := lower (suffix (Sys.file_path file_path)) in
  if str_in file_ext [".m4a"; ".mp4"] then
    audio <- open_with MP4 file_path ;;
    let bitrate := bitrate_or_0 (audio_info audio) in
    ret (Some (bitrate / 1000))
  else if String.eqb file_ext ".mp3" then
    audio <- open_with MP3 file_path ;;
    let bitrate := bitrate_or_0 (audio_info audio) in
    ret (Some (bitrate / 1000))
  else if String.eqb file_ext ".flac" then
    audio <- open_with FLAC file_path ;;
    match info_bitrate (audio_info audio) with
    | Some b => ret (Some (b / 1000))
    | None =>
        file_size <- stat file_path ;;
        let duration := length_or_0 (audio_info audio) in
        if float_gt0 duration then
          v <- size_duration_kbps file_size duration ;; ret (Some v)
        else ret (Some 0)
    end
  else if str_in file_ext [".wav"; ".wave"] then
    audio <- open_with WAVE file_path ;;
    file_size <- stat file_path ;;
    let duration := length_or_0 (audio_info audio) in
    if float_gt0 duration then
      v <- size_duration_kbps file_size duration ;; ret (Some v)
    else ret (Some 0)
  else if str_in file_ext [".aac"; ".ogg"; ".opus"; ".wma"] then
    audio <- probe file_path ;;
    match audio with
    | Some a =>
        if audio_bool a then
          match info_bitrate (audio_info a) with
          | Some b => ret (Some (b / 1000))
          | None => ret (Some 0)
          end
        else ret (Some 0)
    | None => ret (Some 0)
    end
  else ret None.

(** The line the [except] clause prints. *)
Definition error_reading (file_path : file) (e : exn) : line :=
  [Lit ("Error reading " ++ name (Sys.file_path file_path) ++ ": " ++ e)].

Definition get_audio_bitrate {S} (file_path : file) : M S Z :=
  r <- try_except (get_audio_bitrate_try file_path)
         (fun e => print (error_reading file_path e) ;; ret (Some 0)) ;;
  match r with
  | Some v => ret v
  | None => ret 0
  end.

Definition get_audio_quality (bitrate : Z) : string :=
  if bitrate >=? 320 then "320kbps (High Quality)"
  else if bitrate >=? 256 then "256kbps (Good Quality)"
  else if bitrate >=? 192 then "192kbps (Medium Quality)"
  else if bitrate >=? 128 then "128kbps (Standard Quality)"
  else if bitrate >? 0 then str_of_int bitrate ++ "kbps (Low Quality)"
  else "Unknown Quality".

Definition audio_extensions : list string :=
  [".mp3"; ".m4a"; ".flac"; ".wav"; ".aac"; ".ogg"; ".wma"; ".opus"].

(** [for ext in audio_extensions: audio_files.extend(root.rglob(f"*{ext}"))]. *)
Definition find_audio_files (fl : flavour) (root : folder) : list file :=
  flat_map (fun ext => rglob fl root ("*" ++ ext)) audio_extensions.

(** The locals of [check_audio_quality] and of [quick_quality_check]. *)
Record locals := mklocals {
  audio_files : list file;
  quality_stats : dict Z;
  total_size : pyfloat
}.

Definition set_audio_files (l : list file) (s : locals) : locals :=
  mklocals l (quality_stats s) (total_size s).
Definition set_quality_stats (d : dict Z) (s : locals) : locals :=
  mklocals (audio_files s) d (total_size s).
Definition set_total_size (x : pyfloat) (s : locals) : locals :=
  mklocals (audio_files s) (quality_stats s) x.

Definition no_locals : locals := mklocals [] [] fzero.

(** [quality_stats[k] += 1]. *)
Definition incr_stat (k : string) : M locals unit :=
  s <- get ;;
  v <- lift (dict_getitem k (quality_stats s)) ;;
  modify (set_quality_stats (dict_set k (v + 1) (quality_stats s))).

(** [len(audio_files)]. *)
Definition len {A} (l : list A) : Z := Z.of_nat (List.length l).

Definition MB : Z := 1024 * 1024.

Definition initial_stats : dict Z :=
  [("320kbps (High Quality)", 0);
   ("256kbps (Good Quality)", 0);
   ("192kbps (Medium Quality)", 0);
   ("128kbps (Standard Quality)", 0);
   ("Low Quality", 0);
   ("Unknown Quality", 0)].

(** One turn of the [for audio_file in audio_files] loop of
    [check_audio_quality]. *)
Definition check_one (audio_file : file) : M locals unit :=
  try_except
    (st_size <- stat audio_file ;;
     file_size <- lift (int_truediv st_size MB) ;;
     modify (fun s => set_total_size (float_add (total_size s) file_size) s) ;;
     bitrate <- get_audio_bitrate audio_file ;;
     let quality := get_audio_quality bitrate in
     (if contains "320kbps" quality then incr_stat "320kbps (High Quality)"
      else if contains "256kbps" quality then incr_stat "256kbps (Good Quality)"
      else if contains "192kbps" quality then incr_stat "192kbps (Medium Quality)"
      else if contains "128kbps" quality then incr_stat "128kbps (Standard Quality)"
      else if contains "Low Quality" quality then incr_stat "Low Quality"
      else incr_stat "Unknown Quality") ;;
     print [Lit ("🔊 " ++ name (file_path audio_file))] ;;
     print [Lit ("   📁 Location: " ++ parent_name (file_path audio_file) ++ "/")] ;;
     print [Lit "   📊 Size: "; Flt 2 file_size; Lit " MB"] ;;
     print [Lit ("   🎵 Bitrate: " ++ str_of_int bitrate ++ " kbps")] ;;
     print [Lit ("   ⭐ Quality: " ++ quality)] ;;
     print [])
    (fun e =>
       print [Lit ("❌ Error checking " ++ name (file_path audio_file) ++ ": " ++ e)] ;;
       incr_stat "Unknown Quality" ;;
       print []).

(** [(count / len(audio_files)) * 100]. *)
Definition percentage {S} (count total : Z) : M S pyfloat :=
  r <- lift (int_truediv count total) ;;
  h <- lift (float_of_int 100) ;;
  ret (float_mul r h).

(** One turn of the summary loop of [check_audio_quality]. *)
Definition summary_row (total : Z) (item : string * Z) : M locals unit :=
  let '(quality_type, count) := item in
  if count >? 0 then
    p <- percentage count total ;;
    print [Lit (quality_type ++ ": " ++ str_of_int count ++ " files ("); Flt 1 p; Lit "%)"]
  else ret tt.

Definition check_audio_quality (w : world) : M locals unit :=
  print [Lit "Audio Quality Checker"] ;;
  print [Lit (str_mul "=" 60)] ;;
  modify (set_audio_files (find_audio_files (os_flavour w) (script_dir w))) ;;
  s <- get ;;
  match audio_files s with
  | [] => print [Lit "No audio files found!"]
  | _ =>
    print [Lit ("Found " ++ str_of_int (len (audio_files s)) ++ " audio files" ++ nl)] ;;
    modify (set_quality_stats initial_stats) ;;
    modify (set_total_size fzero) ;;
    print [Lit "📊 Audio File Quality Report:"] ;;
    print [Lit (str_mul "-" 60)] ;;
    for_each (audio_files s) check_one ;;
    print [Lit (str_mul "=" 60)] ;;
    print [Lit "📈 QUALITY SUMMARY:"] ;;
    print [Lit (str_mul "=" 60)] ;;
    s1 <- get ;;
    for_each (quality_stats s1) (summary_row (len (audio_files s))) ;;
    print [Lit (nl ++ "📦 Total files: " ++ str_of_int (len (audio_files s)))] ;;
    print [Lit "💾 Total size: "; Flt 2 (total_size s1); Lit " MB"]
  end.

(** The locals of [check_specific_folder]. *)
Record folder_locals := mkfolder_locals {
  folder_files : list file;            (* audio_files *)
  bitrate_groups : dict (list file)
}.

Definition no_folder_locals : folder_locals := mkfolder_locals [] [].

(** One turn of the grouping loop of [check_specific_folder]. *)
Definition group_one (audio_file : file) : M folder_locals unit :=
  try_except
    (bitrate <- get_audio_bitrate audio_file ;;
     let quality := get_audio_quality bitrate in
     modify (fun s =>
       let groups :=
         match dict_get quality (bitrate_groups s) with
         | Some _ => bitrate_groups s
         | None => dict_set quality [] (bitrate_groups s)
         end in
       mkfolder_locals (folder_files s)
         (dict_set quality (dict_get_default quality [] groups ++ [audio_file])%list groups)))
    (fun e => print [Lit ("Error checking " ++ name (file_path audio_file) ++ ": " ++ e)]).

(** One turn of the inner printing loop of [check_specific_folder]. *)
Definition print_grouped_file (audio_file : file) : M folder_locals unit :=
  st_size <- stat audio_file ;;
  file_size <- lift (int_truediv st_size MB) ;;
  print [Lit ("   🔊 " ++ name (file_path audio_file) ++ " ("); Flt 1 file_size; Lit " MB)"].

Definition print_group (item : string * list file) : M folder_locals unit :=
  let '(quality, files) := item in
  print [Lit (nl ++ quality ++ " (" ++ str_of_int (len files) ++ " files):")] ;;
  for_each files print_grouped_file.

(** [typed] is the line [input] returns. *)
Definition check_specific_folder (w : world) (typed : string) : M folder_locals unit :=
  let folder_path := strip typed in
  if String.eqb folder_path "" then print [Lit "No folder specified!"]
  else
    match resolve w folder_path with
    | None => print [Lit ("Folder '" ++ folder_path ++ "' does not exist!")]
    | Some target_folder =>
      print [Lit (nl ++ "Checking audio quality in: "
                  ++ String.concat "/" (Sys.folder_path target_folder))] ;;
      print [Lit (str_mul "=" 60)] ;;
      let found := find_audio_files (os_flavour w) target_folder in
      modify (fun s => mkfolder_locals found (bitrate_groups s)) ;;
      match found with
      | [] => print [Lit "No audio files found in the specified folder!"]
      | _ =>
        print [Lit ("Found " ++ str_of_int (len found) ++ " audio files" ++ nl)] ;;
        modify (fun s => mkfolder_locals (folder_files s) []) ;;
        for_each found group_one ;;
        s1 <- get ;;
        for_each (bitrate_groups s1) print_group
      end
    end.

(** One turn of the loop of [quick_quality_check]. *)
Definition quick_one (audio_file : file) : M locals unit :=
  try_except
    (st_size <- stat audio_file ;;
     file_size <- lift (int_truediv st_size MB) ;;
     modify (fun s => set_total_size (float_add (total_size s) file_size) s) ;;
     bitrate <- get_audio_bitrate audio_file ;;
     let quality := get_audio_quality bitrate in
     modify (fun s =>
       set_quality_stats
         (dict_set quality (dict_get_default quality 0 (quality_stats s) + 1)
            (quality_stats s)) s))
    (fun _ =>
       modify (fun s =>
         set_quality_stats
           (dict_set "Unknown Quality"
              (dict_get_default "Unknown Quality" 0 (quality_stats s) + 1)
              (quality_stats s)) s)).

(** Insertion into a list sorted by descending count; an item goes before
    the first item whose count is not larger, so equal counts keep the
    order they had. *)
Fixpoint insert_desc (x : string * Z) (l : list (string * Z)) : list (string * Z) :=
  match l with
  | [] => [x]
  | y :: l' => if snd y <=? snd x then x :: l else y :: insert_desc x l'
  end.

(** [sorted(d.items(), key=lambda x: x[1], reverse=True)]. *)
Definition sorted_by_count_desc (d : dict Z) : list (string * Z) :=
  fold_right insert_desc [] d.

Definition quick_row (total : Z) (item : string * Z) : M locals unit :=
  let '(quality, count) := item in
  p <- percentage count total ;;
  print [Lit ("  " ++ quality ++ ": " ++ str_of_int count ++ " files ("); Flt 1 p; Lit "%)"].

Definition quick_quality_check (w : world) : M locals unit :=
  modify (set_audio_files (find_audio_files (os_flavour w) (script_dir w))) ;;
  s <- get ;;
  match audio_files s with
  | [] => print [Lit "No audio files found!"]
  | _ =>
    modify (set_quality_stats []) ;;
    modify (set_total_size fzero) ;;
    for_each (audio_files s) quick_one ;;
    s1 <- get ;;
    print [Lit (nl ++ "🎵 QUICK QUALITY CHECK:")] ;;
    print [Lit (str_mul "=" 40)] ;;
    print [Lit ("Total files: " ++ str_of_int (len (audio_files s)))] ;;
    print [Lit "Total size: "; Flt 1 (total_size s1); Lit " MB"] ;;
    print [Lit (nl ++ "Quality Distribution:")] ;;
    for_each (sorted_by_count_desc (quality_stats s1)) (quick_row (len (audio_files s)))
  end.

End Check.

(* ================================================================= *)
(** ** metadata.py *)

Module Metadata.
Import Py Sys.
Local Open Scope py_scope.

(** The [if]/[elif] chain that sets [quality] in [get_audio_info]. *)
Definition quality_label (sample_rate bitrate : Z) : string :=
  if sample_rate >=? 96000 then "Hi-Res (96kHz+)"
  else if (sample_rate >=? 48000) && (bitrate >=? 2000000) then "Lossless (48kHz)"
  else if (sample_rate >=? 44100) && (bitrate >=? 1000000) then "Lossless (44.1kHz)"
  else if bitrate >=? 500000 then "High Quality AAC 500kbps+"
  else if bitrate >=? 320000 then "AAC 320kbps"
  else "AAC 256kbps or lower".

(** [audio.get(key, ['Unknown'])[0]]. *)
Definition first_tag (key : string) (a : audio) : result string :=
  match dict_get key (audio_tags a) with
  | None => Ok "Unknown"
  | Some (v :: _) => Ok v
  | Some [] => Raise "list index out of range"
  end.

(** The locals of [get_audio_info] that later claims look at. *)
Record locals := mklocals { quality : option string }.

Definition no_locals : locals := mklocals None.

(** [int(length//60)] and [int(length%60)] raise on a length that is
    not finite; otherwise the line carries the length. *)
Definition duration_line (length : pyfloat) : result line :=
  match length with
  | S754_nan | S754_infinity _ => Raise "cannot convert float NaN to integer"
  | _ => Ok [Lit "Duration: "; MinSec length]
  end.

Definition get_audio_info (file_path : file) : M locals unit :=
  let p := Sys.file_path file_path in
  if negb (node_exists (file_node file_path)) then
    print [Lit ("File not found: " ++ path_str p)]
  else if negb (str_in (lower (suffix p)) [".m4a"; ".mp4"]) then
    print [Lit "Only supports .m4a or .mp4 files"]
  else
    try_except
      (audio <- open_with MP4 file_path ;;
       let bitrate := Check.bitrate_or_0 (audio_info audio) in
       let sample_rate :=
         match info_sample_rate (audio_info audio) with Some r => r | None => 0 end in
       let length := Check.length_or_0 (audio_info audio) in
       st_size <- stat file_path ;;
       file_size <- lift (int_truediv st_size (1024 * 1024)) ;;
       let quality := quality_label sample_rate bitrate in
       modify (fun _ => mklocals (Some quality)) ;;
       title <- lift (first_tag "©nam" audio) ;;
       artist <- lift (first_tag "©ART" audio) ;;
       album <- lift (first_tag "©alb" audio) ;;
       album_artist <- lift (first_tag "aART" audio) ;;
       let covers := audio_covr audio in
       art <- match covers with
              | cover :: _ =>
                  let image_format :=
                    if imageformat cover =? FORMAT_JPEG then "JPEG" else "PNG" in
                  emit (CallImageOpen p) ;;
                  resolution <- lift (image_size cover) ;;
                  ret (Some (image_format, resolution, cover_len cover))
              | [] => ret None
              end ;;
       print [Lit ("File: " ++ name p)] ;;
       print [Lit ("Title: " ++ title)] ;;
       print [Lit ("Artist: " ++ artist)] ;;
       print [Lit ("Album: " ++ album)] ;;
       print [Lit ("Album Artist: " ++ album_artist)] ;;
       print [Lit ("Bitrate: " ++ str_of_int (bitrate / 1000) ++ " kbps")] ;;
       print [Lit ("Sample Rate: " ++ str_of_int sample_rate ++ " Hz")] ;;
       d <- lift (duration_line length) ;;
       print d ;;
       print [Lit "File Size: "; Flt 2 file_size; Lit " MB"] ;;
       print [Lit ("Quality: " ++ quality)] ;;
       match art with
       | Some (image_format, (width, height), cover_size) =>
           kb <- lift (int_truediv cover_size 1024) ;;
           print [Lit ("Embedded Album Art: " ++ image_format ++ ", "
                       ++ str_of_int width ++ "x" ++ str_of_int height ++ " px, ");
                  Flt 2 kb; Lit " KB"]
       | None => print [Lit "No embedded album art found"]
       end)
      (fun e => print [Lit ("Error reading file: " ++ e)]).

End Metadata.

(* ================================================================= *)
(** ** Tables the properties are stated against *)

Module Tables.
Import Py Sys.

(** The key of [quality_stats] that the substring tests of
    [check_audio_quality] pick for a label. *)
Definition bucket (quality : string) : string :=
  if contains "320kbps" quality then "320kbps (High Quality)"
  else if contains "256kbps" quality then "256kbps (Good Quality)"
  else if contains "192kbps" quality then "192kbps (Medium Quality)"
  else if contains "128kbps" quality then "128kbps (Standard Quality)"
  else if contains "Low Quality" quality then "Low Quality"
  else "Unknown Quality".

(** The threshold table read by value, with one merged bucket for every
    bitrate strictly between 0 and 128. *)
Definition tier_by_value (bitrate : Z) : string :=
  if 320 <=? bitrate then "320kbps (High Quality)"
  else if 256 <=? bitrate then "256kbps (Good Quality)"
  else if 192 <=? bitrate then "192kbps (Medium Quality)"
  else if 128 <=? bitrate then "128kbps (Standard Quality)"
  else if 0 <? bitrate then "Low Quality"
  else "Unknown Quality".

(** The extensions [get_audio_bitrate] has a branch for. *)
Definition resolver_extensions : list string :=
  [".m4a"; ".mp4"; ".mp3"; ".flac"; ".wav"; ".wave"; ".aac"; ".ogg"; ".opus"; ".wma"].



(** What the three empty-scan messages share. *)
Definition no_audio_files_found : string := "No audio files found".

(** A rule table and its first-match-wins reading. *)
Definition rule := ((Z -> Z -> bool) * string)%type.

Fixpoint first_match (rules : list rule) (default : string)
    (sample_rate bitrate : Z) : string :=
  match rules with
  | [] => default
  | (applies, label) :: rest =>
      if applies sample_rate bitrate then label
      else first_match rest default sample_rate bitrate
  end.

(** The inspector's table, top to bottom. *)
Definition inspector_rules : list rule :=
  [ (fun sr _ => 96000 <=? sr, "Hi-Res (96kHz+)");
    (fun sr br => (48000 <=? sr) && (2000000 <=? br), "Lossless (48kHz)");
    (fun sr br => (44100 <=? sr) && (1000000 <=? br), "Lossless (44.1kHz)");
    (fun _ br => 500000 <=? br, "High Quality AAC 500kbps+");
    (fun _ br => 320000 <=? br, "AAC 320kbps") ].

End Tables.

(* ================================================================= *)
(** ** Running a function on its own *)

Module Run.
Import Py Sys.

(** The value [get_audio_bitrate] returns for a file and the events it
    adds, read off a run from an empty trace. *)
Definition resolved (f : file) : Z :=
  match Check.get_audio_bitrate f tt [] with
  | (Ok v, _, _) => v
  | (Raise _, _, _) => 0
  end.

Definition resolver_events (f : file) : trace :=
  snd (Check.get_audio_bitrate f tt []).

(** The outcome of the [try] block of [get_audio_bitrate]. *)
Definition try_outcome (f : file) : result (option Z) :=
  fst (fst (Check.get_audio_bitrate_try f tt [])).

(** A float whose sign bit is clear, or a NaN. *)
Definition sign_clear (x : pyfloat) : bool :=
  match x with
  | S754_zero s | S754_infinity s | S754_finite s _ _ => negb s
  | S754_nan => true
  end.

(** What the file system and mutagen are taken to deliver: sizes in bytes
    and bit rates in bits per second, neither negative. *)
Definition nonneg_bitrate (i : stream_info) : Prop :=
  forall b, info_bitrate i = Some b -> 0 <= b.

(** A duration that is zero or not given. *)
Definition no_duration (i : stream_info) : Prop :=
  info_length i = None \/ exists s, info_length i = Some (S754_zero s).

Record well_formed (f : file) : Prop := {
  wf_stat : forall n, node_stat (file_node f) = Ok n -> 0 <= n;
  wf_open : forall o a, node_open (file_node f) o = Ok a -> nonneg_bitrate (audio_info a);
  wf_probe : forall a, node_probe (file_node f) = Ok (Some a) -> nonneg_bitrate (audio_info a)
}.

End Run.

(* ================================================================= *)
(** ** Sample files and trees *)

Module Samples.
Import Py Sys.

Definition no_info : stream_info := mkinfo None None None.

(** 8.0 and 0.0 seconds. *)
Definition eight_seconds : pyfloat := S754_finite false 4503599627370496 (-49).

(** A file every opener reads the same way. *)
Definition readable (size : Z) (i : stream_info) : node :=
  let a := mkaudio true i [] [] in
  mknode true (Ok size) (fun _ => Ok a) (Ok (Some a)).

(** A dangling symbolic link: the name is listed, nothing can be read. *)
Definition dangling : node :=
  mknode false (Raise "[Errno 2] No such file or directory")
    (fun _ => Raise "[Errno 2] No such file or directory")
    (Raise "[Errno 2] No such file or directory").

(** A name that is not there at all. *)
Definition absent : node := dangling.

Definition in_music (nm : string) (n : node) : file :=
  mkfile (mkpath ["music"] nm) n.

(** CD audio: 1411200 bytes over 8 seconds. *)
Definition cd_wav : file :=
  in_music "take.wav" (readable 1411200 (mkinfo None (Some 44100) (Some eight_seconds))).

Definition mp3_320 : file :=
  in_music "song.mp3" (readable 9600000 (mkinfo (Some 320000) (Some 44100) None)).

Definition mp3_96 : file :=
  in_music "voice.mp3" (readable 2880000 (mkinfo (Some 96000) (Some 44100) None)).

Definition empty_wav : file :=
  in_music "empty.wav" (readable 0 (mkinfo None None (Some fzero))).

Definition broken_link : file := in_music "gone.mp3" dangling.

(** A text file that is not there, and one that is. *)
Definition missing_txt : file := in_music "notes.txt" absent.
Definition present_txt : file := in_music "notes.txt" (readable 120 no_info).

(** An Apple Lossless file: 44.1 kHz, 1.1 Mbit/s, 8 seconds, with a title
    and no cover. *)
Definition lossless_m4a : file :=
  in_music "track.m4a"
    (let a := mkaudio true (mkinfo (Some 1100000) (Some 44100) (Some eight_seconds))
                [("©nam", ["Intro"])] [] in
     mknode true (Ok 1100000) (fun _ => Ok a) (Ok (Some a))).

End Samples.

(* ================================================================= *)
(** ** What the report loops compute, file by file *)

Module Aggregate.
Import Py Sys.

(** [audio_file.stat().st_size / (1024*1024)], the first two lines of the
    [try] blocks of [check_audio_quality] and [quick_quality_check]. *)
Definition size_mb (f : file) : result pyfloat :=
  match node_stat (file_node f) with
  | Ok n => int_truediv n Check.MB
  | Raise e => Raise e
  end.

(** The key of [quality_stats] one file adds 1 to, in the detailed report
    and in the quick summary; the key of [bitrate_groups] it is appended
    under in the folder report. *)
Definition detailed_key (f : file) : string :=
  match size_mb f with
  | Ok _ => Tables.bucket (Check.get_audio_quality (Run.resolved f))
  | Raise _ => "Unknown Quality"
  end.

Definition quick_key (f : file) : string :=
  match size_mb f with
  | Ok _ => Check.get_audio_quality (Run.resolved f)
  | Raise _ => "Unknown Quality"
  end.

Definition folder_key (f : file) : string :=
  Check.get_audio_quality (Run.resolved f).

(** [total_size += file_size], skipped when the size could not be read. *)
Definition add_size (total : pyfloat) (f : file) : pyfloat :=
  match size_mb f with
  | Ok x => float_add total x
  | Raise _ => total
  end.

(** [d[k] = d.get(k, 0) + 1]. *)
Definition dict_incr (k : string) (d : dict Z) : dict Z :=
  dict_set k (dict_get_default k 0 d + 1) d.

(** [d.setdefault(k, []).append(f)]. *)
Definition dict_append (k : string) (f : file) (d : dict (list file)) : dict (list file) :=
  dict_set k (dict_get_default k [] d ++ [f])%list d.

Definition tally (key : file -> string) (l : list file) (d : dict Z) : dict Z :=
  fold_left (fun d f => dict_incr (key f) d) l d.

Definition grouping (l : list file) (d : dict (list file)) : dict (list file) :=
  fold_left (fun d f => dict_append (folder_key f) f d) l d.

Definition total_of (l : list file) (x : pyfloat) : pyfloat :=
  fold_left add_size l x.

(** [sum(d.values())]. *)
Definition sum_counts (d : dict Z) : Z := fold_right Z.add 0 (dict_values d).

(** The files of a list that a key function sends to [k], and how many. *)
Definition with_key (key : file -> string) (k : string) (l : list file) : list file :=
  filter (fun f => String.eqb (key f) k) l.

Definition count_key (key : file -> string) (k : string) (l : list file) : Z :=
  Check.len (with_key key k l).

Definition stats_keys : list string := map fst Check.initial_stats.

(** Every literal key of the detailed report is in the table. *)
Definition has_stats_keys (d : dict Z) : Prop :=
  forall k, In k stats_keys -> dict_get k d <> None.


(** The byte sizes that could be read, and their sum. *)
Definition bytes_of (f : file) : Z :=
  match node_stat (file_node f) with
  | Ok n => n
  | Raise _ => 0
  end.

Definition total_bytes (l : list file) : Z :=
  fold_right Z.add 0 (map bytes_of l).


(** The rows the two summaries print. *)
Definition detailed_rows (d : dict Z) : list (string * Z) :=
  filter (fun item => snd item >? 0) d.

Definition quick_rows (d : dict Z) : list (string * Z) :=
  Check.sorted_by_count_desc d.

(** [(count / total) * 100] as the summaries compute it, in double
    precision, where neither conversion raises. *)
Definition percent_of (count total : Z) : pyfloat :=
  match int_truediv count total, float_of_int 100 with
  | Ok r, Ok h => float_mul r h
  | _, _ => fzero
  end.

(** The line a row of each summary is printed as. *)
Definition summary_line (total : Z) (row : string * Z) : line :=
  [Lit (fst row ++ ": " ++ str_of_int (snd row) ++ " files (");
   Flt 1 (percent_of (snd row) total); Lit "%)"].

Definition quick_line (total : Z) (row : string * Z) : line :=
  [Lit ("  " ++ fst row ++ ": " ++ str_of_int (snd row) ++ " files (");
   Flt 1 (percent_of (snd row) total); Lit "%)"].

(** The locals once the loop of a report has run over [l]. *)
Definition after_loop (key : file -> string) (l : list file) (s : Check.locals)
    : Check.locals :=
  Check.mklocals (Check.audio_files s)
    (tally key l (Check.quality_stats s))
    (total_of l (Check.total_size s)).

Definition after_grouping (l : list file) (s : Check.folder_locals)
    : Check.folder_locals :=
  Check.mkfolder_locals (Check.folder_files s)
    (grouping l (Check.bitrate_groups s)).

End Aggregate.

(* ================================================================= *)
(** ** Sample worlds *)

Module Worlds.
Import Py Sys Samples.

Definition as_entry (f : file) : entry := Entry (name (file_path f)) (file_node f) [].

(** A music folder with an album below it. *)
Definition music : folder :=
  mkfolder ["music"]
    [ as_entry cd_wav;
      Entry "album" (readable 4096 no_info) [as_entry mp3_320; as_entry mp3_96];
      as_entry broken_link;
      Entry "notes.txt" (readable 120 no_info) [] ].

Definition empty_folder : folder := mkfolder ["empty"] [].

(** One 320 kbps MP3 and one WAV of no bytes and no duration. *)
Definition two_files : world :=
  mkworld Posix (mkfolder ["pair"] [as_entry mp3_320; as_entry empty_wav])
    (fun _ => None).

Definition posix_music : world :=
  mkworld Posix music
    (fun p => if String.eqb p "empty" then Some empty_folder
              else if String.eqb p "music" then Some music
              else None).

Definition posix_empty : world :=
  mkworld Posix empty_folder (fun _ => None).

(** One file whose extension is in upper case. *)
Definition upper_case : folder :=
  mkfolder ["rips"] [Entry "Song.MP3" (file_node mp3_320) []].

End Worlds.

(* ================================================================= *)
(** ** Sizes that double precision holds exactly *)

Module Exact.
Import Py Sys.

(** The number of binary digits of a positive integer. *)
Definition digits (n : Z) : Z := Z.log2 n + 1.

(** The double that is [n / 2^20] for [0 <= n < 2^53]: the mantissa is [n]
    shifted up to 53 digits. *)
Definition exact_mb (n : Z) : pyfloat :=
  if n =? 0 then S754_zero false
  else S754_finite false (Z.to_pos (n * 2 ^ (53 - digits n))) (digits n - 73).

(** Three files of 2^53, 1 and 1 bytes, in two orders. *)
Definition sized (nm : string) (n : Z) : file :=
  Samples.in_music nm (Samples.readable n (mkinfo (Some 320000) (Some 44100) None)).

Definition huge_first : list file :=
  [sized "a.mp3" (2 ^ 53); sized "b.mp3" 1; sized "c.mp3" 1].

Definition huge_last : list file :=
  [sized "b.mp3" 1; sized "c.mp3" 1; sized "a.mp3" (2 ^ 53)].

End Exact.

(* ================================================================= *)
(** ** What the scan is compared with *)

Module Scan.
Import Py Sys.

(** [s.endswith(suf)]: [s] itself or one of its tails is [suf]. *)
Fixpoint endswith (s suf : string) : bool :=
  (String.eqb s suf ||
   match s with
   | EmptyString => false
   | String _ s' => endswith s' suf
   end)%bool.

(** A name that ends with one of the eight extensions: as written on
    POSIX, in any letter case on Windows. *)
Definition audio_name (fl : flavour) (nm : string) : bool :=
  existsb (endswith (match fl with Posix => nm | Windows => lower nm end))
    Check.audio_extensions.

Definition is_audio (fl : flavour) (f : file) : bool :=
  audio_name fl (name (file_path f)).

(** A pattern character [fnmatch] reads literally. *)
Definition literal_char (c : ascii) : bool :=
  negb (Ascii.eqb c "*"%char || Ascii.eqb c "?"%char).

Fixpoint literal (s : string) : bool :=
  match s with
  | EmptyString => true
  | String c s' => (literal_char c && literal s')%bool
  end.

End Scan.

(* ================================================================= *)
(** ** check.py: the menu *)

Module Menu.
Import Py Sys.

(** What crosses the terminal: what a called function printed or called,
    and the prompts of [input]. *)
Inductive io :=
| Out (e : event)
| Prompt (text : string).

Definition transcript := list io.

Definition say (s : string) : io := Out (Print [Lit s]).

(** A call of a function of the script: fresh locals, and the caller sees
    how it ended and what it did. *)
Definition call {S A} (m : M S A) (s0 : S) : result A * transcript :=
  (outcome m s0, map Out (final_trace m s0)).

Definition banner : transcript :=
  [say "Audio Quality Checker";
   say (Check.str_mul "=" 50);
   say "Check bitrate and quality of your audio files"].

(** The top of a turn of the [while True] loop, up to the prompt. *)
Definition options : transcript :=
  [say (Check.nl ++ "Options:");
   say "1. Check all audio files (detailed report)";
   say "2. Quick quality check (summary only)";
   say "3. Check specific folder";
   say "4. Exit";
   Prompt (Check.nl ++ "Choose option (1/2/3/4): ")].

Definition folder_prompt : io := Prompt "Enter folder path to check: ".

Definition EOFError : exn := "EOF when reading a line".

(** The [while True] loop of [main] over the lines standard input still
    holds.  [input] raises [EOFError] when there is none left; the prompt
    of [check_specific_folder] is answered by the next line. *)
Fixpoint menu (w : world) (stdin : list string) : result unit * transcript :=
  match stdin with
  | [] => (Raise EOFError, options)
  | line :: rest =>
      let choice := strip line in
      if String.eqb choice "1" then
        match call (Check.check_audio_quality w) Check.no_locals with
        | (Ok _, t) => let '(r, t') := menu w rest in (r, options ++ t ++ t')
        | (Raise e, t) => (Raise e, options ++ t)
        end
      else if String.eqb choice "2" then
        match call (Check.quick_quality_check w) Check.no_locals with
        | (Ok _, t) => let '(r, t') := menu w rest in (r, options ++ t ++ t')
        | (Raise e, t) => (Raise e, options ++ t)
        end
      else if String.eqb choice "3" then
        match rest with
        | [] => (Raise EOFError, options ++ [folder_prompt])
        | typed :: rest' =>
            match call (Check.check_specific_folder w typed) Check.no_folder_locals with
            | (Ok _, t) =>
                let '(r, t') := menu w rest' in
                (r, options ++ folder_prompt :: t ++ t')
            | (Raise e, t) => (Raise e, options ++ folder_prompt :: t)
            end
        end
      else if String.eqb choice "4" then
        (Ok tt, options ++ [say "Goodbye!"])
      else
        let '(r, t') := menu w rest in
        (r, options ++ say "Invalid choice! Please enter 1, 2, 3, or 4." :: t')
  end%list.

Definition main (w : world) (stdin : list string) : result unit * transcript :=
  let '(r, t) := menu w stdin in (r, banner ++ t)%list.

(** A line that the menu reads as the choice [c]. *)
Definition chooses (c : string) (line : string) : bool := String.eqb (strip line) c.

End Menu.

(* ================================================================= *)
(** ** metadata.py: the command line, and what a report holds *)

Module Inspect.
Import Py Sys.

Definition usage : string :=
  "Usage: python check_audio_metadata.py <file.m4a or file.mp4>".

Definition tag_keys : list string := ["©nam"; "©ART"; "©alb"; "aART"].

(** The text a tag line shows: the first value, or Unknown without the key. *)
Definition tag_text (key : string) (a : audio) : string :=
  match dict_get key (audio_tags a) with
  | Some (v :: _) => v
  | _ => "Unknown"
  end.

(** A key that is there with no value at all. *)
Definition tag_empty (key : string) (a : audio) : bool :=
  match dict_get key (audio_tags a) with
  | Some [] => true
  | _ => false
  end.

Definition finite (x : pyfloat) : bool :=
  match x with
  | S754_nan | S754_infinity _ => false
  | _ => true
  end.

Definition sample_rate_or_0 (i : stream_info) : Z :=
  match info_sample_rate i with Some r => r | None => 0 end.

(** The eleven lines of a report on a file without cover art;
    [file_size] is the size in megabytes. *)
Definition report_without_cover (f : file) (a : audio) (file_size : pyfloat) : list line :=
  [ [Lit ("File: " ++ name (file_path f))];
    [Lit ("Title: " ++ tag_text "©nam" a)];
    [Lit ("Artist: " ++ tag_text "©ART" a)];
    [Lit ("Album: " ++ tag_text "©alb" a)];
    [Lit ("Album Artist: " ++ tag_text "aART" a)];
    [Lit ("Bitrate: " ++ str_of_int (Check.bitrate_or_0 (audio_info a) / 1000) ++ " kbps")];
    [Lit ("Sample Rate: " ++ str_of_int (sample_rate_or_0 (audio_info a)) ++ " Hz")];
    [Lit "Duration: "; MinSec (Check.length_or_0 (audio_info a))];
    [Lit "File Size: "; Flt 2 file_size; Lit " MB"];
    [Lit ("Quality: "
          ++ Metadata.quality_label (sample_rate_or_0 (audio_info a))
               (Check.bitrate_or_0 (audio_info a)))];
    [Lit "No embedded album art found"] ].

(** A supported file that is there. *)
Definition supported (f : file) : Prop :=
  node_exists (file_node f) = true /\
  str_in (lower (suffix (file_path f))) [".m4a"; ".mp4"] = true.

(** An [.m4a] file that the MP4 reader rejects. *)
Definition not_mp4 : file :=
  Samples.in_music "noise.m4a"
    (mknode true (Ok 4096) (fun _ => Raise "not a MP4 file") (Ok None)).

(** The last line of a report on a file with cover art; [kb] is the
    size of the cover in kilobytes. *)
Definition cover_line (c : cover) (resolution : Z * Z) (kb : pyfloat) : line :=
  [Lit ("Embedded Album Art: "
        ++ (if imageformat c =? FORMAT_JPEG then "JPEG" else "PNG") ++ ", "
        ++ str_of_int (fst resolution) ++ "x" ++ str_of_int (snd resolution) ++ " px, ");
   Flt 2 kb; Lit " KB"].

(** An [.m4a] file with two covers; the first is neither JPEG nor PNG. *)
Definition covered_m4a : file :=
  Samples.in_music "single.m4a"
    (let a := mkaudio true (mkinfo (Some 320000) (Some 44100) (Some Samples.eight_seconds))
                [("©nam", ["Intro"])]
                [mkcover 0 2048 (Ok (600, 600)); mkcover 13 4096 (Ok (1200, 1200))] in
     mknode true (Ok 1048576) (fun _ => Ok a) (Ok (Some a))).

(** An [.m4a] file whose length the reader gives as infinite. *)
Definition endless_m4a : file :=
  Samples.in_music "stream.m4a"
    (let a := mkaudio true (mkinfo (Some 256000) (Some 48000) (Some (S754_infinity false)))
                [] [] in
     mknode true (Ok 2097152) (fun _ => Ok a) (Ok (Some a))).

End Inspect.

(* ================================================================= *)
(** ** What the summaries are read against *)

Module Rows.
Import Py Sys.

(** The order of [sorted(..., key=lambda x: x[1], reverse=True)]. *)
Definition by_count_desc (a b : string * Z) : Prop := snd b <= snd a.

(** The rows of a table with a given count, in the order they stand in. *)
Definition with_count (c : Z) (rows : dict Z) : dict Z :=
  filter (fun row => snd row =? c) rows.

(** The rows of the quick summary whose label the detailed report files
    under the key [k]. *)
Definition in_tier (k : string) (rows : dict Z) : dict Z :=
  filter (fun row => String.eqb (Tables.bucket (fst row)) k) rows.

(** The rational a double stands for; 0 for what is not a number. *)
Definition float_value (x : pyfloat) : Q :=
  match x with
  | S754_finite s m e =>
      let v := if e <? 0 then Z.pos m # Z.to_pos (2 ^ (- e))
               else inject_Z (Z.pos m * 2 ^ e) in
      if s then Qopp v else v
  | _ => 0%Q
  end.


End Rows.

(* ================================================================= *)
(** ** What the folder report prints for its groups *)

Module Groups.
Import Py Sys.

(** A file whose size in megabytes can be computed. *)
Definition sized (f : file) : bool := negb (is_raise (Aggregate.size_mb f)).

Definition file_line (f : file) (file_size : pyfloat) : line :=
  [Lit ("   🔊 " ++ name (file_path f) ++ " ("); Flt 1 file_size; Lit " MB)"].

Definition group_header (row : string * list file) : line :=
  [Lit (Check.nl ++ fst row ++ " (" ++ str_of_int (Check.len (snd row)) ++ " files):")].

(** A line for each file of a group, in the order of the group. *)
Definition file_lines (files : list file) : list line :=
  flat_map (fun f => match Aggregate.size_mb f with
                     | Ok x => [file_line f x]
                     | Raise _ => []
                     end) files.

(** The lines of one group: its header, then its files. *)
Definition group_lines (row : string * list file) : list line :=
  group_header row :: file_lines (snd row).

(** The three lines before the groups. *)
Definition folder_head (target : folder) (found : list file) : list line :=
  [ [Lit (Check.nl ++ "Checking audio quality in: "
          ++ String.concat "/" (folder_path target))];
    [Lit (Check.str_mul "=" 60)];
    [Lit ("Found " ++ str_of_int (Check.len found) ++ " audio files" ++ Check.nl)] ].

(** A folder whose files can all be read: two MP3 files and a WAV. *)
Definition album : folder :=
  mkfolder ["album"]
    [ Worlds.as_entry Samples.mp3_320;
      Worlds.as_entry Samples.mp3_96;
      Worlds.as_entry Samples.cd_wav ].

Definition album_world : world :=
  mkworld Posix Worlds.music
    (fun p => if String.eqb p "album" then Some album else None).

End Groups.

(* ================================================================= *)
(** ** What the resolver does to a file *)

Module Footprint.
Import Py Sys.

(** The events of a trace that leave the process. *)
Definition calls (t : trace) : trace :=
  filter (fun e => match e with Print _ => false | _ => true end) t.

(** The sequences of calls a file can be put through, by its extension. *)
Definition touches (f : file) : list trace :=
  let p := file_path f in
  let ext := lower (suffix p) in
  if str_in ext [".m4a"; ".mp4"] then [[CallOpen MP4 p]]
  else if String.eqb ext ".mp3" then [[CallOpen MP3 p]]
  else if String.eqb ext ".flac" then [[CallOpen FLAC p]; [CallOpen FLAC p; CallStat p]]
  else if str_in ext [".wav"; ".wave"] then [[CallOpen WAVE p]; [CallOpen WAVE p; CallStat p]]
  else if str_in ext [".aac"; ".ogg"; ".opus"; ".wma"] then [[CallProbe p]]
  else [[]].

End Footprint.

(* ================================================================= *)
(** ** What the two reports over the script's folder print *)

Module Output.
Import Py Sys.


(** What one turn of the loop of the detailed report does: the calls it
    makes and the lines it prints.  Where the size cannot be read, the
    resolver is not reached. *)
Definition detailed_events (f : file) : trace :=
  let p := file_path f in
  let failed e :=
    [CallStat p; Print [Lit ("❌ Error checking " ++ name p ++ ": " ++ e)]; Print []] in
  match node_stat (file_node f) with
  | Raise e => failed e
  | Ok n =>
      match int_truediv n Check.MB with
      | Raise e => failed e
      | Ok file_size =>
          (CallStat p :: Run.resolver_events f
           ++ map Print
                [ [Lit ("🔊 " ++ name p)];
                  [Lit ("   📁 Location: " ++ parent_name p ++ "/")];
                  [Lit "   📊 Size: "; Flt 2 file_size; Lit " MB"];
                  [Lit ("   🎵 Bitrate: " ++ str_of_int (Run.resolved f) ++ " kbps")];
                  [Lit ("   ⭐ Quality: " ++ Check.get_audio_quality (Run.resolved f))];
                  [] ])%list
      end
  end.

(** The lines one file adds to the quick summary: none of its own. *)
Definition quick_block (f : file) : list line :=
  match Aggregate.size_mb f with
  | Ok _ => printed (Run.resolver_events f)
  | Raise _ => []
  end.

Definition detailed_head (files : list file) : list line :=
  [ [Lit "Audio Quality Checker"];
    [Lit (Check.str_mul "=" 60)];
    [Lit ("Found " ++ str_of_int (Check.len files) ++ " audio files" ++ Check.nl)];
    [Lit "📊 Audio File Quality Report:"];
    [Lit (Check.str_mul "-" 60)] ].

Definition summary_head : list line :=
  [ [Lit (Check.str_mul "=" 60)];
    [Lit "📈 QUALITY SUMMARY:"];
    [Lit (Check.str_mul "=" 60)] ].

Definition quick_head (files : list file) (total : pyfloat) : list line :=
  [ [Lit (Check.nl ++ "🎵 QUICK QUALITY CHECK:")];
    [Lit (Check.str_mul "=" 40)];
    [Lit ("Total files: " ++ str_of_int (Check.len files))];
    [Lit "Total size: "; Flt 1 total; Lit " MB"];
    [Lit (Check.nl ++ "Quality Distribution:")] ].

End Output.

(* ================================================================= *)
(** ** What is typed at a prompt *)

Module Input.
Import Py Sys.

(** A line of white space only: every character of it is one that
    [str.strip] takes. *)
Fixpoint blank (s : string) : bool :=
  match s with
  | EmptyString => true
  | String c1 s1 =>
      (is_space c1 && blank s1)
      || match s1 with
         | EmptyString => false
         | String c2 s2 =>
             (is_space2 c1 c2 && blank s2)
             || match s2 with
                | EmptyString => false
                | String c3 s3 => is_space3 c1 c2 c3 && blank s3
                end
         end
  end.

(** A string made of characters that [p1], [p2] or [p3] takes, of one,
    two and three bytes. *)
Inductive made_of (p1 : ascii -> bool) (p2 : ascii -> ascii -> bool)
    (p3 : ascii -> ascii -> ascii -> bool) : string -> Prop :=
| made_nil : made_of p1 p2 p3 EmptyString
| made_1 c1 s : p1 c1 = true -> made_of p1 p2 p3 s -> made_of p1 p2 p3 (String c1 s)
| made_2 c1 c2 s :
    p2 c1 c2 = true -> made_of p1 p2 p3 s -> made_of p1 p2 p3 (String c1 (String c2 s))
| made_3 c1 c2 c3 s :
    p3 c1 c2 c3 = true -> made_of p1 p2 p3 s ->
    made_of p1 p2 p3 (String c1 (String c2 (String c3 s))).

(** White space read forwards, and read from the end. *)
Definition white : string -> Prop := made_of is_space is_space2 is_space3.

Definition white_backwards : string -> Prop :=
  made_of is_space (fun c2 c1 => is_space2 c1 c2) (fun c3 c2 c1 => is_space3 c1 c2 c3).

(** A line that is one no-break space, U+00A0. *)
Definition nbsp : string := String (ascii_of_nat 194) (String (ascii_of_nat 160) EmptyString).

End Input.

(* ================================================================= *)
(** ** The script on a machine that can refuse *)

(** [print] raises when standard output does not take the line:
    [UnicodeEncodeError] for a character it cannot encode (a file name,
    an emoji on a legacy console), [OSError] when it is closed.
    [Path.exists] raises the [OSError]s that do not mean absence (a name
    that is too long, a directory that may not be searched).  The modules
    above are the script on a machine where neither happens; here both are
    part of the machine, and the functions that print or test a path are
    given again over it. *)
Module Hosted.
Import Py Sys.
Local Open Scope py_scope.

Record host := mkhost {
  stdout : line -> result unit;          (* what [print] of a line does *)
  exists_error : string -> option exn    (* what [Path(p).exists()] raises, if it does *)
}.

(** The machine of the modules above. *)
Definition ideal : host := mkhost (fun _ => Ok tt) (fun _ => None).

Definition takes_all (h : host) : Prop := forall l, stdout h l = Ok tt.

Definition print {S} (h : host) (l : line) : M S unit :=
  match stdout h l with
  | Ok _ => emit (Print l)
  | Raise e => lift (Raise e)
  end.

(** *** check.py *)

Definition get_audio_bitrate {S} (h : host) (file_path : file) : M S Z :=
  r <- try_except (Check.get_audio_bitrate_try file_path)
         (fun e => print h (Check.error_reading file_path e) ;; ret (Some 0)) ;;
  match r with
  | Some v => ret v
  | None => ret 0
  end.

Definition check_one (h : host) (audio_file : file) : M Check.locals unit :=
  try_except
    (st_size <- stat audio_file ;;
     file_size <- lift (int_truediv st_size Check.MB) ;;
     modify (fun s => Check.set_total_size (float_add (Check.total_size s) file_size) s) ;;
     bitrate <- get_audio_bitrate h audio_file ;;
     let quality := Check.get_audio_quality bitrate in
     (if contains "320kbps" quality then Check.incr_stat "320kbps (High Quality)"
      else if contains "256kbps" quality then Check.incr_stat "256kbps (Good Quality)"
      else if contains "192kbps" quality then Check.incr_stat "192kbps (Medium Quality)"
      else if contains "128kbps" quality then Check.incr_stat "128kbps (Standard Quality)"
      else if contains "Low Quality" quality then Check.incr_stat "Low Quality"
      else Check.incr_stat "Unknown Quality") ;;
     print h [Lit ("🔊 " ++ name (file_path audio_file))] ;;
     print h [Lit ("   📁 Location: " ++ parent_name (file_path audio_file) ++ "/")] ;;
     print h [Lit "   📊 Size: "; Flt 2 file_size; Lit " MB"] ;;
     print h [Lit ("   🎵 Bitrate: " ++ str_of_int bitrate ++ " kbps")] ;;
     print h [Lit ("   ⭐ Quality: " ++ quality)] ;;
     print h [])
    (fun e =>
       print h [Lit ("❌ Error checking " ++ name (file_path audio_file) ++ ": " ++ e)] ;;
       Check.incr_stat "Unknown Quality" ;;
       print h []).

Definition summary_row (h : host) (total : Z) (item : string * Z) : M Check.locals unit :=
  let '(quality_type, count) := item in
  if count >? 0 then
    p <- Check.percentage count total ;;
    print h [Lit (quality_type ++ ": " ++ str_of_int count ++ " files ("); Flt 1 p; Lit "%)"]
  else ret tt.

Definition check_audio_quality (h : host) (w : world) : M Check.locals unit :=
  print h [Lit "Audio Quality Checker"] ;;
  print h [Lit (Check.str_mul "=" 60)] ;;
  modify (Check.set_audio_files (Check.find_audio_files (os_flavour w) (script_dir w))) ;;
  s <- get ;;
  match Check.audio_files s with
  | [] => print h [Lit "No audio files found!"]
  | _ =>
    print h [Lit ("Found " ++ str_of_int (Check.len (Check.audio_files s))
                  ++ " audio files" ++ Check.nl)] ;;
    modify (Check.set_quality_stats Check.initial_stats) ;;
    modify (Check.set_total_size fzero) ;;
    print h [Lit "📊 Audio File Quality Report:"] ;;
    print h [Lit (Check.str_mul "-" 60)] ;;
    for_each (Check.audio_files s) (check_one h) ;;
    print h [Lit (Check.str_mul "=" 60)] ;;
    print h [Lit "📈 QUALITY SUMMARY:"] ;;
    print h [Lit (Check.str_mul "=" 60)] ;;
    s1 <- get ;;
    for_each (Check.quality_stats s1) (summary_row h (Check.len (Check.audio_files s))) ;;
    print h [Lit (Check.nl ++ "📦 Total files: "
                  ++ str_of_int (Check.len (Check.audio_files s)))] ;;
    print h [Lit "💾 Total size: "; Flt 2 (Check.total_size s1); Lit " MB"]
  end.

Definition group_one (h : host) (audio_file : file) : M Check.folder_locals unit :=
  try_except
    (bitrate <- get_audio_bitrate h audio_file ;;
     let quality := Check.get_audio_quality bitrate in
     modify (fun s =>
       let groups :=
         match dict_get quality (Check.bitrate_groups s) with
         | Some _ => Check.bitrate_groups s
         | None => dict_set quality [] (Check.bitrate_groups s)
         end in
       Check.mkfolder_locals (Check.folder_files s)
         (dict_set quality (dict_get_default quality [] groups ++ [audio_file])%list groups)))
    (fun e => print h [Lit ("Error checking " ++ name (file_path audio_file) ++ ": " ++ e)]).

Definition print_grouped_file (h : host) (audio_file : file) : M Check.folder_locals unit :=
  st_size <- stat audio_file ;;
  file_size <- lift (int_truediv st_size Check.MB) ;;
  print h [Lit ("   🔊 " ++ name (file_path audio_file) ++ " ("); Flt 1 file_size; Lit " MB)"].

Definition print_group (h : host) (item : string * list file) : M Check.folder_locals unit :=
  let '(quality, files) := item in
  print h [Lit (Check.nl ++ quality ++ " (" ++ str_of_int (Check.len files) ++ " files):")] ;;
  for_each files (print_grouped_file h).

(** [typed] is the line [input] returns. *)
Definition check_specific_folder (h : host) (w : world) (typed : string)
    : M Check.folder_locals unit :=
  let folder_path := strip typed in
  if String.eqb folder_path "" then print h [Lit "No folder specified!"]
  else
    match exists_error h folder_path with
    | Some e => lift (Raise e)
    | None =>
      match resolve w folder_path with
      | None => print h [Lit ("Folder '" ++ folder_path ++ "' does not exist!")]
      | Some target_folder =>
        print h [Lit (Check.nl ++ "Checking audio quality in: "
                      ++ String.concat "/" (Sys.folder_path target_folder))] ;;
        print h [Lit (Check.str_mul "=" 60)] ;;
        let found := Check.find_audio_files (os_flavour w) target_folder in
        modify (fun s => Check.mkfolder_locals found (Check.bitrate_groups s)) ;;
        match found with
        | [] => print h [Lit "No audio files found in the specified folder!"]
        | _ =>
          print h [Lit ("Found " ++ str_of_int (Check.len found) ++ " audio files" ++ Check.nl)] ;;
          modify (fun s => Check.mkfolder_locals (Check.folder_files s) []) ;;
          for_each found (group_one h) ;;
          s1 <- get ;;
          for_each (Check.bitrate_groups s1) (print_group h)
        end
      end
    end.

Definition quick_one (h : host) (audio_file : file) : M Check.locals unit :=
  try_except
    (st_size <- stat audio_file ;;
     file_size <- lift (int_truediv st_size Check.MB) ;;
     modify (fun s => Check.set_total_size (float_add (Check.total_size s) file_size) s) ;;
     bitrate <- get_audio_bitrate h audio_file ;;
     let quality := Check.get_audio_quality bitrate in
     modify (fun s =>
       Check.set_quality_stats
         (dict_set quality (dict_get_default quality 0 (Check.quality_stats s) + 1)
            (Check.quality_stats s)) s))
    (fun _ =>
       modify (fun s =>
         Check.set_quality_stats
           (dict_set "Unknown Quality"
              (dict_get_default "Unknown Quality" 0 (Check.quality_stats s) + 1)
              (Check.quality_stats s)) s)).

Definition quick_row (h : host) (total : Z) (item : string * Z) : M Check.locals unit :=
  let '(quality, count) := item in
  p <- Check.percentage count total ;;
  print h [Lit ("  " ++ quality ++ ": " ++ str_of_int count ++ " files ("); Flt 1 p; Lit "%)"].

Definition quick_quality_check (h : host) (w : world) : M Check.locals unit :=
  modify (Check.set_audio_files (Check.find_audio_files (os_flavour w) (script_dir w))) ;;
  s <- get ;;
  match Check.audio_files s with
  | [] => print h [Lit "No audio files found!"]
  | _ =>
    modify (Check.set_quality_stats []) ;;
    modify (Check.set_total_size fzero) ;;
    for_each (Check.audio_files s) (quick_one h) ;;
    s1 <- get ;;
    print h [Lit (Check.nl ++ "🎵 QUICK QUALITY CHECK:")] ;;
    print h [Lit (Check.str_mul "=" 40)] ;;
    print h [Lit ("Total files: " ++ str_of_int (Check.len (Check.audio_files s)))] ;;
    print h [Lit "Total size: "; Flt 1 (Check.total_size s1); Lit " MB"] ;;
    print h [Lit (Check.nl ++ "Quality Distribution:")] ;;
    for_each (Check.sorted_by_count_desc (Check.quality_stats s1))
      (quick_row h (Check.len (Check.audio_files s)))
  end.

(** *** The menu of [main] *)

(** How a stretch of the program ended and what crossed the terminal. *)
Definition run (A : Type) : Type := result A * Menu.transcript.

Definition and_then {A B} (a : run A) (k : A -> run B) : run B :=
  match a with
  | (Ok x, t) => let '(r, t') := k x in (r, (t ++ t')%list)
  | (Raise e, t) => (Raise e, t)
  end.

Definition say (h : host) (s : string) : run unit :=
  match stdout h [Lit s] with
  | Ok _ => (Ok tt, [Menu.say s])
  | Raise e => (Raise e, [])
  end.

Fixpoint say_each (h : host) (lines : list string) : run unit :=
  match lines with
  | [] => (Ok tt, [])
  | s :: rest => and_then (say h s) (fun _ => say_each h rest)
  end.

(** The prompt of [input] goes through standard output as well. *)
Definition prompt (h : host) (text : string) : run unit :=
  match stdout h [Lit text] with
  | Ok _ => (Ok tt, [Menu.Prompt text])
  | Raise e => (Raise e, [])
  end.

Definition call {S A} (m : M S A) (s0 : S) : run A :=
  (outcome m s0, map Menu.Out (final_trace m s0)).

Definition banner_lines : list string :=
  ["Audio Quality Checker";
   Check.str_mul "=" 50;
   "Check bitrate and quality of your audio files"].

Definition option_lines : list string :=
  [Check.nl ++ "Options:";
   "1. Check all audio files (detailed report)";
   "2. Quick quality check (summary only)";
   "3. Check specific folder";
   "4. Exit"].

Definition choose : string := Check.nl ++ "Choose option (1/2/3/4): ".
Definition enter_folder : string := "Enter folder path to check: ".

(** The [while True] loop of [main] over the lines standard input still
    holds; [input] raises [EOFError] when there is none left. *)
Fixpoint menu (h : host) (w : world) (stdin : list string) : run unit :=
  and_then (say_each h option_lines) (fun _ =>
  and_then (prompt h choose) (fun _ =>
  match stdin with
  | [] => (Raise Menu.EOFError, [])
  | line :: rest =>
      let choice := strip line in
      if String.eqb choice "1" then
        and_then (call (check_audio_quality h w) Check.no_locals) (fun _ => menu h w rest)
      else if String.eqb choice "2" then
        and_then (call (quick_quality_check h w) Check.no_locals) (fun _ => menu h w rest)
      else if String.eqb choice "3" then
        and_then (prompt h enter_folder) (fun _ =>
        match rest with
        | [] => (Raise Menu.EOFError, [])
        | typed :: rest' =>
            and_then (call (check_specific_folder h w typed) Check.no_folder_locals)
              (fun _ => menu h w rest')
        end)
      else if String.eqb choice "4" then say h "Goodbye!"
      else
        and_then (say h "Invalid choice! Please enter 1, 2, 3, or 4.")
          (fun _ => menu h w rest)
  end)).

Definition main (h : host) (w : world) (stdin : list string) : run unit :=
  and_then (say_each h banner_lines) (fun _ => menu h w stdin).

(** *** metadata.py *)

Definition get_audio_info (h : host) (file_path : file) : M Metadata.locals unit :=
  let p := Sys.file_path file_path in
  match exists_error h (path_str p) with
  | Some e => lift (Raise e)
  | None =>
  if negb (node_exists (file_node file_path)) then
    print h [Lit ("File not found: " ++ path_str p)]
  else if negb (str_in (lower (suffix p)) [".m4a"; ".mp4"]) then
    print h [Lit "Only supports .m4a or .mp4 files"]
  else
    try_except
      (audio <- open_with MP4 file_path ;;
       let bitrate := Check.bitrate_or_0 (audio_info audio) in
       let sample_rate :=
         match info_sample_rate (audio_info audio) with Some r => r | None => 0 end in
       let length := Check.length_or_0 (audio_info audio) in
       st_size <- stat file_path ;;
       file_size <- lift (int_truediv st_size (1024 * 1024)) ;;
       let quality := Metadata.quality_label sample_rate bitrate in
       modify (fun _ => Metadata.mklocals (Some quality)) ;;
       title <- lift (Metadata.first_tag "©nam" audio) ;;
       artist <- lift (Metadata.first_tag "©ART" audio) ;;
       album <- lift (Metadata.first_tag "©alb" audio) ;;
       album_artist <- lift (Metadata.first_tag "aART" audio) ;;
       let covers := audio_covr audio in
       art <- match covers with
              | cover :: _ =>
                  let image_format :=
                    if imageformat cover =? FORMAT_JPEG then "JPEG" else "PNG" in
                  emit (CallImageOpen p) ;;
                  resolution <- lift (image_size cover) ;;
                  ret (Some (image_format, resolution, cover_len cover))
              | [] => ret None
              end ;;
       print h [Lit ("File: " ++ name p)] ;;
       print h [Lit ("Title: " ++ title)] ;;
       print h [Lit ("Artist: " ++ artist)] ;;
       print h [Lit ("Album: " ++ album)] ;;
       print h [Lit ("Album Artist: " ++ album_artist)] ;;
       print h [Lit ("Bitrate: " ++ str_of_int (bitrate / 1000) ++ " kbps")] ;;
       print h [Lit ("Sample Rate: " ++ str_of_int sample_rate ++ " Hz")] ;;
       d <- lift (Metadata.duration_line length) ;;
       print h d ;;
       print h [Lit "File Size: "; Flt 2 file_size; Lit " MB"] ;;
       print h [Lit ("Quality: " ++ quality)] ;;
       match art with
       | Some (image_format, (width, height), cover_size) =>
           kb <- lift (int_truediv cover_size 1024) ;;
           print h [Lit ("Embedded Album Art: " ++ image_format ++ ", "
                         ++ str_of_int width ++ "x" ++ str_of_int height ++ " px, ");
                    Flt 2 kb; Lit " KB"]
       | None => print h [Lit "No embedded album art found"]
       end)
      (fun e => print h [Lit ("Error reading file: " ++ e)])
  end.

(** The [__main__] block: the exit status of the process and what it
    did.  An exception that nothing catches ends the process with
    status 1, as [sys.exit(1)] does. *)
Definition script (h : host) (locate : string -> file) (argv : list string) : Z * trace :=
  match argv with
  | _ :: arg :: _ =>
      let '(r, _, t) := get_audio_info h (locate arg) Metadata.no_locals [] in
      (match r with Ok _ => 0 | Raise _ => 1 end, t)
  | _ =>
      let '(_, _, t) := print h [Lit Inspect.usage] tt [] in (1, t)
  end.

(** *** Machines to run on *)

(** A console that cannot encode [bad]: it refuses the lines whose text
    holds it. *)
Definition holds (bad : string) (p : piece) : bool :=
  match p with
  | Lit s => contains bad s
  | _ => false
  end.

Definition UnicodeEncodeError : exn := "codec can't encode character".

Definition cannot_encode (bad : string) : host :=
  mkhost (fun l => if existsb (holds bad) l then Raise UnicodeEncodeError else Ok tt)
         (fun _ => None).

(** An MP3 file the decoder rejects, whose name holds a byte that is no
    UTF-8: Python decodes it to a lone surrogate, which a UTF-8 console
    cannot encode. *)
Definition odd_byte : string := String (ascii_of_nat 255) EmptyString.

Definition odd_name_mp3 : file :=
  Samples.in_music ("caf" ++ odd_byte ++ ".mp3")
    (mknode true (Ok 4096) (fun _ => Raise "can't sync to MPEG frame") (Ok None)).

(** A file system on which [exists] fails for the path [p]. *)
Definition cannot_stat (p : string) (e : exn) : host :=
  mkhost (fun _ => Ok tt) (fun q => if String.eqb q p then Some e else None).

End Hosted.

Local Open Scope list_scope.

(** Unfolding of the monad's operations, one layer at a time. *)
Ltac mstep :=
  cbv beta iota zeta delta
    [Sys.bind Sys.ret Sys.lift Sys.emit Sys.print Sys.try_except Sys.stat
     Sys.open_with Sys.probe Sys.get Sys.modify
     Check.size_duration_kbps fst snd].

(** Case analysis on the innermost scrutinee first. *)
Ltac destruct_inner :=
  match goal with
  | |- context [match ?x with _ => _ end] =>
      lazymatch x with
      | context [match _ with _ => _ end] => fail
      | _ => destruct x eqn:?
      end
  end.


(* ================================================================= *)
(** ** The quality classifier *)

Section Classifier.
Import Py Sys Check Tables.

Ltac by_threshold :=
  unfold get_audio_quality, tier_by_value;
  repeat match goal with
         | |- context [?a >=? ?b] => destruct (Z.geb_spec a b); try lia
         | |- context [?a >? ?b] => destruct (Z.gtb_spec a b); try lia
         | |- context [?a <=? ?b] => destruct (Z.leb_spec a b); try lia
         | |- context [?a <? ?b] => destruct (Z.ltb_spec a b); try lia
         end;
  try reflexivity.

Lemma quality_high b :
  320 <= b -> get_audio_quality b = "320kbps (High Quality)".
Proof. intros; by_threshold. Qed.

Lemma quality_good b :
  256 <= b < 320 -> get_audio_quality b = "256kbps (Good Quality)".
Proof. intros; by_threshold. Qed.

Lemma quality_medium b :
  192 <= b < 256 -> get_audio_quality b = "192kbps (Medium Quality)".
Proof. intros; by_threshold. Qed.

Lemma quality_standard b :
  128 <= b < 192 -> get_audio_quality b = "128kbps (Standard Quality)".
Proof. intros; by_threshold. Qed.

Lemma quality_low b :
  0 < b < 128 -> get_audio_quality b = (str_of_int b ++ "kbps (Low Quality)")%string.
Proof. intros; by_threshold. Qed.

Lemma quality_unknown b : b <= 0 -> get_audio_quality b = "Unknown Quality".
Proof. intros; by_threshold. Qed.

(** C1.  For a non-negative bitrate the classifier's label is fixed by the
    first threshold the bitrate reaches, going down: 320, 256, 192, 128,
    then any positive value (the label then embeds the value), then 0;
    so 320 is High, 319 is Good and 0 is Unknown. *)
Theorem get_audio_quality_first_match (b : Z) (Hb : 0 <= b) :
  (320 <= b -> get_audio_quality b = "320kbps (High Quality)") /\
  (256 <= b < 320 -> get_audio_quality b = "256kbps (Good Quality)") /\
  (192 <= b < 256 -> get_audio_quality b = "192kbps (Medium Quality)") /\
  (128 <= b < 192 -> get_audio_quality b = "128kbps (Standard Quality)") /\
  (0 < b < 128 -> get_audio_quality b = (str_of_int b ++ "kbps (Low Quality)")%string) /\
  (b = 0 -> get_audio_quality b = "Unknown Quality") /\
  get_audio_quality 320 = "320kbps (High Quality)" /\
  get_audio_quality 319 = "256kbps (Good Quality)" /\
  get_audio_quality 0 = "Unknown Quality".
Proof.
  repeat split; try reflexivity.
  - apply quality_high.
  - apply quality_good.
  - apply quality_medium.
  - apply quality_standard.
  - apply quality_low.
  - intros ->. reflexivity.
Qed.

Lemma get_audio_quality_first_match_at_96 :
  0 <= 96 /\ get_audio_quality 96 = "96kbps (Low Quality)".
Proof.
  split; [lia |].
  exact (proj1 (proj2 (proj2 (proj2 (proj2
           (get_audio_quality_first_match 96 ltac:(lia)))))) ltac:(lia)).
Defined.

(** *** Bucketing by substring *)






End Classifier.

(* ================================================================= *)
(** ** Signs of float results *)

Section FloatSigns.
Import Py Sys Check Tables Run.


Lemma binary_round_aux_sign s m e l :
  match binary_round_aux prec emax s m e l with
  | S754_zero s' | S754_infinity s' | S754_finite s' _ _ => s' = s
  | S754_nan => True
  end.
Proof.
  unfold binary_round_aux.
  destruct (shr_fexp prec emax m e l) as [mrs' e'].
  destruct (shr_fexp prec emax _ e' loc_Exact) as [mrs'' e''].
  destruct (shr_m mrs''); [reflexivity | | exact I].
  destruct (Z.leb e'' (Z.sub emax prec)); reflexivity.
Qed.

Lemma binary_round_aux_clear m e l :
  sign_clear (binary_round_aux prec emax false m e l) = true.
Proof.
  pose proof (binary_round_aux_sign false m e l) as H.
  destruct (binary_round_aux prec emax false m e l); cbn; try rewrite H; reflexivity.
Qed.

Lemma float_of_int_clear n x :
  0 <= n -> float_of_int n = Ok x -> sign_clear x = true.
Proof.
  intros Hn. unfold float_of_int, binary_normalize.
  destruct n as [| p | p]; [| | lia].
  - intros [= <-]. reflexivity.
  - unfold binary_round.
    destruct (shl_align p 0 _) as [mz ez].
    pose proof (binary_round_aux_clear (Zpos mz) ez loc_Exact) as H.
    destruct (binary_round_aux prec emax false (Zpos mz) ez loc_Exact);
      intros [= <-]; exact H.
Qed.

Lemma float_gt0_clear d : float_gt0 d = true -> sign_clear d = true.
Proof.
  unfold float_gt0, SFltb, fzero.
  destruct d as [s | s | | s m e]; cbn; try discriminate; destruct s; cbn;
    try discriminate; reflexivity.
Qed.

Lemma float_mul_clear x y :
  sign_clear x = true -> sign_clear y = true -> sign_clear (float_mul x y) = true.
Proof.
  unfold float_mul.
  destruct x as [sx | sx | | sx mx ex], y as [sy | sy | | sy my ey]; cbn;
    try reflexivity; try (destruct sx, sy; cbn; congruence).
  intros Hx Hy. apply negb_true_iff in Hx, Hy. subst. cbn.
  apply binary_round_aux_clear.
Qed.

Lemma float_truediv_clear x y q :
  sign_clear x = true -> sign_clear y = true ->
  float_truediv x y = Ok q -> sign_clear q = true.
Proof.
  unfold float_truediv. destruct (is_fzero y); [discriminate |].
  intros Hx Hy [= <-].
  destruct x as [sx | sx | | sx mx ex], y as [sy | sy | | sy my ey]; cbn in *;
    try reflexivity; try (destruct sx, sy; cbn in *; congruence).
  apply negb_true_iff in Hx, Hy. subst. cbn.
  destruct (SFdiv_core_binary prec emax (Zpos mx) ex (Zpos my) ey) as [[mz ez] lz].
  apply binary_round_aux_clear.
Qed.

Lemma int_of_float_nonneg x v :
  sign_clear x = true -> int_of_float x = Ok v -> 0 <= v.
Proof.
  destruct x as [s | s | | s m e]; cbn [int_of_float sign_clear]; try discriminate.
  - intros _ [= <-]. lia.
  - intros Hs [= <-]. apply negb_true_iff in Hs. subst s.
    destruct e.
    + rewrite Z.shiftl_0_r. lia.
    + apply Z.shiftl_nonneg. lia.
    + apply Z.shiftr_nonneg. lia.
Qed.


End FloatSigns.

(* ================================================================= *)
(** ** The bitrate resolver *)

Section Resolver.
Import Py Sys Check Tables Run.

(** The [try] block leaves the state alone and only extends the trace. *)
Lemma get_audio_bitrate_try_frame (S : Type) (f : file) (s : S) (t : trace) :
  get_audio_bitrate_try f s t =
  (try_outcome f, s, t ++ snd (get_audio_bitrate_try f tt [])).
Proof.
  unfold try_outcome, get_audio_bitrate_try.
  repeat match goal with
         | |- context [if ?c then _ else _] => destruct c
         end.
  all: mstep.
  all: repeat (destruct_inner; mstep).
  all: cbn [app]; rewrite <- ?app_assoc, ?app_nil_r; reflexivity.
Qed.

Lemma get_audio_bitrate_try_calls_only (f : file) :
  printed (snd (get_audio_bitrate_try f tt [])) = [].
Proof.
  unfold get_audio_bitrate_try.
  repeat match goal with
         | |- context [if ?c then _ else _] => destruct c
         end.
  all: mstep.
  all: repeat (destruct_inner; mstep).
  all: reflexivity.
Qed.

Lemma get_audio_bitrate_frame (S : Type) (f : file) (s : S) (t : trace) :
  get_audio_bitrate f s t = (Ok (resolved f), s, t ++ resolver_events f).
Proof.
  unfold resolved, resolver_events, get_audio_bitrate.
  unfold bind at 1 3 5, try_except.
  rewrite (get_audio_bitrate_try_frame S f s t).
  rewrite (get_audio_bitrate_try_frame unit f tt []).
  destruct (try_outcome f) as [[v |] | e]; mstep; cbn [app];
    rewrite <- ?app_assoc; reflexivity.
Qed.

Lemma resolved_of_outcome (f : file) :
  match try_outcome f with
  | Ok (Some v) => resolved f = v /\ printed (resolver_events f) = []
  | Ok None => resolved f = 0 /\ printed (resolver_events f) = []
  | Raise e => resolved f = 0 /\ printed (resolver_events f) = [error_reading f e]
  end.
Proof.
  pose proof (get_audio_bitrate_try_calls_only f) as Hcalls.
  unfold resolved, resolver_events, get_audio_bitrate, try_outcome in *.
  unfold bind, try_except.
  destruct (get_audio_bitrate_try f tt []) as [[r []] tr].
  cbn [fst snd] in *.
  destruct r as [[v |] | e]; mstep; cbn [snd]; (split; [reflexivity |]); trivial.
  unfold printed in *. rewrite flat_map_app, Hcalls. reflexivity.
Qed.

Lemma size_duration_nonneg (n : Z) (d k a q : pyfloat) (v : Z) :
  0 <= n -> float_gt0 d = true ->
  float_of_int 1000 = Ok k -> float_of_int (n * 8) = Ok a ->
  float_truediv a (float_mul d k) = Ok q -> int_of_float q = Ok v ->
  0 <= v.
Proof.
  intros Hn Hd Hk Ha Hq Hv.
  apply (int_of_float_nonneg q v); [| exact Hv].
  apply (float_truediv_clear a (float_mul d k) q); [| | exact Hq].
  - apply (float_of_int_clear (n * 8)); [lia | exact Ha].
  - apply float_mul_clear.
    + now apply float_gt0_clear.
    + apply (float_of_int_clear 1000); [lia | exact Hk].
Qed.

Lemma try_outcome_nonneg (f : file) (v : Z) :
  well_formed f -> try_outcome f = Ok (Some v) -> 0 <= v.
Proof.
  intros [Hstat Hopen Hprobe].
  unfold try_outcome, get_audio_bitrate_try, bitrate_or_0.
  repeat match goal with
         | |- context [if ?c then _ else _] => destruct c eqn:?
         end.
  all: mstep.
  all: repeat (destruct_inner; mstep).
  all: cbn [fst]; intros [= <-]; try lia.
  all: try (apply Z.div_pos; [| lia]).
  all: try match goal with
       | Ho : node_open _ _ = Ok ?a, Hb : info_bitrate (audio_info ?a) = Some ?b
         |- 0 <= ?b => exact (Hopen _ _ Ho _ Hb)
       | Ho : node_probe _ = Ok (Some ?a), Hb : info_bitrate (audio_info ?a) = Some ?b
         |- 0 <= ?b => exact (Hprobe _ Ho _ Hb)
       end.
  all: try match goal with
       | Hs : node_stat _ = Ok ?n |- _ =>
           eapply (size_duration_nonneg n); eauto
       end.
  all: try lia.
  eapply Hprobe; [reflexivity | eassumption].
Qed.

(** The value returned in each branch where nothing can be estimated. *)
Lemma try_outcome_unrecognised (f : file) :
  str_in (lower (suffix (file_path f))) resolver_extensions = false ->
  try_outcome f = Ok None.
Proof.
  unfold resolver_extensions, str_in. cbn [existsb].
  intros H. repeat (apply orb_false_elim in H; destruct H as [? H]).
  unfold try_outcome, get_audio_bitrate_try, str_in. cbn [existsb].
  repeat match goal with
         | Heq : String.eqb ?a ?b = false |- _ => rewrite Heq; clear Heq
         end.
  reflexivity.
Qed.

Lemma try_outcome_direct_missing (f : file) (o : opener) (a : audio) :
  (str_in (lower (suffix (file_path f))) [".m4a"; ".mp4"] = true /\ o = MP4 \/
   lower (suffix (file_path f)) = ".mp3" /\ o = MP3) ->
  node_open (file_node f) o = Ok a ->
  info_bitrate (audio_info a) = None ->
  try_outcome f = Ok (Some 0).
Proof.
  unfold try_outcome, get_audio_bitrate_try, bitrate_or_0.
  intros [[Hext ->] | [Hext ->]] Ho Hb.
  - rewrite Hext. mstep. rewrite Ho, Hb. reflexivity.
  - rewrite Hext. cbn [str_in existsb String.eqb Ascii.eqb Bool.eqb orb].
    mstep. rewrite Ho, Hb. reflexivity.
Qed.

Lemma try_outcome_probe_missing (f : file) (a : audio) :
  str_in (lower (suffix (file_path f))) [".aac"; ".ogg"; ".opus"; ".wma"] = true ->
  node_probe (file_node f) = Ok (Some a) ->
  info_bitrate (audio_info a) = None ->
  try_outcome f = Ok (Some 0).
Proof.
  intros Hext Hp Hb.
  assert (Hne : forall x, In x [".m4a"; ".mp4"; ".mp3"; ".flac"; ".wav"; ".wave"] ->
                          String.eqb (lower (suffix (file_path f))) x = false).
  { intros x Hx. apply String.eqb_neq. intros E. rewrite E in Hext. clear E.
    cbn [In] in Hx. intuition subst; vm_compute in Hext; discriminate Hext. }
  unfold try_outcome, get_audio_bitrate_try, str_in in *. cbn [existsb] in *.
  rewrite !Hne by (cbn [In]; tauto). cbn [orb].
  rewrite Hext. mstep. rewrite Hp, Hb.
  destruct (audio_bool a); reflexivity.
Qed.

Lemma no_duration_not_positive (i : stream_info) :
  no_duration i -> float_gt0 (length_or_0 i) = false.
Proof.
  unfold no_duration, length_or_0.
  intros [-> | [s ->]]; reflexivity.
Qed.

Lemma try_outcome_derived_no_duration (f : file) (o : opener) (a : audio) :
  (lower (suffix (file_path f)) = ".flac" /\ o = FLAC /\
   info_bitrate (audio_info a) = None \/
   str_in (lower (suffix (file_path f))) [".wav"; ".wave"] = true /\ o = WAVE) ->
  node_open (file_node f) o = Ok a ->
  no_duration (audio_info a) ->
  try_outcome f = Ok (Some 0) \/ exists e, try_outcome f = Raise e.
Proof.
  intros Hext Ho Hd. apply no_duration_not_positive in Hd.
  unfold try_outcome, get_audio_bitrate_try.
  destruct Hext as [(Hext & -> & Hb) | (Hext & ->)].
  - rewrite Hext. cbn [str_in existsb String.eqb Ascii.eqb Bool.eqb orb].
    mstep. rewrite Ho, Hb, Hd.
    destruct (node_stat (file_node f)); [left | right; eexists]; reflexivity.
  - assert (Hne : forall x, In x [".m4a"; ".mp4"; ".mp3"; ".flac"] ->
                            String.eqb (lower (suffix (file_path f))) x = false).
    { intros x Hx. apply String.eqb_neq. intros E. rewrite E in Hext. clear E.
      cbn [In] in Hx. intuition subst; vm_compute in Hext; discriminate Hext. }
    unfold str_in in *. cbn [existsb] in *.
    rewrite !Hne by (cbn [In]; tauto). cbn [orb].
    rewrite Hext. mstep. rewrite Ho, Hd.
    destruct (node_stat (file_node f)); [left | right; eexists]; reflexivity.
Qed.

Lemma resolved_zero_of_outcome (f : file) :
  try_outcome f = Ok (Some 0) \/ try_outcome f = Ok None \/
  (exists e, try_outcome f = Raise e) ->
  resolved f = 0.
Proof.
  pose proof (resolved_of_outcome f) as H.
  intros [E | [E | [e E]]]; rewrite E in H; apply H.
Qed.


(** Where standard output takes every line, [get_audio_bitrate] always
    returns: whatever the [try] block raises is caught, printed with the
    file's name, and turned into 0; the state of the caller is
    untouched.  With sizes and bit rates that are
    not negative the result is not negative either, and it is 0 for an
    extension without a branch, for a missing bitrate field where the
    field is read directly, and for a zero or unknown duration where the
    estimate is derived from size and duration. *)
Lemma get_audio_bitrate_ideal
    (S : Type) (f : file) (s : S) (t : trace) (Hwf : well_formed f) :
  let ext := lower (suffix (file_path f)) in
  get_audio_bitrate f s t = (Ok (resolved f), s, t ++ resolver_events f) /\
  0 <= resolved f /\
  (forall e, try_outcome f = Raise e ->
     resolved f = 0 /\
     printed (resolver_events f)
     = [[Lit ("Error reading " ++ name (file_path f) ++ ": " ++ e)%string]]) /\
  (forall r, try_outcome f = Ok r -> printed (resolver_events f) = []) /\
  (str_in ext resolver_extensions = false -> resolved f = 0) /\
  (forall o a,
     (str_in ext [".m4a"; ".mp4"] = true /\ o = MP4 \/ ext = ".mp3" /\ o = MP3) ->
     node_open (file_node f) o = Ok a ->
     info_bitrate (audio_info a) = None -> resolved f = 0) /\
  (forall a,
     str_in ext [".aac"; ".ogg"; ".opus"; ".wma"] = true ->
     node_probe (file_node f) = Ok (Some a) ->
     info_bitrate (audio_info a) = None -> resolved f = 0) /\
  (forall o a,
     (ext = ".flac" /\ o = FLAC /\ info_bitrate (audio_info a) = None \/
      str_in ext [".wav"; ".wave"] = true /\ o = WAVE) ->
     node_open (file_node f) o = Ok a ->
     no_duration (audio_info a) -> resolved f = 0).
Proof.
  intros ext. subst ext.
  pose proof (resolved_of_outcome f) as Hout.
  split; [apply get_audio_bitrate_frame |].
  split.
  { destruct (try_outcome f) as [[v |] | e] eqn:E.
    - destruct Hout as [-> _]. now apply (try_outcome_nonneg f).
    - destruct Hout as [-> _]. lia.
    - destruct Hout as [-> _]. lia. }
  split.
  { intros e E. rewrite E in Hout. exact Hout. }
  split.
  { intros r E. rewrite E in Hout. destruct r; apply Hout. }
  split.
  { intros Hext. apply resolved_zero_of_outcome. right; left.
    now apply try_outcome_unrecognised. }
  split.
  { intros o a Hext Ho Hb. apply resolved_zero_of_outcome. left.
    now apply (try_outcome_direct_missing f o a). }
  split.
  { intros a Hext Hp Hb. apply resolved_zero_of_outcome. left.
    now apply (try_outcome_probe_missing f a). }
  intros o a Hext Ho Hd. apply resolved_zero_of_outcome.
  destruct (try_outcome_derived_no_duration f o a Hext Ho Hd) as [E | E]; auto.
Qed.

Lemma readable_well_formed (nm : string) (size : Z) (i : stream_info) :
  0 <= size -> nonneg_bitrate i ->
  well_formed (Samples.in_music nm (Samples.readable size i)).
Proof.
  intros Hsize Hi. split; cbn.
  - now intros n [= <-].
  - now intros _ a [= <-].
  - now intros a [= <-].
Qed.

Lemma cd_wav_well_formed : well_formed Samples.cd_wav.
Proof. apply readable_well_formed; [lia | intros b; discriminate]. Qed.

End Resolver.

(* ================================================================= *)
(** ** Dictionaries *)

Section Dicts.
Import Py Sys Check Aggregate.

Lemma dict_get_set_same {V} (k : string) (v : V) (d : dict V) :
  dict_get k (dict_set k v d) = Some v.
Proof.
  induction d as [| [k' v'] d IH]; cbn.
  - now rewrite String.eqb_refl.
  - destruct (String.eqb k k') eqn:E; cbn; rewrite E; [reflexivity | exact IH].
Qed.

Lemma dict_get_set_other {V} (k k' : string) (v : V) (d : dict V) :
  k <> k' -> dict_get k (dict_set k' v d) = dict_get k d.
Proof.
  intros Hne. apply String.eqb_neq in Hne.
  induction d as [| [k0 v0] d IH]; cbn.
  - now rewrite Hne.
  - destruct (String.eqb k' k0) eqn:E; cbn.
    + apply String.eqb_eq in E. subst k0. now rewrite Hne.
    + destruct (String.eqb k k0); [reflexivity | exact IH].
Qed.

Lemma sum_counts_set (k : string) (v : Z) (d : dict Z) :
  sum_counts (dict_set k v d) = sum_counts d + v - dict_get_default k 0 d.
Proof.
  unfold sum_counts, dict_values, dict_get_default.
  induction d as [| [k' v'] d IH]; cbn.
  - lia.
  - destruct (String.eqb k k'); cbn; [lia |].
    rewrite IH. lia.
Qed.

Lemma sum_counts_incr (k : string) (d : dict Z) :
  sum_counts (dict_incr k d) = sum_counts d + 1.
Proof. unfold dict_incr. rewrite sum_counts_set. lia. Qed.

Lemma dict_get_incr (k k' : string) (d : dict Z) :
  dict_get k (dict_incr k' d)
  = if String.eqb k' k then Some (dict_get_default k 0 d + 1) else dict_get k d.
Proof.
  unfold dict_incr.
  destruct (String.eqb k' k) eqn:E.
  - apply String.eqb_eq in E. subst k'. apply dict_get_set_same.
  - apply String.eqb_neq in E. apply dict_get_set_other. congruence.
Qed.

Lemma count_key_cons (key : file -> string) (k : string) (f : file) (l : list file) :
  count_key key k (f :: l)
  = (if String.eqb (key f) k then 1 else 0) + count_key key k l.
Proof.
  unfold count_key, with_key, len. cbn [filter].
  destruct (String.eqb (key f) k); cbn [List.length]; lia.
Qed.

Lemma count_key_nonneg key k l : 0 <= count_key key k l.
Proof. unfold count_key, len. lia. Qed.

(** After a tally, a key holds what it held plus the number of files sent
    to it; a key no file was sent to is as it was. *)
Lemma tally_get (key : file -> string) (k : string) (l : list file) (d : dict Z) :
  dict_get k (tally key l d)
  = if count_key key k l =? 0 then dict_get k d
    else Some (dict_get_default k 0 d + count_key key k l).
Proof.
  revert d. induction l as [| f l IH]; intros d.
  - reflexivity.
  - cbn [tally fold_left]. fold (tally key l (dict_incr (key f) d)).
    rewrite IH, count_key_cons. clear IH.
    pose proof (count_key_nonneg key k l) as Hc.
    unfold dict_get_default at 1. rewrite dict_get_incr.
    destruct (String.eqb (key f) k).
    + destruct (Z.eqb_spec (1 + count_key key k l) 0) as [E1 | _]; [lia |].
      destruct (Z.eqb_spec (count_key key k l) 0) as [E0 | _]; f_equal; lia.
    + cbn [Z.add].
      destruct (Z.eqb_spec (count_key key k l) 0); reflexivity.
Qed.

Lemma tally_get_default (key : file -> string) (k : string) (l : list file) (d : dict Z) :
  dict_get_default k 0 (tally key l d) = dict_get_default k 0 d + count_key key k l.
Proof.
  unfold dict_get_default at 1. rewrite tally_get.
  destruct (Z.eqb_spec (count_key key k l) 0) as [E | E].
  - rewrite E. unfold dict_get_default. destruct (dict_get k d); lia.
  - reflexivity.
Qed.

Lemma tally_sum (key : file -> string) (l : list file) (d : dict Z) :
  sum_counts (tally key l d) = sum_counts d + len l.
Proof.
  revert d. induction l as [| f l IH]; intros d.
  - unfold len. cbn [tally fold_left List.length Z.of_nat]. lia.
  - cbn [tally fold_left]. fold (tally key l (dict_incr (key f) d)).
    rewrite IH, sum_counts_incr. unfold len. cbn [List.length]. lia.
Qed.

Lemma count_key_perm (key : file -> string) (k : string) (l l' : list file) :
  Permutation l l' -> count_key key k l = count_key key k l'.
Proof.
  intros Hp. unfold count_key, with_key, len. f_equal.
  apply Permutation_length. 
  induction Hp; cbn [filter].
  - constructor.
  - destruct (String.eqb (key x) k); [now constructor | assumption].
  - destruct (String.eqb (key x) k), (String.eqb (key y) k);
      try apply Permutation_refl. apply perm_swap.
  - eapply Permutation_trans; eassumption.
Qed.

(** The table of a tally does not depend on the order of the files. *)
Lemma tally_perm (key : file -> string) (l l' : list file) (d : dict Z) :
  Permutation l l' -> dict_eq (tally key l d) (tally key l' d).
Proof.
  intros Hp k. rewrite !tally_get. now rewrite (count_key_perm key k l l' Hp).
Qed.

End Dicts.

(* ================================================================= *)
(** ** One turn of each report loop *)

Section Turns.
Import Py Sys Check Tables Run Aggregate.

Lemma dict_set_twice {V} (k : string) (v0 v : V) (d : dict V) :
  dict_set k v (dict_set k v0 d) = dict_set k v d.
Proof.
  induction d as [| [k' v'] d IH]; cbn.
  - now rewrite String.eqb_refl.
  - destruct (String.eqb k k') eqn:E; cbn; rewrite E; [reflexivity |].
    now rewrite IH.
Qed.

Lemma incr_stat_run (k : string) (s : locals) (t : trace) :
  dict_get k (quality_stats s) <> None ->
  incr_stat k s t = (Ok tt, set_quality_stats (dict_incr k (quality_stats s)) s, t).
Proof.
  intros Hk. unfold incr_stat, dict_getitem, dict_incr, dict_get_default. mstep.
  destruct (dict_get k (quality_stats s)); [reflexivity | contradiction].
Qed.

Lemma bucket_in_stats_keys (q : string) : In (bucket q) stats_keys.
Proof.
  unfold bucket, stats_keys. cbn [initial_stats map fst In].
  repeat match goal with
         | |- context [if ?c then _ else _] => destruct c
         end; tauto.
Qed.

Lemma detailed_key_in_stats_keys (f : file) : In (detailed_key f) stats_keys.
Proof.
  unfold detailed_key. destruct (size_mb f).
  - apply bucket_in_stats_keys.
  - unfold stats_keys. cbn. tauto.
Qed.

Lemma has_stats_keys_incr (k : string) (d : dict Z) :
  has_stats_keys d -> has_stats_keys (dict_incr k d).
Proof.
  intros H k' Hk'. rewrite dict_get_incr.
  destruct (String.eqb k k'); [discriminate | now apply H].
Qed.

Lemma has_stats_keys_initial : has_stats_keys initial_stats.
Proof.
  intros k Hk. unfold stats_keys in Hk. cbn [initial_stats map fst In] in Hk.
  intuition subst; discriminate.
Qed.

(** The chain of substring tests adds 1 under [bucket quality]. *)
Lemma chain_is_bucket (quality : string) :
  (if contains "320kbps" quality then incr_stat "320kbps (High Quality)"
   else if contains "256kbps" quality then incr_stat "256kbps (Good Quality)"
   else if contains "192kbps" quality then incr_stat "192kbps (Medium Quality)"
   else if contains "128kbps" quality then incr_stat "128kbps (Standard Quality)"
   else if contains "Low Quality" quality then incr_stat "Low Quality"
   else incr_stat "Unknown Quality")
  = incr_stat (bucket quality).
Proof.
  unfold bucket.
  repeat match goal with
         | |- context [if ?c then _ else _] => destruct c
         end; reflexivity.
Qed.

(** A turn of the detailed loop never raises; it adds 1 under exactly one
    key and adds the file's size when it could be read. *)
Lemma check_one_run (f : file) (s : locals) (t : trace) :
  has_stats_keys (quality_stats s) ->
  exists log,
    check_one f s t
    = (Ok tt,
       mklocals (audio_files s) (dict_incr (detailed_key f) (quality_stats s))
         (add_size (total_size s) f),
       t ++ log).
Proof.
  intros Hkeys.
  unfold check_one.
  unfold detailed_key, add_size, size_mb.
  unfold try_except, bind at 1, stat, bind at 1, emit, lift.
  destruct (node_stat (file_node f)) as [n | e].
  - unfold bind at 1, lift.
    destruct (int_truediv n MB) as [x | e].
    + unfold bind at 1, modify. unfold bind at 1.
      rewrite get_audio_bitrate_frame. cbv beta zeta.
      rewrite chain_is_bucket.
      unfold bind at 1. rewrite incr_stat_run.
      2:{ apply Hkeys, bucket_in_stats_keys. }
      mstep. rewrite <- !app_assoc. eexists. reflexivity.
    + unfold bind at 1, print, emit. unfold bind at 1. rewrite incr_stat_run.
      2:{ apply Hkeys. unfold stats_keys. cbn. tauto. }
      mstep. rewrite <- !app_assoc. eexists. reflexivity.
  - unfold bind at 1, print, emit. unfold bind at 1. rewrite incr_stat_run.
    2:{ apply Hkeys. unfold stats_keys. cbn. tauto. }
    mstep. rewrite <- !app_assoc. eexists. reflexivity.
Qed.

Lemma quick_one_run (f : file) (s : locals) (t : trace) :
  exists log,
    quick_one f s t
    = (Ok tt,
       mklocals (audio_files s) (dict_incr (quick_key f) (quality_stats s))
         (add_size (total_size s) f),
       t ++ log).
Proof.
  unfold quick_one, quick_key, add_size, size_mb.
  unfold try_except, bind at 1, stat, bind at 1, emit, lift.
  destruct (node_stat (file_node f)) as [n | e].
  - unfold bind at 1, lift.
    destruct (int_truediv n MB) as [x | e].
    + unfold bind at 1, modify. unfold bind at 1.
      rewrite get_audio_bitrate_frame.
      rewrite <- !app_assoc. eexists. reflexivity.
    + eexists. reflexivity.
  - eexists. reflexivity.
Qed.

Lemma group_one_run (f : file) (s : folder_locals) (t : trace) :
  group_one f s t
  = (Ok tt,
     mkfolder_locals (folder_files s) (dict_append (folder_key f) f (bitrate_groups s)),
     t ++ resolver_events f).
Proof.
  unfold group_one, folder_key, dict_append.
  unfold try_except, bind at 1.
  rewrite get_audio_bitrate_frame. unfold modify.
  do 3 f_equal.
  unfold dict_get_default.
  destruct (dict_get (get_audio_quality (resolved f)) (bitrate_groups s)) eqn:E.
  - rewrite E. reflexivity.
  - rewrite dict_get_set_same. cbn [app]. apply dict_set_twice.
Qed.

End Turns.

(* ================================================================= *)
(** ** The report loops *)

Section Loops.
Import Py Sys Check Tables Run Aggregate.

Lemma detailed_loop_run (l : list file) (s : locals) (t : trace) :
  has_stats_keys (quality_stats s) ->
  exists log,
    for_each l check_one s t = (Ok tt, after_loop detailed_key l s, t ++ log).
Proof.
  revert s t. induction l as [| f l IH]; intros s t Hkeys.
  - exists []. destruct s. now rewrite app_nil_r.
  - cbn [for_each]. unfold bind.
    destruct (check_one_run f s t Hkeys) as [log1 ->].
    edestruct IH as [log2 ->].
    { cbn [quality_stats]. now apply has_stats_keys_incr. }
    exists (log1 ++ log2). now rewrite app_assoc.
Qed.

Lemma quick_loop_run (l : list file) (s : locals) (t : trace) :
  exists log,
    for_each l quick_one s t = (Ok tt, after_loop quick_key l s, t ++ log).
Proof.
  revert s t. induction l as [| f l IH]; intros s t.
  - exists []. destruct s. now rewrite app_nil_r.
  - cbn [for_each]. unfold bind.
    destruct (quick_one_run f s t) as [log1 ->].
    edestruct IH as [log2 ->].
    exists (log1 ++ log2). now rewrite app_assoc.
Qed.

Lemma grouping_loop_run (l : list file) (s : folder_locals) (t : trace) :
  for_each l group_one s t
  = (Ok tt, after_grouping l s, t ++ flat_map resolver_events l).
Proof.
  revert s t. induction l as [| f l IH]; intros s t.
  - destruct s. cbn. now rewrite app_nil_r.
  - cbn [for_each flat_map]. unfold bind.
    rewrite group_one_run, IH. now rewrite app_assoc.
Qed.

(** The summary loops only print. *)
Lemma percentage_frame (count total : Z) (s : locals) (t : trace) :
  exists r, percentage count total s t = (r, s, t).
Proof.
  unfold percentage. mstep.
  destruct (int_truediv count total); [| eexists; reflexivity].
  destruct (float_of_int 100); eexists; reflexivity.
Qed.

Lemma summary_loop_frame (total : Z) (rows : list (string * Z)) (s : locals) (t : trace) :
  exists r log, for_each rows (summary_row total) s t = (r, s, t ++ log).
Proof.
  revert t. induction rows as [| [k c] rows IH]; intros t.
  - exists (Ok tt), []. cbn. now rewrite app_nil_r.
  - cbn [for_each summary_row]. unfold bind at 1.
    destruct (c >? 0).
    + unfold bind at 1.
      destruct (percentage_frame c total s t) as [[p | e] ->].
      * unfold print, emit.
        destruct (IH (t ++ [Print [Lit (k ++ ": " ++ str_of_int c ++ " files (")%string;
                                   Flt 1 p; Lit "%)"]])) as (r & log & ->).
        exists r. eexists. now rewrite <- app_assoc.
      * exists (Raise e), []. now rewrite app_nil_r.
    + unfold ret. apply IH.
Qed.

Lemma quick_rows_frame (total : Z) (rows : list (string * Z)) (s : locals) (t : trace) :
  exists r log, for_each rows (quick_row total) s t = (r, s, t ++ log).
Proof.
  revert t. induction rows as [| [k c] rows IH]; intros t.
  - exists (Ok tt), []. cbn. now rewrite app_nil_r.
  - cbn [for_each quick_row]. unfold bind at 1. unfold bind at 1.
    destruct (percentage_frame c total s t) as [[p | e] ->].
    + unfold print, emit.
      destruct (IH (t ++ [Print [Lit ("  " ++ k ++ ": " ++ str_of_int c ++ " files (")%string;
                                 Flt 1 p; Lit "%)"]])) as (r & log & ->).
      exists r. eexists. now rewrite <- app_assoc.
    + exists (Raise e), []. now rewrite app_nil_r.
Qed.

(** The locals the two table reports end with. *)
Lemma check_audio_quality_locals (w : world) :
  let files := find_audio_files (os_flavour w) (script_dir w) in
  files <> [] ->
  final_locals (check_audio_quality w) no_locals
  = after_loop detailed_key files (mklocals files initial_stats fzero).
Proof.
  intros files Hne. unfold final_locals, check_audio_quality. mstep.
  fold files. cbn [audio_files set_audio_files no_locals].
  destruct files as [| f0 fs] eqn:Hfiles; [contradiction |].
  rewrite <- Hfiles.
  cbn [set_quality_stats set_total_size audio_files quality_stats total_size].
  match goal with
  | |- context [for_each files check_one ?s ?t] =>
      destruct (detailed_loop_run files s t has_stats_keys_initial) as [log ->]
  end.
  match goal with
  | |- context [for_each ?rows (summary_row ?n) ?s ?t] =>
      destruct (summary_loop_frame n rows s t) as (r & log' & ->)
  end.
  destruct r; reflexivity.
Qed.

Lemma quick_quality_check_locals (w : world) :
  let files := find_audio_files (os_flavour w) (script_dir w) in
  files <> [] ->
  final_locals (quick_quality_check w) no_locals
  = after_loop quick_key files (mklocals files [] fzero).
Proof.
  intros files Hne. unfold final_locals, quick_quality_check. mstep.
  fold files. cbn [audio_files set_audio_files no_locals].
  destruct files as [| f0 fs] eqn:Hfiles; [contradiction |].
  rewrite <- Hfiles.
  cbn [set_quality_stats set_total_size audio_files quality_stats total_size].
  match goal with
  | |- context [for_each files quick_one ?s ?t] =>
      destruct (quick_loop_run files s t) as [log ->]
  end.
  match goal with
  | |- context [for_each ?rows (quick_row ?n) ?s ?t] =>
      destruct (quick_rows_frame n rows s t) as (r & log' & ->)
  end.
  destruct r; reflexivity.
Qed.

End Loops.

(* ================================================================= *)
(** ** Every file in one tier, once *)

Section Tiers.
Import Py Sys Check Tables Run Aggregate.

Lemma print_group_frame (rows : list (string * list file)) (s : folder_locals) (t : trace) :
  exists r log, for_each rows print_group s t = (r, s, t ++ log).
Proof.
  assert (Hfiles : forall (fs : list file) (t : trace),
             exists r log, for_each fs print_grouped_file s t = (r, s, t ++ log)).
  { induction fs as [| f fs IH]; intros t0.
    - exists (Ok tt), []. cbn. now rewrite app_nil_r.
    - cbn [for_each]. unfold bind at 1. unfold print_grouped_file at 1. mstep.
      destruct (node_stat (file_node f)) as [n | e].
      + destruct (int_truediv n MB) as [x | e].
        * match goal with
          | |- context [for_each fs print_grouped_file s ?t1] =>
              destruct (IH t1) as (r & log & ->)
          end.
          exists r. eexists. rewrite <- !app_assoc. reflexivity.
        * exists (Raise e). eexists. reflexivity.
      + exists (Raise e). eexists. reflexivity. }
  revert t. induction rows as [| [k fs] rows IH]; intros t.
  - exists (Ok tt), []. cbn. now rewrite app_nil_r.
  - cbn [for_each print_group]. unfold bind at 1. unfold bind at 1, print, emit.
    match goal with
    | |- context [for_each fs print_grouped_file s ?t1] =>
        destruct (Hfiles fs t1) as ([[] | e] & log & ->)
    end.
    + match goal with
      | |- context [for_each rows print_group s ?t1] =>
          destruct (IH t1) as (r & log' & ->)
      end.
      exists r. eexists. rewrite <- !app_assoc. reflexivity.
    + exists (Raise e). eexists. rewrite <- !app_assoc. reflexivity.
Qed.

Lemma check_specific_folder_locals (w : world) (typed : string) (target : folder) :
  let found := find_audio_files (os_flavour w) target in
  strip typed <> "" ->
  resolve w (strip typed) = Some target ->
  found <> [] ->
  final_locals (check_specific_folder w typed) no_folder_locals
  = after_grouping found (mkfolder_locals found []).
Proof.
  intros found Htyped Hres Hne.
  unfold final_locals, check_specific_folder.
  apply String.eqb_neq in Htyped. rewrite Htyped, Hres. mstep.
  fold found.
  destruct found as [| f0 fs] eqn:Hfound; [contradiction |].
  rewrite <- Hfound.
  cbn [folder_files bitrate_groups no_folder_locals].
  rewrite grouping_loop_run.
  match goal with
  | |- context [for_each ?rows print_group ?s ?t] =>
      destruct (print_group_frame rows s t) as (r & log' & ->)
  end.
  reflexivity.
Qed.

Lemma dict_get_append (k k' : string) (f : file) (d : dict (list file)) :
  dict_get_default k [] (dict_append k' f d)
  = dict_get_default k [] d ++ (if String.eqb k' k then [f] else []).
Proof.
  unfold dict_append, dict_get_default at 1.
  destruct (String.eqb k' k) eqn:E.
  - apply String.eqb_eq in E. subst k'. now rewrite dict_get_set_same.
  - apply String.eqb_neq in E. rewrite dict_get_set_other by congruence.
    unfold dict_get_default. now rewrite app_nil_r.
Qed.

(** A group holds, in scan order, exactly the files whose label is its key. *)
Lemma grouping_get (k : string) (l : list file) (d : dict (list file)) :
  dict_get_default k [] (grouping l d)
  = dict_get_default k [] d ++ with_key folder_key k l.
Proof.
  revert d. induction l as [| f l IH]; intros d.
  - cbn. now rewrite app_nil_r.
  - cbn [grouping fold_left]. fold (grouping l (dict_append (folder_key f) f d)).
    rewrite IH, dict_get_append. unfold with_key. cbn [filter].
    destruct (String.eqb (folder_key f) k); rewrite <- app_assoc; reflexivity.
Qed.



End Tiers.

(* ================================================================= *)
(** ** Counts and percentages *)

Section Percentages.
Import Py Sys Check Tables Run Aggregate.
Local Open Scope Q_scope.



Lemma insert_desc_perm (x : string * Z) (l : list (string * Z)) :
  Permutation (insert_desc x l) (x :: l).
Proof.
  induction l as [| y l IH]; cbn [insert_desc].
  - apply Permutation_refl.
  - destruct (snd y <=? snd x)%Z; [apply Permutation_refl |].
    eapply Permutation_trans; [apply perm_skip, IH | apply perm_swap].
Qed.

Lemma sorted_by_count_desc_perm (d : dict Z) :
  Permutation (sorted_by_count_desc d) d.
Proof.
  unfold sorted_by_count_desc.
  induction d as [| x d IH]; cbn [fold_right].
  - constructor.
  - eapply Permutation_trans; [apply insert_desc_perm | now constructor].
Qed.

Lemma dict_set_nonneg (k : string) (v : Z) (d : dict Z) :
  (0 <= v)%Z ->
  Forall (fun row => (0 <= snd row)%Z) d ->
  Forall (fun row => (0 <= snd row)%Z) (dict_set k v d).
Proof.
  intros Hv. induction 1 as [| [k' v'] d Hc Hd IH]; cbn [dict_set].
  - repeat constructor. exact Hv.
  - destruct (String.eqb k k'); constructor; auto.
Qed.

Lemma dict_get_default_nonneg (k : string) (d : dict Z) :
  Forall (fun row => (0 <= snd row)%Z) d -> (0 <= dict_get_default k 0 d)%Z.
Proof.
  unfold dict_get_default.
  induction 1 as [| [k' v'] d Hc Hd IH]; cbn [dict_get].
  - lia.
  - destruct (String.eqb k k'); [exact Hc | exact IH].
Qed.

Lemma tally_nonneg (key : file -> string) (l : list file) (d : dict Z) :
  Forall (fun row => (0 <= snd row)%Z) d ->
  Forall (fun row => (0 <= snd row)%Z) (tally key l d).
Proof.
  revert d. induction l as [| f l IH]; intros d Hd; [exact Hd |].
  cbn [tally fold_left]. apply IH. unfold dict_incr.
  apply dict_set_nonneg; [| exact Hd].
  pose proof (dict_get_default_nonneg (key f) d Hd). lia.
Qed.


End Percentages.

(* ================================================================= *)
(** ** Empty scans *)

Section EmptyScan.
Import Py Sys Check Tables Run Aggregate.

(** C7.  When the scan finds no audio file, each of the three reports
    prints a line that starts "No audio files found" as the last thing it
    does: after it there is no output, no call to stat or to a decoder, and
    the locals hold no statistics.  The detailed report and the folder
    report have printed their two banner lines before the scan, and the
    folder report's line goes on "in the specified folder". *)
Theorem empty_scan_stops_every_report (w : world)
    (Hempty : find_audio_files (os_flavour w) (script_dir w) = []) :
  check_audio_quality w no_locals []
  = (Ok tt, no_locals,
     [Print [Lit "Audio Quality Checker"];
      Print [Lit (str_mul "=" 60)];
      Print [Lit (no_audio_files_found ++ "!")%string]]) /\
  quick_quality_check w no_locals []
  = (Ok tt, no_locals, [Print [Lit (no_audio_files_found ++ "!")%string]]) /\
  (forall typed target,
     strip typed <> "" ->
     resolve w (strip typed) = Some target ->
     find_audio_files (os_flavour w) target = [] ->
     check_specific_folder w typed no_folder_locals []
     = (Ok tt, no_folder_locals,
        [Print [Lit (nl ++ "Checking audio quality in: "
                     ++ String.concat "/" (folder_path target))%string];
         Print [Lit (str_mul "=" 60)];
         Print [Lit (no_audio_files_found ++ " in the specified folder!")%string]])).
Proof.
  repeat split.
  - unfold check_audio_quality. mstep.
    cbn [audio_files set_audio_files no_locals]. rewrite Hempty. reflexivity.
  - unfold quick_quality_check. mstep.
    cbn [audio_files set_audio_files no_locals]. rewrite Hempty. reflexivity.
  - intros typed target Htyped Hres Hnone.
    unfold check_specific_folder.
    apply String.eqb_neq in Htyped. rewrite Htyped, Hres. mstep.
    rewrite Hnone. reflexivity.
Qed.

Lemma empty_scan_stops_every_report_posix_empty :
  find_audio_files Posix Worlds.empty_folder = [] /\
  printed (final_trace (quick_quality_check Worlds.posix_empty) no_locals)
  = [[Lit "No audio files found!"]].
Proof.
  split; [reflexivity |].
  exact (f_equal (fun r => printed (snd r))
           (proj1 (proj2 (empty_scan_stops_every_report Worlds.posix_empty eq_refl)))).
Defined.

End EmptyScan.

(* ================================================================= *)
(** ** The single-file inspector *)

Section Inspector.
Import Py Sys Tables Metadata.

Lemma quality_label_first_match (sample_rate bitrate : Z) :
  quality_label sample_rate bitrate
  = first_match inspector_rules "AAC 256kbps or lower" sample_rate bitrate.
Proof.
  unfold quality_label, inspector_rules. cbn [first_match].
  rewrite !Z.geb_leb. reflexivity.
Qed.

(** Once [quality] is assigned, nothing in [get_audio_info] changes it. *)
Lemma get_audio_info_quality (f : file) (a : audio) (n : Z) (x : pyfloat) :
  node_exists (file_node f) = true ->
  str_in (lower (suffix (file_path f))) [".m4a"; ".mp4"] = true ->
  node_open (file_node f) MP4 = Ok a ->
  node_stat (file_node f) = Ok n ->
  int_truediv n (1024 * 1024) = Ok x ->
  quality (final_locals (get_audio_info f) no_locals)
  = Some (quality_label
            (match info_sample_rate (audio_info a) with Some r => r | None => 0 end)
            (Check.bitrate_or_0 (audio_info a))).
Proof.
  intros Hex Hext Ho Hs Hx.
  unfold final_locals, get_audio_info. rewrite Hex, Hext. cbn [negb].
  mstep. rewrite Ho, Hs, Hx.
  repeat (destruct_inner; mstep); reflexivity.
Qed.

(** C6.  The inspector's label is the label of the first rule of its table
    that applies, top to bottom; at 44100 Hz and 1,100,000 bit/s that is
    the 44.1 kHz lossless rule, although the 500 kbps rule below it applies
    too, and a run on such a file sets and prints that label. *)
Theorem inspector_label_first_match :
  (forall sample_rate bitrate,
     quality_label sample_rate bitrate
     = first_match inspector_rules "AAC 256kbps or lower" sample_rate bitrate) /\
  quality_label 44100 1100000 = "Lossless (44.1kHz)" /\
  first_match (skipn 3 inspector_rules) "AAC 256kbps or lower" 44100 1100000
  = "High Quality AAC 500kbps+" /\
  (forall f a n x,
     node_exists (file_node f) = true ->
     str_in (lower (suffix (file_path f))) [".m4a"; ".mp4"] = true ->
     node_open (file_node f) MP4 = Ok a ->
     info_sample_rate (audio_info a) = Some 44100 ->
     info_bitrate (audio_info a) = Some 1100000 ->
     node_stat (file_node f) = Ok n ->
     int_truediv n (1024 * 1024) = Ok x ->
     quality (final_locals (get_audio_info f) no_locals) = Some "Lossless (44.1kHz)") /\
  In (Print [Lit "Quality: Lossless (44.1kHz)"])
     (final_trace (get_audio_info Samples.lossless_m4a) no_locals).
Proof.
  split; [exact quality_label_first_match |].
  split; [reflexivity |].
  split; [reflexivity |].
  split.
  - intros f a n x Hex Hext Ho Hsr Hbr Hs Hx.
    rewrite (get_audio_info_quality f a n x Hex Hext Ho Hs Hx).
    unfold Check.bitrate_or_0. rewrite Hsr, Hbr. reflexivity.
  - vm_compute. tauto.
Qed.

(** C8 as stated fails: a path with an unsupported extension that does not
    exist gets the file-not-found line, not the unsupported-format line. *)
Lemma unsupported_missing_path_is_not_found :
  str_in (lower (suffix (file_path Samples.missing_txt))) [".m4a"; ".mp4"] = false /\
  final_trace (get_audio_info Samples.missing_txt) no_locals
  = [Print [Lit "File not found: music/notes.txt"]] /\
  final_trace (get_audio_info Samples.missing_txt) no_locals
  <> [Print [Lit "Only supports .m4a or .mp4 files"]].
Proof.
  split; [reflexivity |]. split; [reflexivity |].
  vm_compute. discriminate.
Qed.

Example present_txt_is_refused :
  get_audio_info Samples.present_txt no_locals []
  = (Ok tt, no_locals, [Print [Lit "Only supports .m4a or .mp4 files"]]).
Proof. vm_compute. reflexivity. Qed.

End Inspector.

(* ================================================================= *)
(** ** The directory scanner *)

Section Scanner.
Import Py Sys Check.

(** C9 on a POSIX platform: a file named Song.MP3 has the extension .mp3
    once lower-cased, as the resolver would read it, yet the scan does not
    list it; under the Windows flavour the same scan does. *)
Theorem scan_is_case_sensitive_on_posix :
  lower (suffix (mkpath ["rips"] "Song.MP3")) = ".mp3" /\
  In (mkfile (mkpath ["rips"] "Song.MP3") (file_node Samples.mp3_320))
     (beneath Worlds.upper_case) /\
  find_audio_files Posix Worlds.upper_case = [] /\
  find_audio_files Windows Worlds.upper_case
  = [mkfile (mkpath ["rips"] "Song.MP3") (file_node Samples.mp3_320)].
Proof.
  repeat split; try reflexivity. cbn. tauto.
Qed.

End Scanner.

(* ================================================================= *)
(** ** Exact float sums *)

Section ExactSums.
Import Py Sys Check Aggregate Exact.

Lemma digits2_pos_log2 (p : positive) :
  Zpos (digits2_pos p) = Z.log2 (Zpos p) + 1.
Proof.
  assert (H : forall q, digits2_pos q = Pos.size q).
  { induction q; cbn; congruence. }
  rewrite H. destruct p; cbn [Z.log2 Pos.size]; rewrite ?Pos2Z.inj_succ; lia.
Qed.

Lemma Zdigits2_digits (z : Z) : 0 < z -> Zdigits2 z = digits z.
Proof.
  destruct z; try lia. intros _. apply digits2_pos_log2.
Qed.

Lemma digits_bounds (z : Z) : 0 < z -> 2 ^ (digits z - 1) <= z < 2 ^ digits z.
Proof.
  intros Hz. unfold digits.
  replace (Z.log2 z + 1 - 1) with (Z.log2 z) by lia.
  apply Z.log2_spec. exact Hz.
Qed.

Lemma digits_unique (z d : Z) : 0 < d -> 2 ^ (d - 1) <= z < 2 ^ d -> digits z = d.
Proof.
  intros Hd H. unfold digits.
  rewrite (Z.log2_unique z (d - 1)); [lia | lia |].
  replace (Z.succ (d - 1)) with d by lia. exact H.
Qed.

Lemma digits_pos (z : Z) : 0 < z -> 0 < digits z.
Proof. intros Hz. unfold digits. pose proof (Z.log2_nonneg z). lia. Qed.

Lemma digits_shift (z n : Z) : 0 < z -> 0 <= n -> digits (z * 2 ^ n) = digits z + n.
Proof.
  intros Hz Hn. pose proof (digits_bounds z Hz) as [Hlo Hhi].
  pose proof (digits_pos z Hz) as Hd.
  assert (Hp : 0 < 2 ^ n) by (apply Z.pow_pos_nonneg; lia).
  apply digits_unique; [lia |].
  replace (digits z + n - 1) with (digits z - 1 + n) by lia.
  rewrite !Z.pow_add_r by lia. nia.
Qed.

Lemma digits_le_53 (z : Z) : 0 < z < 2 ^ 53 -> digits z <= 53.
Proof.
  intros [Hz Hlt]. pose proof (digits_bounds z Hz) as [Hlo _].
  destruct (Z_le_gt_dec (digits z) 53) as [H | H]; [exact H | exfalso].
  assert (2 ^ 53 <= 2 ^ (digits z - 1)) by (apply Z.pow_le_mono_r; lia).
  lia.
Qed.

Lemma digits_mono (a b : Z) : 0 < a <= b -> digits a <= digits b.
Proof.
  intros [Ha Hab]. unfold digits.
  pose proof (Z.log2_le_mono a b Hab). lia.
Qed.

(** SpecFloat's iterator is [Pos.iter]. *)
Lemma iter_pos_iter {A} (f : A -> A) (n : positive) (x : A) :
  SpecFloat.iter_pos f n x = Pos.iter f x n.
Proof.
  revert x. induction n as [n IH | n IH |]; intros x; cbn [SpecFloat.iter_pos Pos.iter].
  - rewrite !IH. now rewrite !Pos.iter_swap.
  - now rewrite !IH.
  - reflexivity.
Qed.

Lemma iter_xO_value (m d : positive) :
  Zpos (Pos.iter xO m d) = Zpos m * 2 ^ Zpos d.
Proof.
  induction d as [| d IH] using Pos.peano_ind.
  - cbn [Pos.iter]. lia.
  - rewrite Pos.iter_succ, Pos2Z.inj_succ, Z.pow_succ_r by lia.
    rewrite Pos2Z.inj_xO, IH. lia.
Qed.

(** Shifting out zeros loses nothing. *)
Lemma shr_1_even (z : Z) :
  0 < z ->
  shr_1 (Build_shr_record (z * 2) false false) = Build_shr_record z false false.
Proof.
  destruct z as [| p | p]; try lia. intros _.
  replace (Zpos p * 2) with (Zpos (xO p)) by lia. reflexivity.
Qed.

Lemma iter_shr_1_exact (z : Z) (n : positive) :
  0 < z ->
  Pos.iter shr_1 (Build_shr_record (z * 2 ^ Zpos n) false false) n
  = Build_shr_record z false false.
Proof.
  intros Hz. induction n as [| n IH] using Pos.peano_ind.
  - cbn [Pos.iter]. replace (z * 2 ^ 1) with (z * 2) by lia. now apply shr_1_even.
  - rewrite Pos.iter_succ, <- Pos.iter_swap.
    rewrite Pos2Z.inj_succ, Z.pow_succ_r by lia.
    replace (z * (2 * 2 ^ Zpos n)) with (z * 2 ^ Zpos n * 2) by lia.
    rewrite shr_1_even; [exact IH |].
    assert (0 < 2 ^ Zpos n) by (apply Z.pow_pos_nonneg; lia). nia.
Qed.

Lemma shr_exact (z e n : Z) :
  0 < z -> 0 <= n ->
  shr (Build_shr_record (z * 2 ^ n) false false) e n
  = (Build_shr_record z false false, e + n).
Proof.
  intros Hz Hn. destruct n as [| p | p]; try lia.
  - cbn [shr]. rewrite Z.pow_0_r, Z.mul_1_r, Z.add_0_r. reflexivity.
  - cbn [shr]. now rewrite iter_pos_iter, iter_shr_1_exact.
Qed.

(** A mantissa that is 53 digits followed by zeros is rounded to those 53
    digits. *)
Lemma binary_round_aux_exact (sx : bool) (m0 n e : Z) :
  2 ^ 52 <= m0 < 2 ^ 53 -> 0 <= n -> -1074 <= e + n <= 971 ->
  binary_round_aux prec emax sx (m0 * 2 ^ n) e loc_Exact
  = S754_finite sx (Z.to_pos m0) (e + n).
Proof.
  intros Hm Hn He.
  assert (Hm0 : 0 < m0) by lia.
  assert (Hd0 : digits m0 = 53) by (apply digits_unique; [lia | exact Hm]).
  assert (Hpow : 0 < 2 ^ n) by (apply Z.pow_pos_nonneg; lia).
  unfold binary_round_aux, shr_fexp.
  rewrite Zdigits2_digits by nia.
  rewrite digits_shift, Hd0 by lia.
  replace (fexp prec emax (53 + n + e) - e) with n
    by (unfold fexp, emin, prec, emax; lia).
  cbn [shr_record_of_loc]. rewrite shr_exact by lia.
  cbn [shr_m loc_of_shr_record round_nearest_even].
  rewrite Zdigits2_digits, Hd0 by lia.
  replace (fexp prec emax (53 + (e + n)) - (e + n)) with 0
    by (unfold fexp, emin, prec, emax; lia).
  cbn [shr shr_m].
  destruct m0 as [| p | p]; try lia.
  replace (e + n <=? emax - prec) with true; [reflexivity |].
  symmetry. apply Z.leb_le. unfold emax, prec. lia.
Qed.

Lemma normalised_mantissa (n : Z) :
  0 < n < 2 ^ 53 -> 2 ^ 52 <= n * 2 ^ (53 - digits n) < 2 ^ 53.
Proof.
  intros Hn. pose proof (digits_bounds n (proj1 Hn)) as [Hlo Hhi].
  pose proof (digits_pos n (proj1 Hn)) as Hd.
  pose proof (digits_le_53 n Hn) as Hd53.
  assert (Hp : 0 < 2 ^ (53 - digits n)) by (apply Z.pow_pos_nonneg; lia).
  assert (E52 : 2 ^ 52 = 2 ^ (digits n - 1) * 2 ^ (53 - digits n))
    by (rewrite <- Z.pow_add_r by lia; f_equal; lia).
  assert (E53 : 2 ^ 53 = 2 ^ digits n * 2 ^ (53 - digits n))
    by (rewrite <- Z.pow_add_r by lia; f_equal; lia).
  rewrite E52, E53. clear E52 E53 Hn Hd53.
  split.
  - apply Z.mul_le_mono_nonneg_r; lia.
  - apply Z.mul_lt_mono_pos_r; lia.
Qed.

(** [n / (1024*1024)] is exact for a size below 2^53 bytes. *)
Lemma int_truediv_exact (n : Z) :
  0 <= n < 2 ^ 53 -> int_truediv n MB = Ok (exact_mb n).
Proof.
  intros Hn. unfold int_truediv, exact_mb.
  change (MB =? 0) with false. cbv iota.
  destruct (Z.eqb_spec n 0) as [-> | Hne]; [reflexivity |].
  assert (Hpos : 0 < n < 2 ^ 53) by lia.
  pose proof (digits_pos n (proj1 Hpos)) as Hd.
  pose proof (digits_le_53 n Hpos) as Hd53.
  pose proof (normalised_mantissa n Hpos) as Hm.
  rewrite (Z.abs_eq n) by lia.
  replace (n <? 0) with false by (symmetry; apply Z.ltb_ge; lia).
  change (MB <? 0) with false. change (Z.abs MB) with (2 ^ 20). cbn [xorb].
  unfold SFdiv_core_binary.
  rewrite (Zdigits2_digits n) by lia.
  change (Zdigits2 (2 ^ 20)) with 21.
  replace (Z.min (fexp prec emax (digits n + 0 - (21 + 0))) (0 - 0))
    with (digits n - 74) by (unfold fexp, emin, prec, emax; lia).
  replace (0 - 0 - (digits n - 74)) with (74 - digits n) by lia.
  destruct (74 - digits n) as [| p | p] eqn:Es; try lia.
  rewrite Z.shiftl_mul_pow2 by lia. rewrite <- Es.
  assert (Hsplit : n * 2 ^ (74 - digits n) = n * 2 ^ (53 - digits n) * 2 ^ 1 * 2 ^ 20).
  { rewrite <- !Z.mul_assoc, <- !Z.pow_add_r by lia. do 2 f_equal. lia. }
  pose proof (Z_div_mod (n * 2 ^ (74 - digits n)) (2 ^ 20) ltac:(lia)) as Hdm.
  destruct (Z.div_eucl (n * 2 ^ (74 - digits n)) (2 ^ 20)) as [q r].
  assert (Hq : q = n * 2 ^ (53 - digits n) * 2 ^ 1 /\ r = 0).
  { rewrite Hsplit in Hdm. change (2 ^ 20) with 1048576 in *. nia. }
  destruct Hq as [-> ->].
  change (new_location (2 ^ 20) 0) with loc_Exact.
  rewrite binary_round_aux_exact by lia.
  replace (digits n - 74 + 1) with (digits n - 73) by lia.
  reflexivity.
Qed.

Lemma shl_align_value (mx : positive) (ex ez : Z) :
  ez <= ex -> Zpos (fst (shl_align mx ex ez)) = Zpos mx * 2 ^ (ex - ez).
Proof.
  intros Hle. unfold shl_align.
  destruct (ez - ex) as [| d | d] eqn:E; try lia.
  - replace (ex - ez) with 0 by lia. cbn [fst]. lia.
  - cbn [fst]. rewrite iter_xO_value. f_equal. f_equal. lia.
Qed.

Lemma binary_normalize_exact (m0 n e : Z) :
  2 ^ 52 <= m0 < 2 ^ 53 -> 0 <= n -> -1074 <= e + n <= 971 ->
  binary_normalize prec emax (m0 * 2 ^ n) e false
  = S754_finite false (Z.to_pos m0) (e + n).
Proof.
  intros Hm Hn He.
  assert (Hpow : 0 < 2 ^ n) by (apply Z.pow_pos_nonneg; lia).
  assert (Hd0 : digits m0 = 53) by (apply digits_unique; [lia | exact Hm]).
  destruct (m0 * 2 ^ n) as [| p | p] eqn:Ep; try nia.
  cbn [binary_normalize]. unfold binary_round.
  rewrite digits2_pos_log2. fold (digits (Zpos p)).
  rewrite <- Ep, digits_shift, Hd0 by lia.
  replace (fexp prec emax (53 + n + e)) with (e + n)
    by (unfold fexp, emin, prec, emax; lia).
  unfold shl_align.
  destruct (e + n - e) as [| d | d] eqn:Ed; try lia;
    cbv iota beta; rewrite <- Ep; now apply binary_round_aux_exact.
Qed.

(** Adding two such sizes is exact while the sum stays below 2^53 bytes. *)
Lemma float_add_exact (a b : Z) :
  0 <= a -> 0 <= b -> a + b < 2 ^ 53 ->
  float_add (exact_mb a) (exact_mb b) = exact_mb (a + b).
Proof.
  intros Ha Hb Hab. unfold exact_mb.
  destruct (Z.eqb_spec a 0) as [-> | Hna]; destruct (Z.eqb_spec b 0) as [-> | Hnb].
  - reflexivity.
  - rewrite Z.add_0_l. destruct (Z.eqb_spec b 0); [contradiction | reflexivity].
  - rewrite Z.add_0_r. destruct (Z.eqb_spec a 0); [contradiction | reflexivity].
  - destruct (Z.eqb_spec (a + b) 0); [lia |].
    assert (Hpa : 0 < a < 2 ^ 53) by lia.
    assert (Hpb : 0 < b < 2 ^ 53) by lia.
    assert (Hps : 0 < a + b < 2 ^ 53) by lia.
    pose proof (normalised_mantissa a Hpa) as Hma.
    pose proof (normalised_mantissa b Hpb) as Hmb.
    pose proof (normalised_mantissa (a + b) Hps) as Hms.
    pose proof (digits_pos a (proj1 Hpa)) as Hda.
    pose proof (digits_pos b (proj1 Hpb)) as Hdb.
    pose proof (digits_le_53 a Hpa) as Hda53.
    pose proof (digits_le_53 b Hpb) as Hdb53.
    pose proof (digits_le_53 (a + b) Hps) as Hds53.
    pose proof (digits_mono a (a + b) ltac:(lia)) as Hdas.
    pose proof (digits_mono b (a + b) ltac:(lia)) as Hdbs.
    set (da := digits a) in *. set (db := digits b) in *.
    set (ds := digits (a + b)) in *.
    unfold float_add. cbn [SFadd cond_Zopp].
    rewrite !shl_align_value by lia.
    rewrite !Z2Pos.id by lia.
    set (dmin := Z.min da db).
    replace (Z.min (da - 73) (db - 73)) with (dmin - 73) by (unfold dmin; lia).
    assert (Ea : a * 2 ^ (53 - da) * 2 ^ (da - 73 - (dmin - 73)) = a * 2 ^ (53 - dmin)).
    { rewrite <- Z.mul_assoc, <- Z.pow_add_r by (unfold dmin; lia).
      do 2 f_equal. lia. }
    assert (Eb : b * 2 ^ (53 - db) * 2 ^ (db - 73 - (dmin - 73)) = b * 2 ^ (53 - dmin)).
    { rewrite <- Z.mul_assoc, <- Z.pow_add_r by (unfold dmin; lia).
      do 2 f_equal. lia. }
    rewrite Ea, Eb, <- Z.mul_add_distr_r.
    replace ((a + b) * 2 ^ (53 - dmin))
      with ((a + b) * 2 ^ (53 - ds) * 2 ^ (ds - dmin)).
    2:{ rewrite <- Z.mul_assoc, <- Z.pow_add_r by (unfold dmin; lia).
        do 2 f_equal. lia. }
    rewrite binary_normalize_exact by (unfold dmin; lia).
    f_equal. lia.
Qed.

Lemma total_bytes_nonneg (l : list file) :
  Forall (fun f => 0 <= bytes_of f) l -> 0 <= total_bytes l.
Proof.
  unfold total_bytes. induction 1; cbn [map fold_right]; lia.
Qed.

Lemma total_bytes_perm (l l' : list file) :
  Permutation l l' -> total_bytes l = total_bytes l'.
Proof.
  unfold total_bytes. induction 1; cbn [map fold_right] in *; lia.
Qed.

(** While the bytes read so far stay below 2^53, the running total is the
    exact quotient of their sum by 2^20. *)
Lemma total_of_exact (l : list file) (a0 : Z) :
  Forall (fun f => 0 <= bytes_of f) l ->
  0 <= a0 -> a0 + total_bytes l < 2 ^ 53 ->
  total_of l (exact_mb a0) = exact_mb (a0 + total_bytes l).
Proof.
  intros Hl. revert a0.
  induction Hl as [| f l Hf Hl IH]; intros a0 Ha0 Hsum.
  - unfold total_bytes. cbn. now rewrite Z.add_0_r.
  - pose proof (total_bytes_nonneg l Hl) as Hrest.
    change (total_bytes (f :: l)) with (bytes_of f + total_bytes l) in *.
    cbn [total_of fold_left]. fold (total_of l (add_size (exact_mb a0) f)).
    assert (Estep : add_size (exact_mb a0) f = exact_mb (a0 + bytes_of f)).
    { unfold add_size, size_mb, bytes_of in *.
      destruct (node_stat (file_node f)) as [n | e].
      - rewrite int_truediv_exact by lia. apply float_add_exact; lia.
      - now rewrite Z.add_0_r. }
    rewrite Estep, IH by lia. f_equal. lia.
Qed.

Lemma detailed_loop_locals (l : list file) (s : locals) :
  has_stats_keys (quality_stats s) ->
  final_locals (for_each l check_one) s = after_loop detailed_key l s.
Proof.
  intros Hkeys. unfold final_locals.
  destruct (detailed_loop_run l s [] Hkeys) as [log ->]. reflexivity.
Qed.

Lemma quick_loop_locals (l : list file) (s : locals) :
  final_locals (for_each l quick_one) s = after_loop quick_key l s.
Proof.
  unfold final_locals.
  destruct (quick_loop_run l s []) as [log ->]. reflexivity.
Qed.

(** C5, as the code has it.  Running the detailed loop or the quick loop
    over a permutation of the file list gives the same tier-to-count table;
    it gives the same total size when the sizes read, none negative, add up
    to less than 2^53 bytes, for then every partial sum of the megabyte
    values is exact in double precision. *)
Theorem aggregation_order_independent (l l' : list file) (Hperm : Permutation l l') :
  let detailed files :=
    final_locals (for_each files check_one) (mklocals files initial_stats fzero) in
  let quick files :=
    final_locals (for_each files quick_one) (mklocals files [] fzero) in
  dict_eq (quality_stats (detailed l)) (quality_stats (detailed l')) /\
  dict_eq (quality_stats (quick l)) (quality_stats (quick l')) /\
  (Forall (fun f => 0 <= bytes_of f) l -> total_bytes l < 2 ^ 53 ->
   total_size (detailed l) = total_size (detailed l') /\
   total_size (quick l) = total_size (quick l')).
Proof.
  intros detailed quick. subst detailed quick. cbv beta.
  rewrite !detailed_loop_locals by apply has_stats_keys_initial.
  rewrite !quick_loop_locals.
  cbn [after_loop quality_stats total_size].
  split; [now apply tally_perm |].
  split; [now apply tally_perm |].
  intros Hl Hsum.
  assert (Hl' : Forall (fun f => 0 <= bytes_of f) l').
  { apply Forall_forall. intros f Hf.
    apply (proj1 (Forall_forall _ l) Hl).
    apply Permutation_sym in Hperm. now apply (Permutation_in f Hperm). }
  pose proof (total_bytes_perm l l' Hperm) as Hsame.
  change fzero with (exact_mb 0).
  rewrite (total_of_exact l 0), (total_of_exact l' 0) by (assumption || lia).
  rewrite Hsame. split; reflexivity.
Qed.

Lemma aggregation_order_independent_two_files :
  Permutation [Samples.cd_wav; Samples.mp3_96] [Samples.mp3_96; Samples.cd_wav] /\
  dict_eq
    (quality_stats (final_locals (for_each [Samples.cd_wav; Samples.mp3_96] quick_one)
                      (mklocals [Samples.cd_wav; Samples.mp3_96] [] fzero)))
    (quality_stats (final_locals (for_each [Samples.mp3_96; Samples.cd_wav] quick_one)
                      (mklocals [Samples.mp3_96; Samples.cd_wav] [] fzero))).
Proof.
  split; [apply perm_swap |].
  exact (proj1 (proj2 (aggregation_order_independent
                         [Samples.cd_wav; Samples.mp3_96]
                         [Samples.mp3_96; Samples.cd_wav]
                         (perm_swap _ _ _)))).
Defined.

(** C5 as stated fails: with one file of 2^53 bytes and two of one byte,
    the total size depends on where the large file comes in the list. *)
Lemma total_size_depends_on_order :
  Permutation huge_first huge_last /\
  total_size (final_locals (for_each huge_first check_one)
                (mklocals huge_first initial_stats fzero))
  = S754_finite false 4503599627370496 (-19) /\
  total_size (final_locals (for_each huge_last check_one)
                (mklocals huge_last initial_stats fzero))
  = S754_finite false 4503599627370497 (-19) /\
  total_size (final_locals (for_each huge_first quick_one)
                (mklocals huge_first [] fzero))
  <> total_size (final_locals (for_each huge_last quick_one)
                   (mklocals huge_last [] fzero)).
Proof.
  split; [apply (Permutation_cons_append [sized "b.mp3" 1; sized "c.mp3" 1]) |].
  split; [vm_compute; reflexivity |].
  split; [vm_compute; reflexivity |].
  vm_compute. discriminate.
Qed.

End ExactSums.

(* ================================================================= *)
(** ** Quotients that cannot overflow *)

Section NoOverflow.
Import Py Sys Check Aggregate Exact.

Lemma Zdigits2_le (z k : Z) : 0 <= k -> 0 <= z < 2 ^ k -> Zdigits2 z <= k.
Proof.
  intros Hk [Hz Hlt].
  destruct (Z.eq_dec z 0) as [-> | Hne]; [cbn; lia |].
  rewrite Zdigits2_digits by lia.
  pose proof (digits_bounds z ltac:(lia)) as [Hlo _].
  destruct (Z_le_gt_dec (digits z) k) as [H | H]; [exact H | exfalso].
  assert (2 ^ k <= 2 ^ (digits z - 1)) by (apply Z.pow_le_mono_r; lia).
  lia.
Qed.

Lemma shr_1_bound (mrs : shr_record) :
  0 <= shr_m mrs -> 0 <= shr_m (shr_1 mrs) <= shr_m mrs.
Proof.
  destruct mrs as [m r s]. cbn [shr_m shr_1].
  destruct m as [| [p | p |] | p]; cbn [shr_m]; lia.
Qed.

Lemma iter_shr_1_bound (n : positive) (mrs : shr_record) :
  0 <= shr_m mrs -> 0 <= shr_m (Pos.iter shr_1 mrs n) <= shr_m mrs.
Proof.
  intros Hm. induction n as [| n IH] using Pos.peano_ind.
  - cbn [Pos.iter]. now apply shr_1_bound.
  - rewrite Pos.iter_succ.
    pose proof (shr_1_bound (Pos.iter shr_1 mrs n) (proj1 IH)). lia.
Qed.

Lemma shr_record_of_loc_m (m : Z) (l : location) : shr_m (shr_record_of_loc m l) = m.
Proof. destruct l as [| []]; reflexivity. Qed.

(** What [shr_fexp] does to a mantissa that is not negative: the mantissa
    does not grow, and the exponent is the larger of the old one and the
    one [fexp] asks for. *)
Lemma shr_fexp_bound (m e : Z) (l : location) :
  0 <= m ->
  0 <= shr_m (fst (shr_fexp prec emax m e l)) <= m /\
  snd (shr_fexp prec emax m e l) = Z.max e (fexp prec emax (Zdigits2 m + e)).
Proof.
  intros Hm. unfold shr_fexp, shr.
  destruct (fexp prec emax (Zdigits2 m + e) - e) as [| p | p] eqn:E; cbn [fst snd].
  - rewrite shr_record_of_loc_m. lia.
  - rewrite iter_pos_iter.
    pose proof (iter_shr_1_bound p (shr_record_of_loc m l)) as H.
    rewrite shr_record_of_loc_m in H. specialize (H Hm). lia.
  - rewrite shr_record_of_loc_m. lia.
Qed.

Lemma round_nearest_even_bound (m : Z) (l : location) :
  m <= round_nearest_even m l <= m + 1.
Proof.
  destruct l as [| []]; cbn [round_nearest_even]; try lia.
  destruct (Z.even m); lia.
Qed.

(** A mantissa of at most 54 digits with an exponent that is not positive
    never rounds to infinity. *)
Lemma binary_round_aux_finite (sx : bool) (mx ex : Z) (lx : location) :
  0 <= mx < 2 ^ 54 -> ex <= 0 ->
  forall s, binary_round_aux prec emax sx mx ex lx <> S754_infinity s.
Proof.
  intros Hmx Hex s. unfold binary_round_aux.
  pose proof (shr_fexp_bound mx ex lx (proj1 Hmx)) as [Hm1 He1].
  destruct (shr_fexp prec emax mx ex lx) as [mrs' e']. cbn [fst snd] in *.
  pose proof (round_nearest_even_bound (shr_m mrs') (loc_of_shr_record mrs')) as Hr.
  set (m1 := round_nearest_even (shr_m mrs') (loc_of_shr_record mrs')) in *.
  pose proof (shr_fexp_bound m1 e' loc_Exact ltac:(lia)) as [Hm2 He2].
  destruct (shr_fexp prec emax m1 e' loc_Exact) as [mrs'' e'']. cbn [fst snd] in *.
  destruct (shr_m mrs'') as [| p | p]; try discriminate.
  assert (Hd0 : Zdigits2 mx <= 54) by (apply Zdigits2_le; lia).
  assert (Hd1 : Zdigits2 m1 <= 55).
  { apply Zdigits2_le; [lia |].
    change (2 ^ 55) with (2 * 2 ^ 54). 
    change (2 ^ 54) with 18014398509481984 in *. lia. }
  assert (He : e'' <= emax - prec).
  { subst e'' e'. unfold fexp, emin, prec, emax. lia. }
  apply Z.leb_le in He. rewrite He. discriminate.
Qed.

(** The quotient of two counts, the smaller over the larger, is a float. *)
Lemma int_truediv_ok (a b : Z) :
  0 < a <= b -> exists x, int_truediv a b = Ok x.
Proof.
  intros [Ha Hab]. unfold int_truediv.
  destruct (Z.eqb_spec b 0); [lia |].
  destruct (Z.eqb_spec a 0); [lia |].
  rewrite (Z.abs_eq a), (Z.abs_eq b) by lia.
  unfold SFdiv_core_binary.
  rewrite (Zdigits2_digits a), (Zdigits2_digits b) by lia.
  pose proof (digits_bounds a Ha) as [Halo Hahi].
  pose proof (digits_bounds b ltac:(lia)) as [Hblo Hbhi].
  pose proof (digits_pos a Ha) as Hda.
  pose proof (digits_mono a b ltac:(lia)) as Hdab.
  set (da := digits a) in *. set (db := digits b) in *.
  set (e' := Z.min (fexp prec emax (da + 0 - (db + 0))) (0 - 0)).
  assert (He' : e' <= 0 /\ 0 - 0 - e' <= 53 + db - da).
  { subst e'. unfold fexp, emin, prec, emax. lia. }
  set (sh := 0 - 0 - e') in *.
  assert (Hm' : 0 <= match sh with
                     | Zpos _ => Z.shiftl a sh
                     | 0 => a
                     | Zneg _ => 0
                     end < 2 ^ 54 * b).
  { assert (Hbig : a * 2 ^ (53 + db - da) < 2 ^ 54 * b).
    { assert (E : 2 ^ 54 * 2 ^ (db - 1) = 2 ^ da * 2 ^ (53 + db - da)).
      { rewrite <- !Z.pow_add_r by lia. f_equal. lia. }
      assert (0 < 2 ^ (53 + db - da)) by (apply Z.pow_pos_nonneg; lia).
      assert (a * 2 ^ (53 + db - da) < 2 ^ da * 2 ^ (53 + db - da))
        by (apply Z.mul_lt_mono_pos_r; lia).
      assert (2 ^ 54 * 2 ^ (db - 1) <= 2 ^ 54 * b)
        by (apply Z.mul_le_mono_nonneg_l; lia).
      lia. }
    destruct sh as [| p | p] eqn:Es; try lia.
    rewrite Z.shiftl_mul_pow2 by lia.
    assert (2 ^ Zpos p <= 2 ^ (53 + db - da)) by (apply Z.pow_le_mono_r; lia).
    assert (0 < 2 ^ Zpos p) by (apply Z.pow_pos_nonneg; lia).
    nia. }
  set (m' := match sh with
             | Zpos _ => Z.shiftl a sh
             | 0 => a
             | Zneg _ => 0
             end) in *.
  pose proof (Z_div_mod m' b ltac:(lia)) as Hdm.
  destruct (Z.div_eucl m' b) as [q r].
  assert (Hq : 0 <= q < 2 ^ 54) by nia.
  pose proof (binary_round_aux_finite (xorb (a <? 0) (b <? 0)) q e'
                (new_location b r) Hq (proj1 He')) as Hfin.
  destruct (binary_round_aux prec emax (xorb (a <? 0) (b <? 0)) q e' (new_location b r));
    try (eexists; reflexivity).
  exfalso. eapply Hfin. reflexivity.
Qed.

End NoOverflow.

(* ================================================================= *)
(** ** The summaries, line by line *)

Section Summaries.
Import Py Sys Check Tables Run Aggregate.

Lemma percentage_run (count total : Z) (s : locals) (t : trace) :
  0 < count <= total ->
  percentage count total s t = (Ok (percent_of count total), s, t).
Proof.
  intros H. unfold percentage, percent_of. mstep.
  destruct (int_truediv_ok count total H) as [x ->].
  reflexivity.
Qed.

Lemma summary_loop_run (total : Z) (rows : list (string * Z)) (s : locals) (t : trace) :
  Forall (fun row => snd row <= total) rows ->
  for_each rows (summary_row total) s t
  = (Ok tt, s, t ++ map (fun row => Print (summary_line total row)) (detailed_rows rows)).
Proof.
  intros Hrows. revert t.
  induction Hrows as [| [k c] rows Hc _ IH]; intros t.
  - cbn. now rewrite app_nil_r.
  - cbn [for_each summary_row detailed_rows filter snd] in *.
    unfold bind at 1.
    destruct (Z.gtb_spec c 0) as [Hpos | Hle].
    + unfold bind at 1. rewrite percentage_run by lia.
      unfold print, emit. rewrite IH. cbn [map].
      now rewrite <- app_assoc.
    + unfold ret. apply IH.
Qed.

Lemma quick_rows_run (total : Z) (rows : list (string * Z)) (s : locals) (t : trace) :
  Forall (fun row => 0 < snd row <= total) rows ->
  for_each rows (quick_row total) s t
  = (Ok tt, s, t ++ map (fun row => Print (quick_line total row)) rows).
Proof.
  intros Hrows. revert t.
  induction Hrows as [| [k c] rows Hc _ IH]; intros t.
  - cbn. now rewrite app_nil_r.
  - cbn [for_each quick_row snd] in *.
    unfold bind at 1. unfold bind at 1. rewrite percentage_run by lia.
    unfold print, emit. rewrite IH. cbn [map].
    now rewrite <- app_assoc.
Qed.

Lemma value_le_sum (d : dict Z) :
  Forall (fun row => 0 <= snd row) d ->
  Forall (fun row => snd row <= sum_counts d) d.
Proof.
  unfold sum_counts, dict_values.
  induction 1 as [| [k c] d Hc Hd IH]; cbn [map fold_right snd] in *; constructor.
  - cbn [snd]. clear IH.
    assert (0 <= fold_right Z.add 0 (map snd d)).
    { induction Hd; cbn [map fold_right]; lia. }
    lia.
  - eapply Forall_impl; [| exact IH]. cbn beta. intros row Hrow. lia.
Qed.

Lemma dict_set_positive (k : string) (v : Z) (d : dict Z) :
  0 < v ->
  Forall (fun row => 0 < snd row) d ->
  Forall (fun row => 0 < snd row) (dict_set k v d).
Proof.
  intros Hv. induction 1 as [| [k' v'] d Hc Hd IH]; cbn [dict_set].
  - repeat constructor. exact Hv.
  - destruct (String.eqb k k'); constructor; auto.
Qed.

Lemma tally_positive (key : file -> string) (l : list file) (d : dict Z) :
  Forall (fun row => 0 < snd row) d ->
  Forall (fun row => 0 < snd row) (tally key l d).
Proof.
  revert d. induction l as [| f l IH]; intros d Hd; [exact Hd |].
  cbn [tally fold_left]. apply IH. unfold dict_incr.
  apply dict_set_positive; [| exact Hd].
  assert (Forall (fun row => 0 <= snd row) d)
    by (eapply Forall_impl; [| exact Hd]; cbn beta; intros; lia).
  pose proof (dict_get_default_nonneg (key f) d H). lia.
Qed.

(** The detailed report returns, and its output ends with one line for
    each key whose count is positive, then the two totals. *)
Lemma check_audio_quality_summary (w : world) :
  let files := find_audio_files (os_flavour w) (script_dir w) in
  let s := after_loop detailed_key files (mklocals files initial_stats fzero) in
  files <> [] ->
  exists report,
    check_audio_quality w no_locals []
    = (Ok tt, s,
       report
       ++ map (fun row => Print (summary_line (len files) row))
              (detailed_rows (quality_stats s))
       ++ [Print [Lit (nl ++ "📦 Total files: " ++ str_of_int (len files))%string];
           Print [Lit "💾 Total size: "; Flt 2 (total_size s); Lit " MB"]]).
Proof.
  intros files s Hne. unfold check_audio_quality. mstep.
  fold files. cbn [audio_files set_audio_files no_locals].
  destruct files as [| f0 fs] eqn:Hfiles; [contradiction |].
  rewrite <- Hfiles in *.
  cbn [set_quality_stats set_total_size audio_files quality_stats total_size].
  match goal with
  | |- context [for_each files check_one ?s0 ?t0] =>
      destruct (detailed_loop_run files s0 t0 has_stats_keys_initial) as [log ->]
  end.
  rewrite summary_loop_run.
  - match goal with
    | |- exists r, (_, _, ((?pre ++ _) ++ _) ++ _) = _ => exists pre
    end.
    subst s. rewrite <- Hfiles. f_equal. rewrite <- !app_assoc. reflexivity.
  - cbn [after_loop quality_stats set_total_size set_quality_stats].
    assert (Hnn : Forall (fun row => 0 <= snd row) (tally detailed_key files initial_stats)).
    { apply tally_nonneg. unfold initial_stats. repeat constructor; cbn; lia. }
    pose proof (value_le_sum _ Hnn) as Hle.
    rewrite tally_sum in Hle. exact Hle.
Qed.

Lemma quick_quality_check_summary (w : world) :
  let files := find_audio_files (os_flavour w) (script_dir w) in
  let s := after_loop quick_key files (mklocals files [] fzero) in
  files <> [] ->
  exists report,
    quick_quality_check w no_locals []
    = (Ok tt, s,
       report
       ++ map (fun row => Print (quick_line (len files) row))
              (quick_rows (quality_stats s))).
Proof.
  intros files s Hne. unfold quick_quality_check. mstep.
  fold files. cbn [audio_files set_audio_files no_locals].
  destruct files as [| f0 fs] eqn:Hfiles; [contradiction |].
  rewrite <- Hfiles in *.
  cbn [set_quality_stats set_total_size audio_files quality_stats total_size].
  match goal with
  | |- context [for_each files quick_one ?s0 ?t0] =>
      destruct (quick_loop_run files s0 t0) as [log ->]
  end.
  rewrite quick_rows_run.
  - match goal with
    | |- exists r, (_, _, ?pre ++ _) = _ => exists pre
    end.
    subst s. rewrite <- Hfiles. reflexivity.
  - cbn [after_loop quality_stats set_total_size set_quality_stats].
    assert (Hpos : Forall (fun row => 0 < snd row) (tally quick_key files [])).
    { apply tally_positive. constructor. }
    assert (Hnn : Forall (fun row => 0 <= snd row) (tally quick_key files []))
      by (eapply Forall_impl; [| exact Hpos]; cbn beta; intros; lia).
    pose proof (value_le_sum _ Hnn) as Hle.
    rewrite tally_sum in Hle.
    apply (Permutation_Forall (Permutation_sym (sorted_by_count_desc_perm _))).
    apply Forall_forall. intros row Hrow. split.
    + exact (proj1 (Forall_forall _ _) Hpos row Hrow).
    + pose proof (proj1 (Forall_forall _ _) Hle row Hrow) as H.
      unfold sum_counts, dict_values in H. cbn [map fold_right] in H. lia.
Qed.

End Summaries.

(* ================================================================= *)
(** ** The reports as wholes *)

Section Reports.
Import Py Sys Check Tables Run Aggregate.
Local Open Scope Q_scope.


Example mp3_and_empty_wav :
  quality_stats (final_locals (check_audio_quality Worlds.two_files) no_locals)
  = [("320kbps (High Quality)"%string, 1%Z);
     ("256kbps (Good Quality)"%string, 0%Z);
     ("192kbps (Medium Quality)"%string, 0%Z);
     ("128kbps (Standard Quality)"%string, 0%Z);
     ("Low Quality"%string, 0%Z);
     ("Unknown Quality"%string, 1%Z)].
Proof. vm_compute. reflexivity. Qed.

End Reports.

(* ================================================================= *)
(** ** The folder report's printing loop *)

Section FolderPrinting.
Import Py Sys Check Tables Run Aggregate.

Lemma dict_get_in {V} (k : string) (v : V) (d : dict V) :
  dict_get k d = Some v -> In (k, v) d.
Proof.
  induction d as [| [k' v'] d IH]; cbn [dict_get]; [discriminate |].
  destruct (String.eqb_spec k k') as [-> | _].
  - intros [= ->]. now left.
  - intros H. right. now apply IH.
Qed.

Lemma print_grouped_files_raise (fs : list file) (f : file) (s : folder_locals) (t : trace) :
  In f fs -> is_raise (node_stat (file_node f)) = true ->
  exists e s' t', for_each fs print_grouped_file s t = (Raise e, s', t').
Proof.
  intros Hin Hf. revert t.
  induction fs as [| g fs IH]; intros t; [contradiction |].
  cbn [for_each]. unfold bind at 1.
  destruct (print_grouped_file g s t) as [[[[] | e] s1] t1] eqn:Eg.
  - destruct Hin as [-> | Hin].
    + exfalso. unfold print_grouped_file in Eg. revert Eg. mstep.
      destruct (node_stat (file_node f)); [discriminate Hf |]. discriminate.
    + assert (s1 = s) as ->.
      { revert Eg. unfold print_grouped_file. mstep.
        destruct (node_stat (file_node g)); [| discriminate].
        destruct (int_truediv _ MB); [| discriminate]. now intros [= <- _]. }
      now apply IH.
  - now exists e, s1, t1.
Qed.

Lemma print_groups_raise (rows : list (string * list file)) (k : string)
    (fs : list file) (f : file) (s : folder_locals) (t : trace) :
  In (k, fs) rows -> In f fs -> is_raise (node_stat (file_node f)) = true ->
  exists e s' t', for_each rows print_group s t = (Raise e, s', t').
Proof.
  intros Hrow Hin Hf. revert t.
  induction rows as [| [k' fs'] rows IH]; intros t; [contradiction |].
  cbn [for_each]. unfold bind at 1.
  destruct (print_group (k', fs') s t) as [[[[] | e] s1] t1] eqn:Eg.
  - destruct Hrow as [[= -> ->] | Hrow].
    + exfalso. unfold print_group in Eg. unfold bind at 1, print, emit in Eg.
      destruct (print_grouped_files_raise fs f s
                  (t ++ [Print [Lit (nl ++ k ++ " (" ++ str_of_int (len fs)
                                      ++ " files):")%string]]) Hin Hf)
        as (e & s' & t' & E).
      rewrite E in Eg. discriminate.
    + assert (s1 = s) as ->.
      { destruct (print_group_frame [(k', fs')] s t) as (r & log & E).
        cbn [for_each] in E. unfold bind at 1 in E. rewrite Eg in E.
        unfold ret in E. now injection E as _ <- _. }
      now apply IH.
  - now exists e, s1, t1.
Qed.

(** X1.  The folder report does not survive a discovered file that cannot be
    stat'ed: the loop that prints the groups is outside any [try]. *)
Theorem check_specific_folder_raises_on_unreadable (w : world) (typed : string)
    (target : folder) (f : file) :
  strip typed <> ""%string ->
  resolve w (strip typed) = Some target ->
  In f (find_audio_files (os_flavour w) target) ->
  is_raise (node_stat (file_node f)) = true ->
  exists e, outcome (check_specific_folder w typed) no_folder_locals = Raise e.
Proof.
  intros Htyped Hres Hin Hf.
  unfold outcome, check_specific_folder.
  apply String.eqb_neq in Htyped. rewrite Htyped, Hres. mstep.
  set (found := find_audio_files (os_flavour w) target) in *.
  destruct found as [| f0 fs] eqn:Hfound; [contradiction |].
  rewrite <- Hfound in *.
  cbn [folder_files bitrate_groups no_folder_locals].
  rewrite grouping_loop_run.
  set (s := after_grouping found _).
  assert (Hgroup : exists fs', In (folder_key f, fs') (bitrate_groups s) /\ In f fs').
  { pose proof (grouping_get (folder_key f) found []) as Hg.
    change (grouping found []) with (bitrate_groups s) in Hg.
    assert (Hmem : In f (dict_get_default (folder_key f) [] (bitrate_groups s))).
    { rewrite Hg. cbn [dict_get_default dict_get app]. unfold with_key.
      apply filter_In. split; [exact Hin | apply String.eqb_refl]. }
    unfold dict_get_default in Hmem.
    destruct (dict_get (folder_key f) (bitrate_groups s)) as [fs' |] eqn:E;
      [| contradiction].
    exists fs'. split; [now apply dict_get_in | exact Hmem]. }
  destruct Hgroup as (fs' & Hrow & Hmem).
  match goal with
  | |- context [for_each (bitrate_groups s) print_group ?s0 ?t0] =>
      destruct (print_groups_raise (bitrate_groups s) (folder_key f) fs' f s0 t0
                  Hrow Hmem Hf) as (e & s' & t' & ->)
  end.
  exists e. reflexivity.
Qed.

Lemma check_specific_folder_raises_on_unreadable_music :
  In Samples.broken_link (find_audio_files Posix Worlds.music) /\
  exists e, outcome (check_specific_folder Worlds.posix_music "music") no_folder_locals
            = Raise e.
Proof.
  assert (Hin : In Samples.broken_link (find_audio_files Posix Worlds.music))
    by (vm_compute; tauto).
  split; [exact Hin |].
  apply (check_specific_folder_raises_on_unreadable Worlds.posix_music "music"
           Worlds.music Samples.broken_link); try reflexivity.
  - vm_compute. discriminate.
  - exact Hin.
Defined.

End FolderPrinting.

(* ================================================================= *)
(** ** What the scan finds *)

Section ScanResult.
Import Py Sys Check Scan.

(** Induction over a directory tree. *)
Fixpoint entry_tree_ind (P : entry -> Prop)
    (step : forall nm n cs, Forall P cs -> P (Entry nm n cs)) (e : entry) : P e :=
  match e with
  | Entry nm n cs =>
      step nm n cs
        ((fix all (l : list entry) : Forall P l :=
            match l with
            | [] => Forall_nil P
            | c :: l' => Forall_cons c (entry_tree_ind P step c) (all l')
            end) cs)
  end.

Lemma endswith_iff (s suf : string) :
  endswith s suf = true <-> exists pre, s = (pre ++ suf)%string.
Proof.
  split.
  - induction s as [| c s IH]; cbn [endswith]; intros H.
    + apply orb_prop in H. destruct H as [H | H]; [| discriminate].
      apply String.eqb_eq in H. subst suf. now exists ""%string.
    + apply orb_prop in H. destruct H as [H | H].
      * apply String.eqb_eq in H. subst suf. now exists ""%string.
      * destruct (IH H) as [pre ->]. now exists (String c pre).
  - intros [pre ->]. induction pre as [| c pre IH]; cbn [append endswith].
    + destruct suf; cbn [endswith]; rewrite String.eqb_refl; reflexivity.
    + rewrite IH. apply orb_true_r.
Qed.

Lemma glob_literal (pat s : string) :
  literal pat = true -> glob pat s = String.eqb pat s.
Proof.
  revert s. induction pat as [| c pat IH]; intros s Hlit.
  - destruct s; reflexivity.
  - cbn [literal] in Hlit. apply andb_prop in Hlit. destruct Hlit as [Hc Hpat].
    unfold literal_char in Hc. apply negb_true_iff, orb_false_elim in Hc.
    destruct Hc as [Hstar Hq].
    cbn [glob]. rewrite Hstar, Hq. cbn [orb].
    destruct s as [| d s]; [reflexivity |].
    cbn [String.eqb]. now rewrite IH.
Qed.

(** [*suf] matches the names that end with [suf]. *)
Lemma glob_star_literal (suf s : string) :
  literal suf = true -> glob ("*" ++ suf) s = endswith s suf.
Proof.
  intros Hlit. cbn [append glob]. cbn [Ascii.eqb Bool.eqb].
  induction s as [| d s IH]; cbn [endswith].
  - rewrite glob_literal by exact Hlit. rewrite String.eqb_sym. reflexivity.
  - rewrite glob_literal by exact Hlit. rewrite (String.eqb_sym suf). now rewrite IH.
Qed.

(** Two endings of one string: one of them ends with the other. *)
Lemma endings_comparable (s e1 e2 : string) :
  endswith s e1 = true -> endswith s e2 = true ->
  (endswith e1 e2 || endswith e2 e1)%bool = true.
Proof.
  rewrite !endswith_iff. intros [p1 H1] [p2 H2]. subst s.
  revert p2 H2. induction p1 as [| c p1 IH]; intros p2 H2.
  - cbn [append] in H2. apply orb_true_intro. left. apply endswith_iff. now exists p2.
  - destruct p2 as [| d p2].
    + cbn [append] in H2. apply orb_true_intro. right.
      apply endswith_iff. exists (String c p1). now symmetry.
    + cbn [append] in H2. injection H2 as _ H2. now apply (IH p2).
Qed.

Lemma one_ending_at_most (s : string) (l : list string) :
  ForallOrdPairs (fun a b => (endswith a b || endswith b a)%bool = false) l ->
  (List.length (filter (endswith s) l) <= 1)%nat.
Proof.
  induction 1 as [| a l Ha _ IH]; cbn [filter]; [cbn; lia |].
  destruct (endswith s a) eqn:Ea; [| exact IH].
  assert (Hnone : filter (endswith s) l = []).
  { clear IH. induction Ha as [| b l Hb _ IH]; cbn [filter]; [reflexivity |].
    destruct (endswith s b) eqn:Eb; [| exact IH].
    pose proof (endings_comparable s a b Ea Eb). congruence. }
  rewrite Hnone. cbn. lia.
Qed.

Lemma audio_extensions_incomparable :
  ForallOrdPairs (fun a b => (endswith a b || endswith b a)%bool = false)
    audio_extensions.
Proof. repeat constructor. Qed.

(** *** Lists *)

Lemma flat_map_pointwise_perm {A B} (F G : A -> list B) (l : list A) :
  Forall (fun a => Permutation (F a) (G a)) l ->
  Permutation (flat_map F l) (flat_map G l).
Proof.
  induction 1; cbn [flat_map]; [constructor | now apply Permutation_app].
Qed.

Lemma flat_map_split_perm {A B} (F G : A -> list B) (l : list A) :
  Permutation (flat_map (fun a => F a ++ G a) l) (flat_map F l ++ flat_map G l).
Proof.
  induction l as [| a l IH]; cbn [flat_map]; [constructor |].
  rewrite <- !app_assoc. apply Permutation_app_head.
  eapply Permutation_trans; [apply Permutation_app_head, IH |].
  apply Permutation_app_swap_app.
Qed.

Lemma filter_flat_map {A B} (p : B -> bool) (F : A -> list B) (l : list A) :
  filter p (flat_map F l) = flat_map (fun a => filter p (F a)) l.
Proof.
  induction l as [| a l IH]; cbn [flat_map]; [reflexivity |].
  now rewrite filter_app, IH.
Qed.

Lemma flat_map_eq_in {A B} (F G : A -> list B) (l : list A) :
  (forall a, In a l -> F a = G a) -> flat_map F l = flat_map G l.
Proof.
  induction l as [| a l IH]; intros H; cbn [flat_map]; [reflexivity |].
  rewrite (H a (or_introl eq_refl)), IH; [reflexivity |].
  intros b Hb. apply H. now right.
Qed.

(** The matches of a directory, listed first by [rglob], are where the
    walk meets them. *)
Lemma heads_then_subtrees {A B} (p : A -> bool) (g : A -> B) (R : A -> list B)
    (l : list A) :
  Permutation (map g (filter p l) ++ flat_map R l)
    (flat_map (fun a => (if p a then [g a] else []) ++ R a) l).
Proof.
  apply Permutation_trans
    with (flat_map (fun a => if p a then [g a] else []) l ++ flat_map R l).
  - apply Permutation_app_tail.
    induction l as [| a l IH]; cbn [filter map flat_map]; [constructor |].
    destruct (p a); cbn [map app]; [now constructor | exact IH].
  - apply Permutation_sym.
    apply (flat_map_split_perm (fun a => if p a then [g a] else []) R).
Qed.

(** Filters by tests of which at most one holds add up to the filter by
    their disjunction. *)
Lemma filters_add_up {A B} (q : A -> B -> bool) (keys : list A) (l : list B) :
  (forall x, (List.length (filter (fun k => q k x) keys) <= 1)%nat) ->
  Permutation (flat_map (fun k => filter (q k) l) keys)
    (filter (fun x => existsb (fun k => q k x) keys) l).
Proof.
  intros Hone. induction l as [| x l IH].
  - cbn [filter]. clear Hone.
    induction keys; cbn [flat_map filter app]; [constructor | assumption].
  - cbn [filter].
    rewrite (flat_map_eq_in _ (fun k => (if q k x then [x] else []) ++ filter (q k) l))
      by (intros k _; destruct (q k x); reflexivity).
    eapply Permutation_trans.
    { apply (flat_map_split_perm (fun k => if q k x then [x] else [])
               (fun k => filter (q k) l)). }
    assert (Hx : flat_map (fun k => if q k x then [x] else []) keys
                 = if existsb (fun k => q k x) keys then [x] else []).
    { specialize (Hone x). clear IH.
      induction keys as [| k keys IHk]; cbn [flat_map existsb filter] in *;
        [reflexivity |].
      destruct (q k x) eqn:Ek; cbn [orb app].
      - cbn [List.length] in Hone.
        assert (Hnil : filter (fun k0 => q k0 x) keys = [])
          by (destruct (filter (fun k0 => q k0 x) keys); [reflexivity | cbn in Hone; lia]).
        clear IHk Hone. f_equal.
        induction keys as [| k' keys IHk']; cbn [flat_map filter] in *; [reflexivity |].
        destruct (q k' x); [discriminate | now apply IHk'].
      - now apply IHk. }
    rewrite Hx.
    destruct (existsb (fun k => q k x) keys); cbn [app];
      [now constructor | exact IH].
Qed.

(** *** The tree *)

Lemma rglob_under_descendants (fl : flavour) (pat : string) (e : entry) :
  forall dirs,
    Permutation (rglob_under fl pat dirs e)
      (filter (fun f => name_matches fl pat (name (file_path f)))
         (tl (beneath_entry dirs e))).
Proof.
  induction e as [nm n cs IH] using entry_tree_ind. intros dirs.
  cbn [rglob_under beneath_entry tl].
  set (here := dirs ++ [nm]).
  eapply Permutation_trans; [apply heads_then_subtrees |].
  rewrite filter_flat_map.
  apply flat_map_pointwise_perm.
  apply Forall_forall. intros c Hc.
  pose proof (proj1 (Forall_forall _ cs) IH c Hc here) as IHc.
  destruct c as [cn cnode ccs].
  cbn [beneath_entry filter tl entry_name entry_node file_path name] in *.
  destruct (name_matches fl pat cn); cbn [app]; [now constructor | exact IHc].
Qed.

Lemma rglob_descendants (fl : flavour) (pat : string) (d : folder) :
  Permutation (rglob fl d pat)
    (filter (fun f => name_matches fl pat (name (file_path f))) (beneath d)).
Proof.
  unfold rglob, beneath.
  eapply Permutation_trans; [apply heads_then_subtrees |].
  rewrite filter_flat_map.
  apply flat_map_pointwise_perm.
  apply Forall_forall. intros c _.
  pose proof (rglob_under_descendants fl pat c (folder_path d)) as Hc.
  destruct c as [cn cnode ccs].
  cbn [beneath_entry filter tl entry_name entry_node file_path name] in *.
  destruct (name_matches fl pat cn); cbn [app]; [now constructor | exact Hc].
Qed.

Lemma pattern_is_ending (fl : flavour) (ext nm : string) :
  In ext audio_extensions ->
  name_matches fl ("*" ++ ext) nm
  = endswith (match fl with Posix => nm | Windows => lower nm end) ext.
Proof.
  intros Hext.
  assert (Hlit : literal ext = true).
  { cbn [audio_extensions In] in Hext. intuition subst; reflexivity. }
  assert (Hlow : lower ("*" ++ ext) = ("*" ++ ext)%string).
  { cbn [audio_extensions In] in Hext. intuition subst; reflexivity. }
  destruct fl; cbn [name_matches].
  - now apply glob_star_literal.
  - rewrite Hlow. now apply glob_star_literal.
Qed.

(** X2.  The scan lists, each once, the paths below the root whose names end
    with one of the eight extensions: as written under the POSIX flavour,
    in any letter case under the Windows flavour. *)
Theorem scan_is_filter_of_tree (fl : flavour) (root : folder) :
  Permutation (find_audio_files fl root) (filter (is_audio fl) (beneath root)) /\
  (forall f, In f (find_audio_files fl root)
             <-> In f (beneath root) /\ is_audio fl f = true).
Proof.
  assert (Hperm : Permutation (find_audio_files fl root)
                    (filter (is_audio fl) (beneath root))).
  { unfold find_audio_files.
    eapply Permutation_trans.
    { apply flat_map_pointwise_perm. apply Forall_forall. intros ext _.
      apply rglob_descendants. }
    rewrite (flat_map_eq_in _
               (fun ext => filter
                  (fun f => endswith (match fl with
                                      | Posix => name (file_path f)
                                      | Windows => lower (name (file_path f))
                                      end) ext) (beneath root))).
    2:{ intros ext Hext. apply filter_ext. intros f.
        now apply pattern_is_ending. }
    eapply Permutation_trans.
    { apply (filters_add_up
               (fun ext f => endswith (match fl with
                                       | Posix => name (file_path f)
                                       | Windows => lower (name (file_path f))
                                       end) ext)).
      intros f. apply one_ending_at_most, audio_extensions_incomparable. }
    apply Permutation_refl. }
  split; [exact Hperm |].
  intros f. rewrite <- filter_In. split; intros H.
  - now apply (Permutation_in f Hperm).
  - now apply (Permutation_in f (Permutation_sym Hperm)).
Qed.

End ScanResult.

(* ================================================================= *)
(** ** The menu loop *)

Section MenuLoop.
Import Py Sys Check Run Aggregate Menu.

(** The detailed report and the quick summary return, files or none. *)
Lemma check_audio_quality_returns (w : world) :
  outcome (check_audio_quality w) no_locals = Ok tt.
Proof.
  destruct (find_audio_files (os_flavour w) (script_dir w)) as [| f0 fs] eqn:E.
  - unfold outcome, check_audio_quality. mstep.
    cbn [audio_files set_audio_files no_locals]. rewrite E. reflexivity.
  - assert (Hne : find_audio_files (os_flavour w) (script_dir w) <> [])
      by (rewrite E; discriminate).
    destruct (check_audio_quality_summary w Hne) as [report Hrun].
    unfold outcome. now rewrite Hrun.
Qed.

Lemma quick_quality_check_returns (w : world) :
  outcome (quick_quality_check w) no_locals = Ok tt.
Proof.
  destruct (find_audio_files (os_flavour w) (script_dir w)) as [| f0 fs] eqn:E.
  - unfold outcome, quick_quality_check. mstep.
    cbn [audio_files set_audio_files no_locals]. rewrite E. reflexivity.
  - assert (Hne : find_audio_files (os_flavour w) (script_dir w) <> [])
      by (rewrite E; discriminate).
    destruct (quick_quality_check_summary w Hne) as [report Hrun].
    unfold outcome. now rewrite Hrun.
Qed.

(** X5.  Nothing in [main] catches what the folder report lets through:
    an exception that leaves [check_specific_folder] ends the program
    with that exception, whatever input follows. *)
Theorem main_propagates_folder_exception (w : world) (line typed : string)
    (rest : list string) (e : exn)
    (Hline : strip line = "3"%string)
    (Hraise : outcome (check_specific_folder w typed) no_folder_locals = Raise e) :
  fst (main w (line :: typed :: rest)) = Raise e /\
  main w (line :: typed :: rest) = main w [line; typed].
Proof.
  unfold main. cbn [menu]. rewrite Hline.
  cbn [String.eqb Ascii.eqb Bool.eqb]. unfold call. rewrite Hraise.
  split; reflexivity.
Qed.

Lemma main_propagates_folder_exception_sample :
  exists e,
    outcome (check_specific_folder Worlds.posix_music "music") no_folder_locals = Raise e /\
    fst (main Worlds.posix_music ["3"; "music"; "4"]%string) = Raise e.
Proof.
  eexists. split; [vm_compute; reflexivity |].
  apply (main_propagates_folder_exception Worlds.posix_music "3" "music" ["4"%string]).
  - reflexivity.
  - vm_compute. reflexivity.
Defined.

End MenuLoop.

(* ================================================================= *)
(** ** The inspector's output *)

Section InspectorOutput.
Import Py Sys Metadata Inspect.

Lemma try_print_returns {S} (body : M S unit) (h : exn -> line) (s : S) (t : trace) :
  fst (fst (try_except body (fun e => print (h e)) s t)) = Ok tt.
Proof.
  unfold try_except. destruct (body s t) as [[[[] | e] s'] t']; reflexivity.
Qed.

Lemma get_audio_info_returns (f : file) (s : locals) (t : trace) :
  fst (fst (get_audio_info f s t)) = Ok tt.
Proof.
  unfold get_audio_info.
  destruct (negb (node_exists (file_node f))); [reflexivity |].
  destruct (negb (str_in _ _)); [reflexivity |].
  apply try_print_returns.
Qed.

(** X7.  A failure before the first line of the report leaves the error line
    as the whole output: when the file cannot be opened as MP4, when its
    size cannot be read, and when a tag is there with no value. *)
Theorem inspector_error_is_the_whole_output (f : file) (Hf : supported f) :
  (forall e, node_open (file_node f) MP4 = Raise e ->
     printed (final_trace (get_audio_info f) no_locals)
     = [[Lit ("Error reading file: " ++ e)%string]]) /\
  (forall a e, node_open (file_node f) MP4 = Ok a ->
     node_stat (file_node f) = Raise e ->
     printed (final_trace (get_audio_info f) no_locals)
     = [[Lit ("Error reading file: " ++ e)%string]]) /\
  (forall a n x, node_open (file_node f) MP4 = Ok a ->
     node_stat (file_node f) = Ok n ->
     int_truediv n (1024 * 1024) = Ok x ->
     existsb (fun key => tag_empty key a) tag_keys = true ->
     printed (final_trace (get_audio_info f) no_locals)
     = [[Lit "Error reading file: list index out of range"]]) /\
  (forall a n x c more e, node_open (file_node f) MP4 = Ok a ->
     node_stat (file_node f) = Ok n ->
     int_truediv n (1024 * 1024) = Ok x ->
     existsb (fun key => tag_empty key a) tag_keys = false ->
     audio_covr a = c :: more ->
     image_size c = Raise e ->
     printed (final_trace (get_audio_info f) no_locals)
     = [[Lit ("Error reading file: " ++ e)%string]]).
Proof.
  destruct Hf as [Hex Hext].
  repeat split.
  - intros e Ho. unfold final_trace, get_audio_info.
    rewrite Hex, Hext. cbn [negb]. mstep. rewrite Ho. reflexivity.
  - intros a e Ho Hs. unfold final_trace, get_audio_info.
    rewrite Hex, Hext. cbn [negb]. mstep. rewrite Ho, Hs. reflexivity.
  - intros a n x Ho Hs Hx Hempty. unfold final_trace, get_audio_info.
    rewrite Hex, Hext. cbn [negb]. mstep. rewrite Ho, Hs, Hx.
    unfold tag_keys, tag_empty in Hempty. cbn [existsb] in Hempty.
    unfold first_tag.
    destruct (dict_get "©nam" (audio_tags a)) as [[| v1 ?] |]; try reflexivity;
      (destruct (dict_get "©ART" (audio_tags a)) as [[| v2 ?] |]; try reflexivity;
       (destruct (dict_get "©alb" (audio_tags a)) as [[| v3 ?] |]; try reflexivity;
        (destruct (dict_get "aART" (audio_tags a)) as [[| v4 ?] |]; try reflexivity;
         discriminate Hempty))).
  - intros a n x c more e Ho Hs Hx Htags Hcov Himg. unfold final_trace, get_audio_info.
    rewrite Hex, Hext. cbn [negb]. mstep. rewrite Ho, Hs, Hx, Hcov, Himg.
    unfold tag_keys, tag_empty in Htags. cbn [existsb] in Htags.
    unfold first_tag.
    destruct (dict_get "©nam" (audio_tags a)) as [[| v1 ?] |]; try discriminate Htags;
      (destruct (dict_get "©ART" (audio_tags a)) as [[| v2 ?] |]; try discriminate Htags;
       (destruct (dict_get "©alb" (audio_tags a)) as [[| v3 ?] |]; try discriminate Htags;
        (destruct (dict_get "aART" (audio_tags a)) as [[| v4 ?] |];
           try discriminate Htags; reflexivity))).
Qed.

Lemma lossless_m4a_supported : supported Samples.lossless_m4a.
Proof. split; reflexivity. Qed.

Lemma not_mp4_supported : supported not_mp4.
Proof. split; reflexivity. Qed.

Lemma inspector_error_is_the_whole_output_sample :
  supported not_mp4 /\
  printed (final_trace (get_audio_info not_mp4) no_locals)
  = [[Lit "Error reading file: not a MP4 file"]].
Proof.
  split; [exact not_mp4_supported |].
  exact (proj1 (inspector_error_is_the_whole_output not_mp4 not_mp4_supported)
           "not a MP4 file"%string eq_refl).
Defined.

(** X8.  A supported file that opens, whose size is read, whose tags each
    hold a value or are absent, that has no cover and a finite length,
    gets the eleven lines of the report, an absent tag reading Unknown;
    the only calls are the MP4 opener and stat. *)
Theorem inspector_report (f : file) (a : audio) (n : Z) (x : pyfloat)
    (Hf : supported f)
    (Ho : node_open (file_node f) MP4 = Ok a)
    (Hs : node_stat (file_node f) = Ok n)
    (Hx : int_truediv n (1024 * 1024) = Ok x)
    (Htags : existsb (fun key => tag_empty key a) tag_keys = false)
    (Hcov : audio_covr a = [])
    (Hlen : finite (Check.length_or_0 (audio_info a)) = true) :
  final_trace (get_audio_info f) no_locals
  = CallOpen MP4 (file_path f) :: CallStat (file_path f)
    :: map Print (report_without_cover f a x).
Proof.
  destruct Hf as [Hex Hext].
  unfold final_trace, get_audio_info.
  rewrite Hex, Hext. cbn [negb]. mstep. rewrite Ho, Hs, Hx, Hcov.
  unfold tag_keys, tag_empty in Htags. cbn [existsb] in Htags.
  unfold report_without_cover, tag_text, first_tag, sample_rate_or_0.
  unfold duration_line.
  destruct (dict_get "©nam" (audio_tags a)) as [[| v1 ?] |]; try discriminate Htags;
    (destruct (dict_get "©ART" (audio_tags a)) as [[| v2 ?] |]; try discriminate Htags;
     (destruct (dict_get "©alb" (audio_tags a)) as [[| v3 ?] |]; try discriminate Htags;
      (destruct (dict_get "aART" (audio_tags a)) as [[| v4 ?] |];
         try discriminate Htags;
       (destruct (Check.length_or_0 (audio_info a)); try discriminate Hlen;
        reflexivity)))).
Qed.

Lemma inspector_report_sample :
  supported Samples.lossless_m4a /\
  printed (final_trace (get_audio_info Samples.lossless_m4a) no_locals)
  = [ [Lit "File: track.m4a"];
      [Lit "Title: Intro"];
      [Lit "Artist: Unknown"];
      [Lit "Album: Unknown"];
      [Lit "Album Artist: Unknown"];
      [Lit "Bitrate: 1100 kbps"];
      [Lit "Sample Rate: 44100 Hz"];
      [Lit "Duration: "; MinSec Samples.eight_seconds];
      [Lit "File Size: "; Flt 2 (Exact.exact_mb 1100000); Lit " MB"];
      [Lit "Quality: Lossless (44.1kHz)"];
      [Lit "No embedded album art found"] ].
Proof.
  split; [exact lossless_m4a_supported |].
  rewrite (inspector_report Samples.lossless_m4a
             (mkaudio true (mkinfo (Some 1100000) (Some 44100) (Some Samples.eight_seconds))
                [("©nam"%string, ["Intro"%string])] [])
             1100000 (Exact.exact_mb 1100000) lossless_m4a_supported);
    reflexivity.
Defined.

(** X9.  A length that is not finite is found only at the Duration line:
    the seven lines before it are already out when the error line
    follows them. *)
Theorem inspector_partial_report (f : file) (a : audio) (n : Z) (x : pyfloat)
    (Hf : supported f)
    (Ho : node_open (file_node f) MP4 = Ok a)
    (Hs : node_stat (file_node f) = Ok n)
    (Hx : int_truediv n (1024 * 1024) = Ok x)
    (Htags : existsb (fun key => tag_empty key a) tag_keys = false)
    (Hcov : audio_covr a = [])
    (Hlen : finite (Check.length_or_0 (audio_info a)) = false) :
  exists e,
    printed (final_trace (get_audio_info f) no_locals)
    = firstn 7 (report_without_cover f a x)
      ++ [[Lit ("Error reading file: " ++ e)%string]].
Proof.
  destruct Hf as [Hex Hext].
  unfold final_trace, get_audio_info.
  rewrite Hex, Hext. cbn [negb]. mstep. rewrite Ho, Hs, Hx, Hcov.
  unfold tag_keys, tag_empty in Htags. cbn [existsb] in Htags.
  unfold report_without_cover, tag_text, first_tag, sample_rate_or_0.
  unfold duration_line.
  destruct (dict_get "©nam" (audio_tags a)) as [[| v1 ?] |]; try discriminate Htags;
    (destruct (dict_get "©ART" (audio_tags a)) as [[| v2 ?] |]; try discriminate Htags;
     (destruct (dict_get "©alb" (audio_tags a)) as [[| v3 ?] |]; try discriminate Htags;
      (destruct (dict_get "aART" (audio_tags a)) as [[| v4 ?] |];
         try discriminate Htags;
       (destruct (Check.length_or_0 (audio_info a)); try discriminate Hlen;
        eexists; reflexivity)))).
Qed.

Lemma endless_m4a_supported : supported endless_m4a.
Proof. split; reflexivity. Qed.

Lemma inspector_partial_report_sample :
  supported endless_m4a /\
  exists e,
    printed (final_trace (get_audio_info endless_m4a) no_locals)
    = [ [Lit "File: stream.m4a"];
        [Lit "Title: Unknown"];
        [Lit "Artist: Unknown"];
        [Lit "Album: Unknown"];
        [Lit "Album Artist: Unknown"];
        [Lit "Bitrate: 256 kbps"];
        [Lit "Sample Rate: 48000 Hz"];
        [Lit ("Error reading file: " ++ e)%string] ].
Proof.
  split; [exact endless_m4a_supported |].
  destruct (inspector_partial_report endless_m4a
              (mkaudio true (mkinfo (Some 256000) (Some 48000) (Some (S754_infinity false)))
                 [] [])
              2097152 (Exact.exact_mb 2097152) endless_m4a_supported)
    as [e He]; try reflexivity.
  exists e. exact He.
Defined.

End InspectorOutput.

(* ================================================================= *)
(** ** The rows of the two summaries *)

Section SummaryRows.
Import Py Sys Check Tables Run Aggregate Rows.

Lemma insert_desc_sorted (x : string * Z) (l : list (string * Z)) :
  Sorted by_count_desc l -> Sorted by_count_desc (insert_desc x l).
Proof.
  induction l as [| y l IH]; intros Hs; cbn [insert_desc].
  - repeat constructor.
  - destruct (Z.leb_spec (snd y) (snd x)) as [Hle | Hgt].
    + constructor; [exact Hs |]. constructor. exact Hle.
    + inversion Hs as [| ? ? Hl Hhd]; subst.
      constructor; [now apply IH |].
      destruct l as [| z l']; cbn [insert_desc].
      * constructor. unfold by_count_desc. lia.
      * destruct (snd z <=? snd x); constructor.
        -- unfold by_count_desc. lia.
        -- now inversion Hhd.
Qed.

Lemma sorted_by_count_desc_sorted (d : dict Z) :
  StronglySorted by_count_desc (sorted_by_count_desc d).
Proof.
  apply Sorted_StronglySorted.
  - intros a b c Hab Hbc. unfold by_count_desc in *. lia.
  - unfold sorted_by_count_desc.
    induction d as [| x d IH]; cbn [fold_right]; [constructor |].
    now apply insert_desc_sorted.
Qed.

Lemma insert_desc_with_count (c : Z) (x : string * Z) (l : list (string * Z)) :
  with_count c (insert_desc x l) = with_count c (x :: l).
Proof.
  unfold with_count.
  induction l as [| y l IH]; cbn [insert_desc]; [reflexivity |].
  destruct (Z.leb_spec (snd y) (snd x)) as [Hle | Hgt]; [reflexivity |].
  cbn [filter] in *. rewrite IH.
  destruct (Z.eqb_spec (snd x) c) as [Ex | Nx];
    destruct (Z.eqb_spec (snd y) c) as [Ey | Ny]; try reflexivity.
  lia.
Qed.

Lemma sorted_by_count_desc_stable (c : Z) (d : dict Z) :
  with_count c (sorted_by_count_desc d) = with_count c d.
Proof.
  unfold sorted_by_count_desc.
  induction d as [| x d IH]; cbn [fold_right]; [reflexivity |].
  rewrite insert_desc_with_count. unfold with_count in *. cbn [filter].
  now rewrite IH.
Qed.

Lemma dict_set_keys {V} (k : string) (v : V) (d : dict V) :
  map fst (dict_set k v d)
  = match dict_get k d with
    | Some _ => map fst d
    | None => (map fst d ++ [k])%list
    end.
Proof.
  induction d as [| [k' v'] d IH]; cbn [dict_set dict_get map fst app]; [reflexivity |].
  destruct (String.eqb k k'); [reflexivity |].
  cbn [map fst]. rewrite IH. now destruct (dict_get k d).
Qed.

Lemma dict_get_none_keys {V} (k : string) (d : dict V) :
  dict_get k d = None <-> ~ In k (map fst d).
Proof.
  induction d as [| [k' v'] d IH]; cbn [dict_get map fst In]; [tauto |].
  destruct (String.eqb_spec k k') as [-> | N].
  - split; [discriminate | intros H; exfalso; apply H; now left].
  - rewrite IH. split; [intros H [E | Hin]; [congruence | tauto] | tauto].
Qed.

Lemma dict_set_nodup {V} (k : string) (v : V) (d : dict V) :
  NoDup (map fst d) -> NoDup (map fst (dict_set k v d)).
Proof.
  intros Hd. rewrite dict_set_keys.
  destruct (dict_get k d) eqn:E; [exact Hd |].
  apply dict_get_none_keys in E.
  apply NoDup_app; [exact Hd | repeat constructor; intros [] |].
  intros x Hx [<- | []]. contradiction.
Qed.

Lemma tally_nodup (key : file -> string) (l : list file) (d : dict Z) :
  NoDup (map fst d) -> NoDup (map fst (tally key l d)).
Proof.
  revert d. induction l as [| f l IH]; intros d Hd; [exact Hd |].
  cbn [tally fold_left]. apply IH. now apply dict_set_nodup.
Qed.

Lemma dict_in_get {V} (k : string) (v : V) (d : dict V) :
  NoDup (map fst d) -> In (k, v) d -> dict_get k d = Some v.
Proof.
  induction d as [| [k' v'] d IH]; intros Hd Hin; [contradiction |].
  cbn [map fst] in Hd. inversion Hd as [| ? ? Hk Hd']; subst.
  cbn [dict_get]. destruct Hin as [[= -> ->] | Hin].
  - now rewrite String.eqb_refl.
  - destruct (String.eqb_spec k k') as [-> | _]; [| now apply IH].
    exfalso. apply Hk. apply in_map_iff. now exists (k', v).
Qed.

(** A table tallied from nothing holds a label exactly when some file
    was sent to it, with the number of those files. *)
Lemma tally_rows (key : file -> string) (l : list file) (k : string) (n : Z) :
  In (k, n) (tally key l []) <-> 0 < n /\ n = count_key key k l.
Proof.
  pose proof (tally_get key k l []) as Hget.
  pose proof (count_key_nonneg key k l) as Hc.
  cbn [dict_get dict_get_default] in Hget.
  split.
  - intros Hin.
    apply dict_in_get in Hin; [| apply tally_nodup; constructor].
    rewrite Hin in Hget.
    destruct (Z.eqb_spec (count_key key k l) 0); [discriminate |].
    injection Hget as ->. lia.
  - intros [Hpos ->].
    destruct (Z.eqb_spec (count_key key k l) 0); [lia |].
    apply dict_get_in. rewrite Hget. f_equal.
Qed.

(** X10.  Line 242 of the quick summary: the rows go out by count, largest
    first; labels with the same count keep the order in which the scan
    first met them; each label that has a file has one row, with the
    number of its files. *)
Theorem quick_rows_sorted (w : world)
    (Hne : find_audio_files (os_flavour w) (script_dir w) <> []) :
  let files := find_audio_files (os_flavour w) (script_dir w) in
  let table := quality_stats (final_locals (quick_quality_check w) no_locals) in
  exists report rows,
    final_trace (quick_quality_check w) no_locals
    = report ++ map (fun row => Print (quick_line (len files) row)) rows /\
    StronglySorted by_count_desc rows /\
    Permutation rows table /\
    (forall c, with_count c rows = with_count c table) /\
    NoDup (map fst rows) /\
    (forall k n, In (k, n) rows <-> 0 < n /\ n = count_key quick_key k files).
Proof.
  intros files table.
  destruct (quick_quality_check_summary w Hne) as [report Hrun].
  fold files in Hrun.
  assert (Htable : table = tally quick_key files []).
  { unfold table, final_locals. rewrite Hrun. reflexivity. }
  exists report, (sorted_by_count_desc table).
  split; [| split; [| split; [| split; [| split]]]].
  - unfold final_trace. rewrite Hrun. cbn [snd]. unfold quick_rows.
    rewrite Htable. reflexivity.
  - apply sorted_by_count_desc_sorted.
  - apply sorted_by_count_desc_perm.
  - intros c. apply sorted_by_count_desc_stable.
  - apply (Permutation_NoDup (l := map fst table)).
    + apply Permutation_map, Permutation_sym, sorted_by_count_desc_perm.
    + rewrite Htable. apply tally_nodup. constructor.
  - intros k n. rewrite <- (tally_rows quick_key files k n), <- Htable.
    split; apply Permutation_in;
      [apply sorted_by_count_desc_perm
      | apply Permutation_sym, sorted_by_count_desc_perm].
Qed.

Lemma quick_rows_sorted_posix_music :
  find_audio_files Posix Worlds.music <> [] /\
  exists report rows,
    final_trace (quick_quality_check Worlds.posix_music) no_locals
    = report ++ map (fun row => Print (quick_line 4 row)) rows /\
    StronglySorted by_count_desc rows.
Proof.
  assert (Hne : find_audio_files Posix Worlds.music <> [])
    by (vm_compute; discriminate).
  split; [exact Hne |].
  destruct (quick_rows_sorted Worlds.posix_music Hne)
    as (report & rows & Hrun & Hsorted & _).
  exists report, rows. split; [exact Hrun | exact Hsorted].
Defined.

Lemma tally_keys_kept (key : file -> string) (l : list file) (d : dict Z) :
  (forall f, In (key f) (map fst d)) -> map fst (tally key l d) = map fst d.
Proof.
  revert d. induction l as [| f l IH]; intros d Hd; [reflexivity |].
  cbn [tally fold_left].
  assert (Hkeys : map fst (dict_incr (key f) d) = map fst d).
  { unfold dict_incr. rewrite dict_set_keys.
    destruct (dict_get (key f) d) eqn:E; [reflexivity |].
    apply dict_get_none_keys in E. exfalso. apply E, Hd. }
  fold (tally key l (dict_incr (key f) d)).
  rewrite IH; [exact Hkeys |]. intros g. rewrite Hkeys. apply Hd.
Qed.

Lemma filter_rows_keys (p : Z -> bool) (q : string -> bool) (d : dict Z) :
  NoDup (map fst d) ->
  (forall k v, In (k, v) d -> p v = q k) ->
  map fst (filter (fun row => p (snd row)) d) = filter q (map fst d).
Proof.
  induction d as [| [k v] d IH]; intros Hd Hpq; [reflexivity |].
  cbn [filter map fst snd].
  rewrite <- (Hpq k v (or_introl eq_refl)).
  cbn [map fst] in Hd. inversion Hd; subst.
  destruct (p v); cbn [map fst]; rewrite IH; auto; intros; apply Hpq; now right.
Qed.

(** X11.  The detailed summary keeps the six tiers in the order of lines
    95-100, whatever the counts are, leaves out the tiers no file fell
    into, and shows for each of the others the number of its files. *)
Theorem detailed_rows_in_tier_order (w : world)
    (Hne : find_audio_files (os_flavour w) (script_dir w) <> []) :
  let files := find_audio_files (os_flavour w) (script_dir w) in
  let table := quality_stats (final_locals (check_audio_quality w) no_locals) in
  map fst table = stats_keys /\
  exists report rows,
    final_trace (check_audio_quality w) no_locals
    = report
      ++ map (fun row => Print (summary_line (len files) row)) rows
      ++ [Print [Lit (nl ++ "📦 Total files: " ++ str_of_int (len files))%string];
          Print [Lit "💾 Total size: ";
                 Flt 2 (total_size (final_locals (check_audio_quality w) no_locals));
                 Lit " MB"]] /\
    map fst rows
    = filter (fun k => count_key detailed_key k files >? 0) stats_keys /\
    (forall k n, In (k, n) rows -> n = count_key detailed_key k files).
Proof.
  intros files table.
  destruct (check_audio_quality_summary w Hne) as [report Hrun].
  fold files in Hrun.
  assert (Hlocals : final_locals (check_audio_quality w) no_locals
                    = after_loop detailed_key files (mklocals files initial_stats fzero)).
  { unfold final_locals. rewrite Hrun. reflexivity. }
  assert (Htable : table = tally detailed_key files initial_stats).
  { unfold table. rewrite Hlocals. reflexivity. }
  assert (Hkeys : map fst table = stats_keys).
  { rewrite Htable. apply tally_keys_kept. exact detailed_key_in_stats_keys. }
  assert (Hget : forall k n, In (k, n) table -> n = count_key detailed_key k files).
  { intros k n Hin.
    apply dict_in_get in Hin;
      [| rewrite Hkeys; vm_compute; repeat constructor; cbn; intuition discriminate].
    pose proof (tally_get_default detailed_key k files initial_stats) as Hd.
    rewrite <- Htable in Hd. unfold dict_get_default at 1 in Hd. rewrite Hin in Hd.
    rewrite Hd.
    assert (Hin' : In k stats_keys).
    { rewrite <- Hkeys. apply in_map_iff. exists (k, n).
      split; [reflexivity |].
      exact (dict_get_in k n table Hin). }
    unfold stats_keys, initial_stats in Hin'. cbn [map fst In] in Hin'.
    destruct Hin' as [<- | [<- | [<- | [<- | [<- | [<- | []]]]]]]; reflexivity. }
  split; [exact Hkeys |].
  exists report, (detailed_rows table).
  split; [| split].
  - unfold final_trace. rewrite Hrun. cbn [snd]. rewrite Hlocals, Htable. reflexivity.
  - unfold detailed_rows. rewrite <- Hkeys.
    apply (filter_rows_keys (fun v => v >? 0)).
    + rewrite Hkeys. vm_compute. repeat constructor; cbn; intuition discriminate.
    + intros k v Hin. now rewrite (Hget k v Hin).
  - intros k n Hin. apply Hget. unfold detailed_rows in Hin.
    now apply filter_In in Hin.
Qed.

Lemma detailed_rows_in_tier_order_posix_music :
  find_audio_files Posix Worlds.music <> [] /\
  map fst (quality_stats (final_locals (check_audio_quality Worlds.posix_music) no_locals))
  = stats_keys.
Proof.
  assert (Hne : find_audio_files Posix Worlds.music <> [])
    by (vm_compute; discriminate).
  split; [exact Hne |].
  exact (proj1 (detailed_rows_in_tier_order Worlds.posix_music Hne)).
Defined.

Lemma in_tier_set (k l : string) (v : Z) (d : dict Z) :
  sum_counts (in_tier k (dict_set l v d))
  = sum_counts (in_tier k d)
    + (if String.eqb (bucket l) k then v - dict_get_default l 0 d else 0).
Proof.
  unfold sum_counts, dict_values, in_tier, dict_get_default.
  induction d as [| [k' v'] d IH]; cbn [dict_set dict_get filter fst].
  - destruct (String.eqb (bucket l) k); cbn; lia.
  - destruct (String.eqb_spec l k') as [-> | N]; cbn [filter fst].
    + destruct (String.eqb (bucket k') k); cbn [map snd fold_right]; lia.
    + destruct (String.eqb (bucket k') k); cbn [map snd fold_right];
        rewrite IH; lia.
Qed.

Lemma in_tier_tally (k : string) (l : list file) (d : dict Z) :
  sum_counts (in_tier k (tally quick_key l d))
  = sum_counts (in_tier k d) + count_key (fun f => bucket (quick_key f)) k l.
Proof.
  revert d. induction l as [| f l IH]; intros d.
  - cbn [tally fold_left]. unfold count_key, with_key, len.
    cbn [filter List.length Z.of_nat]. lia.
  - cbn [tally fold_left]. fold (tally quick_key l (dict_incr (quick_key f) d)).
    rewrite IH, count_key_cons. unfold dict_incr. rewrite in_tier_set.
    destruct (String.eqb (bucket (quick_key f)) k); lia.
Qed.

Lemma detailed_key_is_bucket (f : file) : detailed_key f = bucket (quick_key f).
Proof.
  unfold detailed_key, quick_key. now destruct (size_mb f).
Qed.

Lemma count_key_ext (key key' : file -> string) (k : string) (l : list file) :
  (forall f, key f = key' f) -> count_key key k l = count_key key' k l.
Proof.
  intros H. unfold count_key, with_key. f_equal.
  apply filter_ext. intros f. now rewrite H.
Qed.

(** X12.  Options 1 and 2 agree on the same tree: the same total size, and
    under each key of the detailed table the counts of the quick rows
    whose label belongs to it; the quick summary only keeps the low bit
    rates apart. *)
Theorem reports_agree (w : world)
    (Hne : find_audio_files (os_flavour w) (script_dir w) <> []) :
  let detailed := final_locals (check_audio_quality w) no_locals in
  let quick := final_locals (quick_quality_check w) no_locals in
  audio_files detailed = audio_files quick /\
  total_size detailed = total_size quick /\
  (forall k, dict_get_default k 0 (quality_stats detailed)
             = sum_counts (in_tier k (quality_stats quick))).
Proof.
  intros detailed quick.
  pose proof (check_audio_quality_locals w Hne) as Hd.
  pose proof (quick_quality_check_locals w Hne) as Hq.
  cbv zeta in Hd, Hq. fold detailed in Hd. fold quick in Hq.
  rewrite Hd, Hq. cbn [after_loop audio_files total_size quality_stats].
  split; [reflexivity |]. split; [reflexivity |].
  intros k. rewrite tally_get_default, in_tier_tally.
  rewrite (count_key_ext detailed_key (fun f => bucket (quick_key f)) k _
             detailed_key_is_bucket).
  assert (Hk : In k stats_keys \/ ~ In k stats_keys).
  { destruct (in_dec string_dec k stats_keys); auto. }
  destruct Hk as [Hin | Hout].
  - unfold stats_keys, initial_stats in Hin. cbn [map fst In] in Hin.
    destruct Hin as [<- | [<- | [<- | [<- | [<- | [<- | []]]]]]]; reflexivity.
  - replace (dict_get_default k 0 initial_stats) with 0; [reflexivity |].
    unfold dict_get_default.
    destruct (dict_get k initial_stats) eqn:E; [| reflexivity].
    exfalso. apply Hout. apply dict_get_in in E.
    unfold stats_keys. apply in_map_iff. now exists (k, z).
Qed.

Lemma reports_agree_posix_music :
  find_audio_files Posix Worlds.music <> [] /\
  total_size (final_locals (check_audio_quality Worlds.posix_music) no_locals)
  = total_size (final_locals (quick_quality_check Worlds.posix_music) no_locals).
Proof.
  assert (Hne : find_audio_files Posix Worlds.music <> [])
    by (vm_compute; discriminate).
  split; [exact Hne |].
  exact (proj1 (proj2 (reports_agree Worlds.posix_music Hne))).
Defined.

Lemma exact_mb_value (n : Z) :
  0 <= n < 2 ^ 53 -> (float_value (Exact.exact_mb n) == n # 1048576)%Q.
Proof.
  intros Hn. unfold Exact.exact_mb.
  destruct (Z.eqb_spec n 0) as [-> | Hnz]; [reflexivity |].
  assert (Hpos : 0 < n) by lia.
  pose proof (digits_pos n Hpos) as Hd0.
  pose proof (digits_le_53 n (conj Hpos (proj2 Hn))) as Hd.
  cbn [float_value].
  destruct (Z.ltb_spec (Exact.digits n - 73) 0) as [_ | Hge]; [| lia].
  unfold Qeq. cbn [Qnum Qden].
  assert (Hm : 0 < n * 2 ^ (53 - Exact.digits n)).
  { apply Z.mul_pos_pos; [lia | apply Z.pow_pos_nonneg; lia]. }
  assert (Hp : 0 < 2 ^ (- (Exact.digits n - 73))) by (apply Z.pow_pos_nonneg; lia).
  rewrite !Z2Pos.id by assumption.
  replace (- (Exact.digits n - 73)) with ((53 - Exact.digits n) + 20) by lia.
  rewrite Z.pow_add_r by lia.
  change (Z.pos 1048576) with (2 ^ 20). ring.
Qed.

(** X13.  As long as the sizes that could be read add up to less than 2^53
    bytes, the total the two reports print has no rounding error: it is
    that number of bytes over 2^20; a file whose size could not be read
    adds nothing. *)
Theorem total_size_is_exact (w : world)
    (Hne : find_audio_files (os_flavour w) (script_dir w) <> [])
    (Hsizes : Forall (fun f => 0 <= bytes_of f)
                (find_audio_files (os_flavour w) (script_dir w)))
    (Hbound : total_bytes (find_audio_files (os_flavour w) (script_dir w)) < 2 ^ 53) :
  let files := find_audio_files (os_flavour w) (script_dir w) in
  let detailed := final_locals (check_audio_quality w) no_locals in
  let quick := final_locals (quick_quality_check w) no_locals in
  (float_value (total_size detailed) == total_bytes files # 1048576)%Q /\
  (float_value (total_size quick) == total_bytes files # 1048576)%Q.
Proof.
  intros files detailed quick.
  pose proof (check_audio_quality_locals w Hne) as Hd.
  pose proof (quick_quality_check_locals w Hne) as Hq.
  cbv zeta in Hd, Hq. fold detailed in Hd. fold quick in Hq. fold files in Hd, Hq.
  rewrite Hd, Hq. cbn [after_loop total_size].
  pose proof (total_bytes_nonneg files Hsizes) as H0.
  assert (Htotal : total_of files fzero = Exact.exact_mb (total_bytes files)).
  { change fzero with (Exact.exact_mb 0).
    rewrite (total_of_exact files 0 Hsizes); [reflexivity | lia | exact Hbound]. }
  rewrite Htotal.
  split; apply exact_mb_value; fold files in Hbound; lia.
Qed.

Lemma total_size_is_exact_posix_music :
  find_audio_files Posix Worlds.music <> [] /\
  (float_value (total_size (final_locals (check_audio_quality Worlds.posix_music) no_locals))
   == total_bytes (find_audio_files Posix Worlds.music) # 1048576)%Q.
Proof.
  assert (Hne : find_audio_files Posix Worlds.music <> [])
    by (vm_compute; discriminate).
  split; [exact Hne |].
  apply (total_size_is_exact Worlds.posix_music Hne).
  - vm_compute. repeat constructor; discriminate.
  - vm_compute. reflexivity.
Defined.

End SummaryRows.

(* ================================================================= *)
(** ** The folder report, when every size can be read *)

Section FolderReport.
Import Py Sys Check Tables Run Aggregate Groups.

Lemma printed_app (a b : trace) : printed (a ++ b) = (printed a ++ printed b)%list.
Proof. unfold printed. apply flat_map_app. Qed.

Lemma printed_flat_map {A} (F : A -> trace) (l : list A) :
  printed (flat_map F l) = flat_map (fun x => printed (F x)) l.
Proof.
  induction l as [| x l IH]; cbn [flat_map]; [reflexivity |].
  now rewrite printed_app, IH.
Qed.

Lemma printed_prints (l : list line) : printed (map Print l) = l.
Proof.
  induction l as [| x l IH]; [reflexivity |].
  cbn [map]. change (printed (Print x :: map Print l)) with (x :: printed (map Print l)).
  now rewrite IH.
Qed.

Lemma print_grouped_file_run (f : file) (s : folder_locals) (t : trace) :
  print_grouped_file f s t
  = match size_mb f with
    | Ok x => (Ok tt, s, t ++ [CallStat (file_path f); Print (file_line f x)])
    | Raise e => (Raise e, s, t ++ [CallStat (file_path f)])
    end.
Proof.
  unfold print_grouped_file, size_mb, file_line. mstep.
  destruct (node_stat (file_node f)); [| reflexivity].
  destruct (int_truediv _ MB); [| reflexivity].
  now rewrite <- app_assoc.
Qed.

Lemma print_grouped_files_run (fs : list file) (s : folder_locals) (t : trace) :
  forallb sized fs = true ->
  exists log,
    for_each fs print_grouped_file s t = (Ok tt, s, t ++ log) /\
    printed log = file_lines fs.
Proof.
  revert t. induction fs as [| f fs IH]; intros t Hfs.
  - exists []. split; [cbn [for_each]; unfold ret; now rewrite app_nil_r | reflexivity].
  - cbn [forallb] in Hfs. apply andb_prop in Hfs. destruct Hfs as [Hf Hfs].
    cbn [for_each]. unfold bind at 1. rewrite print_grouped_file_run.
    unfold file_lines. cbn [flat_map]. unfold sized in Hf.
    destruct (size_mb f) as [x | e]; [| discriminate Hf].
    destruct (IH (t ++ [CallStat (file_path f); Print (file_line f x)]) Hfs)
      as (log & -> & Hlog).
    exists ([CallStat (file_path f); Print (file_line f x)] ++ log).
    split; [now rewrite <- app_assoc |].
    rewrite printed_app, Hlog. reflexivity.
Qed.

Lemma print_groups_run (rows : list (string * list file)) (s : folder_locals) (t : trace) :
  forallb (fun row => forallb sized (snd row)) rows = true ->
  exists log,
    for_each rows print_group s t = (Ok tt, s, t ++ log) /\
    printed log = flat_map group_lines rows.
Proof.
  revert t. induction rows as [| [k fs] rows IH]; intros t Hrows.
  - exists []. split; [cbn [for_each]; unfold ret; now rewrite app_nil_r | reflexivity].
  - cbn [forallb snd] in Hrows. apply andb_prop in Hrows. destruct Hrows as [Hfs Hrows].
    cbn [for_each]. unfold bind at 1. unfold print_group at 1.
    unfold bind at 1, print, emit.
    destruct (print_grouped_files_run fs s
                (t ++ [Print (group_header (k, fs))]) Hfs) as (log1 & E1 & Hlog1).
    unfold group_header in E1. cbn [fst snd] in E1. rewrite E1.
    destruct (IH ((t ++ [Print (group_header (k, fs))]) ++ log1) Hrows)
      as (log2 & E2 & Hlog2).
    unfold group_header in E2. cbn [fst snd] in E2. rewrite E2.
    exists ((Print (group_header (k, fs)) :: log1) ++ log2).
    split.
    + f_equal. rewrite <- !app_assoc. reflexivity.
    + rewrite printed_app, Hlog2. cbn [flat_map]. f_equal.
      unfold group_lines. cbn [snd]. change (printed (?a :: ?l)) with (printed ([a] ++ l)).
      cbn [printed flat_map app]. f_equal. exact Hlog1.
Qed.

Lemma dict_set_rows {V} (P : V -> Prop) (k : string) (v : V) (d : dict V) :
  P v -> Forall (fun row => P (snd row)) d ->
  Forall (fun row => P (snd row)) (dict_set k v d).
Proof.
  intros Hv. induction 1 as [| [k' v'] d Hx Hd IH]; cbn [dict_set].
  - repeat constructor. exact Hv.
  - destruct (String.eqb k k'); constructor; auto.
Qed.

Lemma grouping_nodup (l : list file) (d : dict (list file)) :
  NoDup (map fst d) -> NoDup (map fst (grouping l d)).
Proof.
  revert d. induction l as [| f l IH]; intros d Hd; [exact Hd |].
  cbn [grouping fold_left]. apply IH. now apply dict_set_nodup.
Qed.

Lemma grouping_nonempty (l : list file) (d : dict (list file)) :
  Forall (fun row => snd row <> []) d ->
  Forall (fun row => snd row <> []) (grouping l d).
Proof.
  revert d. induction l as [| f l IH]; intros d Hd; [exact Hd |].
  cbn [grouping fold_left]. apply IH. unfold dict_append.
  apply (dict_set_rows (fun v => v <> [])); [| exact Hd].
  now destruct (dict_get_default (folder_key f) [] d).
Qed.

(** The groups are the labels that have a file, each with its files in
    scan order. *)
Lemma grouping_rows (l : list file) (k : string) (fs : list file) :
  In (k, fs) (grouping l []) <-> fs <> [] /\ fs = with_key folder_key k l.
Proof.
  pose proof (grouping_get k l []) as Hget.
  cbn [dict_get_default dict_get app] in Hget.
  fold (dict_get_default k [] (grouping l [])) in Hget.
  split.
  - intros Hin. split.
    + pose proof (grouping_nonempty l [] (Forall_nil _)) as Hall.
      rewrite Forall_forall in Hall. exact (Hall _ Hin).
    + apply dict_in_get in Hin; [| apply grouping_nodup; constructor].
      unfold dict_get_default in Hget. now rewrite Hin in Hget.
  - intros [Hne ->]. rewrite <- Hget in *.
    unfold dict_get_default in *.
    destruct (dict_get k (grouping l [])) as [fs |] eqn:E; [| contradiction].
    now apply dict_get_in.
Qed.

(** The folder report from start to end, where every size can be read. *)
Lemma folder_report_run (w : world) (typed : string) (target : folder) :
  let found := find_audio_files (os_flavour w) target in
  strip typed <> ""%string ->
  resolve w (strip typed) = Some target ->
  found <> [] ->
  forallb sized found = true ->
  exists log,
    check_specific_folder w typed no_folder_locals []
    = (Ok tt, after_grouping found (mkfolder_locals found []),
       (map Print (folder_head target found)
        ++ flat_map resolver_events found) ++ log) /\
    printed log = flat_map group_lines (grouping found []).
Proof.
  intros found Htyped Hres Hne Hsized.
  assert (Hall : forallb (fun row => forallb sized (snd row)) (grouping found []) = true).
  { apply forallb_forall. intros [k fs] Hin. cbn [snd].
    apply grouping_rows in Hin. destruct Hin as [_ ->].
    apply forallb_forall. intros f Hf. unfold with_key in Hf.
    apply filter_In in Hf. destruct Hf as [Hf _].
    rewrite forallb_forall in Hsized. now apply Hsized. }
  unfold check_specific_folder.
  apply String.eqb_neq in Htyped. rewrite Htyped, Hres. mstep.
  fold found. destruct found as [| f0 fs] eqn:Hfound; [contradiction |].
  rewrite <- Hfound in *.
  cbn [folder_files bitrate_groups no_folder_locals].
  rewrite grouping_loop_run.
  set (s := after_grouping found _).
  match goal with
  | |- context [for_each (bitrate_groups s) print_group ?s0 ?t0] =>
      destruct (print_groups_run (bitrate_groups s) s0 t0 Hall) as (log & E & Hlog)
  end.
  exists log. rewrite E. split; [| exact Hlog].
  f_equal.
Qed.

(** X14.  When the size of every discovered file can be read, the folder
    report returns; it prints its three opening lines, the error lines
    of the files whose bit rate could not be read, and then group by
    group a header and one line per file.  The groups are the labels
    that have a file, each once, holding its files in scan order. *)
Theorem folder_report_lists_every_file (w : world) (typed : string) (target : folder)
    (Htyped : strip typed <> ""%string)
    (Hres : resolve w (strip typed) = Some target)
    (Hne : find_audio_files (os_flavour w) target <> [])
    (Hsized : forallb sized (find_audio_files (os_flavour w) target) = true) :
  let found := find_audio_files (os_flavour w) target in
  let groups := bitrate_groups (final_locals (check_specific_folder w typed) no_folder_locals) in
  outcome (check_specific_folder w typed) no_folder_locals = Ok tt /\
  printed (final_trace (check_specific_folder w typed) no_folder_locals)
  = (folder_head target found
     ++ flat_map (fun f => printed (resolver_events f)) found
     ++ flat_map group_lines groups)%list /\
  NoDup (map fst groups) /\
  (forall k fs, In (k, fs) groups <-> fs <> [] /\ fs = with_key folder_key k found).
Proof.
  intros found groups.
  assert (Hgroups : groups = grouping found []).
  { unfold groups.
    rewrite (check_specific_folder_locals w typed target Htyped Hres Hne).
    reflexivity. }
  destruct (folder_report_run w typed target Htyped Hres Hne Hsized)
    as (log & Hrun & Hlog).
  split; [| split; [| split]].
  - unfold outcome. now rewrite Hrun.
  - unfold final_trace. rewrite Hrun. cbn [snd].
    rewrite !printed_app, Hlog, Hgroups, <- app_assoc.
    now rewrite printed_prints, printed_flat_map.
  - rewrite Hgroups. apply grouping_nodup. constructor.
  - intros k fs. rewrite Hgroups. apply grouping_rows.
Qed.

Lemma folder_report_lists_every_file_album :
  find_audio_files Posix Groups.album <> [] /\
  outcome (check_specific_folder Groups.album_world " album ") no_folder_locals = Ok tt.
Proof.
  assert (Hne : find_audio_files Posix Groups.album <> [])
    by (vm_compute; discriminate).
  assert (Htyped : strip " album " <> ""%string) by (vm_compute; discriminate).
  assert (Hres : resolve Groups.album_world (strip " album ") = Some Groups.album)
    by (vm_compute; reflexivity).
  assert (Hsized : forallb sized (find_audio_files Posix Groups.album) = true)
    by (vm_compute; reflexivity).
  split; [exact Hne |].
  exact (proj1 (folder_report_lists_every_file Groups.album_world " album " Groups.album
                  Htyped Hres Hne Hsized)).
Defined.

End FolderReport.

(* ================================================================= *)
(** ** The resolver's footprint *)

Section ResolverFootprint.
Import Py Sys Check Tables Run Footprint.

Lemma resolver_events_try (f : file) :
  resolver_events f
  = snd (get_audio_bitrate_try f tt [])
    ++ match try_outcome f with
       | Ok _ => []
       | Raise e => [Print (error_reading f e)]
       end.
Proof.
  unfold resolver_events, get_audio_bitrate.
  unfold bind at 1, try_except.
  rewrite (get_audio_bitrate_try_frame unit f tt []).
  destruct (try_outcome f) as [[v |] | e]; mstep; cbn [app snd];
    rewrite ?app_nil_r; reflexivity.
Qed.

Lemma calls_app (a b : trace) : calls (a ++ b) = calls a ++ calls b.
Proof. unfold calls. apply filter_app. Qed.

Lemma try_calls (f : file) :
  In (calls (snd (get_audio_bitrate_try f tt []))) (touches f).
Proof.
  unfold get_audio_bitrate_try, touches.
  repeat match goal with
         | |- context [if ?c then _ else _] => destruct c
         end.
  all: mstep.
  all: repeat (destruct_inner; mstep).
  all: cbn [calls filter app In]; auto.
Qed.

Lemma unrecognised_no_branch (ext : string) :
  str_in ext resolver_extensions = false ->
  str_in ext [".m4a"; ".mp4"] = false /\
  String.eqb ext ".mp3" = false /\
  String.eqb ext ".flac" = false /\
  str_in ext [".wav"; ".wave"] = false /\
  str_in ext [".aac"; ".ogg"; ".opus"; ".wma"] = false.
Proof.
  unfold str_in, resolver_extensions. cbn [existsb].
  rewrite !orb_false_iff. intros (E1 & E2 & E3 & E4 & E5 & E6 & E7 & E8 & E9 & E10 & _).
  now rewrite E1, E2, E3, E4, E5, E6, E7, E8, E9, E10.
Qed.

(** X15.  What [get_audio_bitrate] does to a file is settled by the extension:
    one decoder, the one of the extension, and a [stat] only behind the
    FLAC and WAVE decoders; a file with another extension is not
    touched; and it prints at most its error line. *)
Theorem resolver_footprint (f : file) :
  In (calls (resolver_events f)) (touches f) /\
  (List.length (printed (resolver_events f)) <= 1)%nat /\
  (str_in (lower (suffix (file_path f))) resolver_extensions = false ->
   resolver_events f = [] /\ resolved f = 0).
Proof.
  split; [| split].
  - rewrite resolver_events_try, calls_app.
    destruct (try_outcome f); cbn [calls filter]; rewrite app_nil_r; apply try_calls.
  - rewrite resolver_events_try.
    unfold printed at 1. rewrite flat_map_app.
    fold (printed (snd (get_audio_bitrate_try f tt []))).
    rewrite get_audio_bitrate_try_calls_only.
    destruct (try_outcome f); cbn; lia.
  - intros Hext. apply unrecognised_no_branch in Hext.
    destruct Hext as (E1 & E2 & E3 & E4 & E5).
    unfold resolved, resolver_events, get_audio_bitrate, get_audio_bitrate_try.
    rewrite E1, E2, E3, E4, E5. split; reflexivity.
Qed.

End ResolverFootprint.

(* ================================================================= *)
(** ** The two reports in full *)

Section FullOutput.
Import Py Sys Check Tables Run Aggregate Output.

Lemma check_one_events (f : file) (s : locals) (t : trace) :
  has_stats_keys (quality_stats s) ->
  check_one f s t
  = (Ok tt,
     mklocals (audio_files s) (dict_incr (detailed_key f) (quality_stats s))
       (add_size (total_size s) f),
     t ++ detailed_events f).
Proof.
  intros Hkeys.
  unfold check_one, detailed_events.
  unfold detailed_key, add_size, size_mb.
  unfold try_except, bind at 1, stat, bind at 1, emit, lift.
  destruct (node_stat (file_node f)) as [n | e].
  - unfold bind at 1, lift.
    destruct (int_truediv n MB) as [x | e].
    + unfold bind at 1, modify. unfold bind at 1.
      rewrite get_audio_bitrate_frame. cbv beta zeta.
      rewrite chain_is_bucket.
      unfold bind at 1. rewrite incr_stat_run.
      2:{ apply Hkeys, bucket_in_stats_keys. }
      mstep. cbn [map]. rewrite <- !app_assoc. reflexivity.
    + unfold bind at 1, print, emit. unfold bind at 1. rewrite incr_stat_run.
      2:{ apply Hkeys. unfold stats_keys. cbn. tauto. }
      mstep. rewrite <- !app_assoc. reflexivity.
  - unfold bind at 1, print, emit. unfold bind at 1. rewrite incr_stat_run.
    2:{ apply Hkeys. unfold stats_keys. cbn. tauto. }
    mstep. rewrite <- !app_assoc. reflexivity.
Qed.

Lemma detailed_loop_events (l : list file) (s : locals) (t : trace) :
  has_stats_keys (quality_stats s) ->
  for_each l check_one s t
  = (Ok tt, after_loop detailed_key l s, t ++ flat_map detailed_events l).
Proof.
  revert s t. induction l as [| f l IH]; intros s t Hkeys.
  - destruct s. cbn [for_each flat_map]. unfold ret. now rewrite app_nil_r.
  - cbn [for_each flat_map]. unfold bind.
    rewrite (check_one_events f s t Hkeys).
    rewrite IH by (cbn [quality_stats]; now apply has_stats_keys_incr).
    now rewrite app_assoc.
Qed.


(** The detailed report from start to end, where some file is found. *)
Lemma check_audio_quality_events (w : world) :
  let files := find_audio_files (os_flavour w) (script_dir w) in
  let s := after_loop detailed_key files (mklocals files initial_stats fzero) in
  files <> [] ->
  check_audio_quality w no_locals []
  = (Ok tt, s,
     map Print (detailed_head files)
     ++ flat_map detailed_events files
     ++ map Print
          (summary_head
           ++ map (summary_line (len files)) (detailed_rows (quality_stats s))
           ++ [ [Lit (nl ++ "📦 Total files: " ++ str_of_int (len files))%string];
                [Lit "💾 Total size: "; Flt 2 (total_size s); Lit " MB"] ])).
Proof.
  intros files s Hne. unfold check_audio_quality. mstep.
  fold files. cbn [audio_files set_audio_files no_locals].
  destruct files as [| f0 fs] eqn:Hfiles; [contradiction |].
  rewrite <- Hfiles in *.
  cbn [set_quality_stats set_total_size audio_files quality_stats total_size].
  rewrite detailed_loop_events by exact has_stats_keys_initial.
  rewrite summary_loop_run.
  - subst s. rewrite <- Hfiles.
    cbn [after_loop quality_stats total_size audio_files].
    unfold detailed_head, summary_head.
    rewrite !map_app, map_map. cbn [map app].
    rewrite <- !app_assoc. reflexivity.
  - cbn [after_loop quality_stats set_total_size set_quality_stats].
    assert (Hnn : Forall (fun row => 0 <= snd row) (tally detailed_key files initial_stats)).
    { apply tally_nonneg. unfold initial_stats. repeat constructor; cbn; lia. }
    pose proof (value_le_sum _ Hnn) as Hle.
    rewrite tally_sum in Hle. exact Hle.
Qed.

Lemma quick_one_lines (f : file) (s : locals) (t : trace) :
  exists log,
    quick_one f s t
    = (Ok tt,
       mklocals (audio_files s) (dict_incr (quick_key f) (quality_stats s))
         (add_size (total_size s) f),
       t ++ log) /\
    printed log = quick_block f.
Proof.
  unfold quick_one, quick_block, quick_key, add_size, size_mb.
  unfold try_except, bind at 1, stat, bind at 1, emit, lift.
  destruct (node_stat (file_node f)) as [n | e].
  - unfold bind at 1, lift.
    destruct (int_truediv n MB) as [x | e].
    + unfold bind at 1, modify. unfold bind at 1.
      rewrite get_audio_bitrate_frame.
      rewrite <- !app_assoc. eexists. split; [reflexivity |].
      rewrite printed_app. reflexivity.
    + eexists. split; reflexivity.
  - eexists. split; reflexivity.
Qed.

Lemma quick_loop_lines (l : list file) (s : locals) (t : trace) :
  exists log,
    for_each l quick_one s t = (Ok tt, after_loop quick_key l s, t ++ log) /\
    printed log = flat_map quick_block l.
Proof.
  revert s t. induction l as [| f l IH]; intros s t.
  - exists []. destruct s. now rewrite app_nil_r.
  - cbn [for_each]. unfold bind.
    destruct (quick_one_lines f s t) as (log1 & -> & H1).
    edestruct IH as (log2 & -> & H2).
    exists (log1 ++ log2). split; [now rewrite app_assoc |].
    rewrite printed_app, H1, H2. reflexivity.
Qed.

Lemma printed_rows {A} (F : A -> line) (rows : list A) :
  printed (map (fun row => Print (F row)) rows) = map F rows.
Proof. rewrite <- (map_map F Print). apply printed_prints. Qed.

(** X17.  The quick summary in full: nothing per file but the resolver's error
    lines, which come out before the heading; then the five lines of the
    heading and the sorted rows. *)
Theorem quick_report_output (w : world)
    (Hne : find_audio_files (os_flavour w) (script_dir w) <> []) :
  let files := find_audio_files (os_flavour w) (script_dir w) in
  let s := final_locals (quick_quality_check w) no_locals in
  printed (final_trace (quick_quality_check w) no_locals)
  = flat_map quick_block files
    ++ quick_head files (total_size s)
    ++ map (quick_line (len files)) (sorted_by_count_desc (quality_stats s)).
Proof.
  intros files s.
  assert (Hs : s = after_loop quick_key files (mklocals files [] fzero))
    by (apply (quick_quality_check_locals w Hne)).
  rewrite Hs. clear Hs s.
  unfold final_trace, quick_quality_check. mstep.
  fold files. cbn [audio_files set_audio_files no_locals].
  destruct files as [| f0 fs] eqn:Hfiles; [contradiction |].
  rewrite <- Hfiles in *.
  cbn [set_quality_stats set_total_size audio_files quality_stats total_size].
  match goal with
  | |- context [for_each files quick_one ?s0 ?t0] =>
      destruct (quick_loop_lines files s0 t0) as (log & -> & Hlog)
  end.
  rewrite quick_rows_run.
  - cbn [after_loop quality_stats total_size audio_files].
    rewrite !printed_app, Hlog, printed_rows.
    unfold quick_head. cbn [printed flat_map app].
    rewrite <- !app_assoc. reflexivity.
  - cbn [after_loop quality_stats set_total_size set_quality_stats].
    assert (Hpos : Forall (fun row => 0 < snd row) (tally quick_key files [])).
    { apply tally_positive. constructor. }
    assert (Hnn : Forall (fun row => 0 <= snd row) (tally quick_key files []))
      by (eapply Forall_impl; [| exact Hpos]; cbn beta; intros; lia).
    pose proof (value_le_sum _ Hnn) as Hle.
    rewrite tally_sum in Hle.
    apply (Permutation_Forall (Permutation_sym (sorted_by_count_desc_perm _))).
    apply Forall_forall. intros row Hrow. split.
    + exact (proj1 (Forall_forall _ _) Hpos row Hrow).
    + pose proof (proj1 (Forall_forall _ _) Hle row Hrow) as H.
      unfold sum_counts, dict_values in H. cbn [map fold_right] in H. lia.
Qed.

Lemma quick_report_output_posix_music :
  find_audio_files Posix Worlds.music <> [] /\
  exists rest,
    printed (final_trace (quick_quality_check Worlds.posix_music) no_locals)
    = flat_map quick_block (find_audio_files Posix Worlds.music) ++ rest.
Proof.
  assert (Hne : find_audio_files Posix Worlds.music <> [])
    by (vm_compute; discriminate).
  split; [exact Hne |].
  eexists. exact (quick_report_output Worlds.posix_music Hne).
Defined.

End FullOutput.


(* ================================================================= *)
(** ** The inspector's cover line *)

Section InspectorCover.
Import Py Sys Metadata Inspect.

(** X19.  With cover art the first ten lines are as without, and the last one
    describes the first cover only: its format reads JPEG for
    [FORMAT_JPEG] and PNG for anything else, and the image is opened
    once. *)
Theorem inspector_cover_line (f : file) (a : audio) (n : Z) (x : pyfloat)
    (c : cover) (more : list cover) (resolution : Z * Z) (kb : pyfloat)
    (Hf : supported f)
    (Ho : node_open (file_node f) MP4 = Ok a)
    (Hs : node_stat (file_node f) = Ok n)
    (Hx : int_truediv n (1024 * 1024) = Ok x)
    (Htags : existsb (fun key => tag_empty key a) tag_keys = false)
    (Hcov : audio_covr a = c :: more)
    (Himg : image_size c = Ok resolution)
    (Hkb : int_truediv (cover_len c) 1024 = Ok kb)
    (Hlen : finite (Check.length_or_0 (audio_info a)) = true) :
  final_trace (get_audio_info f) no_locals
  = [CallOpen MP4 (file_path f); CallStat (file_path f); CallImageOpen (file_path f)]
    ++ map Print (firstn 10 (report_without_cover f a x) ++ [cover_line c resolution kb]).
Proof.
  destruct Hf as [Hex Hext].
  unfold final_trace, get_audio_info.
  rewrite Hex, Hext. cbn [negb]. mstep. rewrite Ho, Hs, Hx, Hcov, Himg.
  unfold tag_keys, tag_empty in Htags. cbn [existsb] in Htags.
  unfold report_without_cover, cover_line, tag_text, first_tag, sample_rate_or_0.
  unfold duration_line. destruct resolution as [width height]. cbn [fst snd].
  destruct (dict_get "©nam" (audio_tags a)) as [[| v1 ?] |]; try discriminate Htags;
    (destruct (dict_get "©ART" (audio_tags a)) as [[| v2 ?] |]; try discriminate Htags;
     (destruct (dict_get "©alb" (audio_tags a)) as [[| v3 ?] |]; try discriminate Htags;
      (destruct (dict_get "aART" (audio_tags a)) as [[| v4 ?] |];
         try discriminate Htags;
       (destruct (Check.length_or_0 (audio_info a)); try discriminate Hlen;
        rewrite Hkb; reflexivity)))).
Qed.

Lemma covered_m4a_supported : supported covered_m4a.
Proof. split; reflexivity. Qed.

Lemma inspector_cover_line_sample :
  supported covered_m4a /\
  exists kb,
    last (printed (final_trace (get_audio_info covered_m4a) no_locals)) []
    = [Lit "Embedded Album Art: PNG, 600x600 px, "; Flt 2 kb; Lit " KB"].
Proof.
  split; [exact covered_m4a_supported |].
  assert (Hkb : exists kb, int_truediv 2048 1024 = Ok kb)
    by (eexists; vm_compute; reflexivity).
  destruct Hkb as [kb Hkb]. exists kb.
  rewrite (inspector_cover_line covered_m4a
             (mkaudio true (mkinfo (Some 320000) (Some 44100) (Some Samples.eight_seconds))
                [("©nam"%string, ["Intro"%string])]
                [mkcover 0 2048 (Ok (600, 600)); mkcover 13 4096 (Ok (1200, 1200))])
             1048576 (Exact.exact_mb 1048576)
             (mkcover 0 2048 (Ok (600, 600))) [mkcover 13 4096 (Ok (1200, 1200))]
             (600, 600) kb covered_m4a_supported eq_refl eq_refl eq_refl eq_refl eq_refl
             eq_refl Hkb eq_refl).
  reflexivity.
Defined.

End InspectorCover.

(* ================================================================= *)
(** ** How far a rounded quotient and product are from the exact ones *)

Section Rounding.
Import Py Sys Check Aggregate Exact Rows.









End Rounding.

Section PercentBound.
Import Py Sys Check Aggregate Exact Rows.






End PercentBound.

(* ================================================================= *)
(** ** On a machine that takes every line the script runs as above *)

Section SameRun.
Import Py Sys.

Lemma bind_ext {S A B} (m m' : M S A) (k k' : A -> M S B) (s : S) (t : trace) :
  (forall s t, m s t = m' s t) ->
  (forall a s t, k a s t = k' a s t) ->
  bind m k s t = bind m' k' s t.
Proof.
  intros Hm Hk. unfold bind. rewrite Hm.
  destruct (m' s t) as [[[a | e] s'] t']; [apply Hk | reflexivity].
Qed.

Lemma try_except_ext {S A} (b b' : M S A) (h h' : exn -> M S A) (s : S) (t : trace) :
  (forall s t, b s t = b' s t) ->
  (forall e s t, h e s t = h' e s t) ->
  try_except b h s t = try_except b' h' s t.
Proof.
  intros Hb Hh. unfold try_except. rewrite Hb.
  destruct (b' s t) as [[[a | e] s'] t']; [reflexivity | apply Hh].
Qed.

Lemma for_each_ext {S X} (l : list X) (f f' : X -> M S unit) (s : S) (t : trace) :
  (forall x s t, f x s t = f' x s t) ->
  for_each l f s t = for_each l f' s t.
Proof.
  intros Hf. revert s t. induction l as [| x l IH]; intros s t; [reflexivity |].
  cbn [for_each]. apply bind_ext; [apply Hf | intros; apply IH].
Qed.

Lemma print_takes {S} (h : Hosted.host) (l : line) (s : S) (t : trace) :
  Hosted.takes_all h -> Hosted.print h l s t = print l s t.
Proof. intros H. unfold Hosted.print. now rewrite H. Qed.

End SameRun.

Ltac same_run :=
  repeat first
    [ reflexivity
    | progress intros
    | apply print_takes; assumption
    | match goal with H : _ |- _ => solve [apply H] end
    | apply bind_ext
    | apply try_except_ext
    | apply for_each_ext
    | match goal with
      | |- (if ?c then _ else _) _ _ = (if ?c then _ else _) _ _ => destruct c
      | |- (match ?x with _ => _ end) _ _ = (match ?x with _ => _ end) _ _ => destruct x
      | |- (let '(_, _) := ?x in _) _ _ = _ => destruct x
      end ].

Section SameRunCheck.
Import Py Sys.
Variable h : Hosted.host.
Hypothesis Htakes : Hosted.takes_all h.

Lemma get_audio_bitrate_same {S} (f : file) (s : S) (t : trace) :
  Hosted.get_audio_bitrate h f s t = Check.get_audio_bitrate f s t.
Proof. unfold Hosted.get_audio_bitrate, Check.get_audio_bitrate. same_run. Qed.

Lemma check_one_same (f : file) (s : Check.locals) (t : trace) :
  Hosted.check_one h f s t = Check.check_one f s t.
Proof.
  unfold Hosted.check_one, Check.check_one.
  pose proof (@get_audio_bitrate_same Check.locals) as Hb.
  same_run.
Qed.

Lemma check_audio_quality_same (w : world) (s : Check.locals) (t : trace) :
  Hosted.check_audio_quality h w s t = Check.check_audio_quality w s t.
Proof.
  unfold Hosted.check_audio_quality, Check.check_audio_quality.
  pose proof check_one_same as Hone.
  assert (Hrow : forall total item s t,
             Hosted.summary_row h total item s t = Check.summary_row total item s t).
  { intros total [k c] s0 t0. unfold Hosted.summary_row, Check.summary_row. same_run. }
  same_run.
Qed.

Lemma quick_one_same (f : file) (s : Check.locals) (t : trace) :
  Hosted.quick_one h f s t = Check.quick_one f s t.
Proof.
  unfold Hosted.quick_one, Check.quick_one.
  pose proof (@get_audio_bitrate_same Check.locals) as Hb.
  same_run.
Qed.

Lemma quick_quality_check_same (w : world) (s : Check.locals) (t : trace) :
  Hosted.quick_quality_check h w s t = Check.quick_quality_check w s t.
Proof.
  unfold Hosted.quick_quality_check, Check.quick_quality_check.
  pose proof quick_one_same as Hone.
  assert (Hrow : forall total item s t,
             Hosted.quick_row h total item s t = Check.quick_row total item s t).
  { intros total [k c] s0 t0. unfold Hosted.quick_row, Check.quick_row. same_run. }
  same_run.
Qed.




Lemma get_audio_info_same (f : file) (s : Metadata.locals) (t : trace) :
  Hosted.exists_error h (path_str (file_path f)) = None ->
  Hosted.get_audio_info h f s t = Metadata.get_audio_info f s t.
Proof.
  intros Hex.
  unfold Hosted.get_audio_info, Metadata.get_audio_info. rewrite Hex.
  same_run.
Qed.

End SameRunCheck.

(* ================================================================= *)
(** ** The resolver and the console *)

Section HostResolver.
Import Py Sys Check Tables Run.

(** How [get_audio_bitrate] ends, by how its [try] block ends and by what
    standard output does with the error line. *)
Lemma get_audio_bitrate_on_host (S : Type) (h : Hosted.host) (f : file) (s : S) (t : trace) :
  Hosted.get_audio_bitrate h f s t
  = match try_outcome f with
    | Ok r =>
        (Ok (match r with Some v => v | None => 0 end), s,
         t ++ snd (get_audio_bitrate_try f tt []))
    | Raise e =>
        match Hosted.stdout h (error_reading f e) with
        | Ok _ =>
            (Ok 0, s,
             (t ++ snd (get_audio_bitrate_try f tt [])) ++ [Print (error_reading f e)])
        | Raise e' => (Raise e', s, t ++ snd (get_audio_bitrate_try f tt []))
        end
    end.
Proof.
  unfold Hosted.get_audio_bitrate.
  unfold bind at 1, try_except.
  rewrite (get_audio_bitrate_try_frame S f s t).
  destruct (try_outcome f) as [[v |] | e]; try reflexivity.
  unfold bind at 1, Hosted.print.
  destruct (Hosted.stdout h (error_reading f e)); reflexivity.
Qed.

Lemma resolver_events_split (f : file) :
  resolver_events f
  = snd (get_audio_bitrate_try f tt [])
    ++ match try_outcome f with
       | Ok _ => []
       | Raise e => [Print (error_reading f e)]
       end.
Proof. apply resolver_events_try. Qed.

Lemma resolved_value (f : file) (r : option Z) :
  try_outcome f = Ok r ->
  resolved f = match r with Some v => v | None => 0 end.
Proof.
  intros E. pose proof (resolved_of_outcome f) as H. rewrite E in H.
  destruct r; apply H.
Qed.

(** C2.  [get_audio_bitrate] catches whatever its [try] block raises; the
    handler prints the error line, so the resolver returns 0 when standard
    output takes that line and raises what [print] raises when it does
    not, and that is the only way it raises.  Where the [try] block
    returns, nothing is printed.  With sizes and bit rates that are not
    negative the value is not negative, and it is 0 for an extension
    without a branch, for a missing bitrate field where the field is read
    directly, and for a zero or unknown duration where the estimate is
    derived from size and duration. *)
Theorem get_audio_bitrate_raises_only_from_print
    (S : Type) (h : Hosted.host) (f : file) (s : S) (t : trace) (Hwf : well_formed f) :
  let ext := lower (suffix (file_path f)) in
  (forall r, try_outcome f = Ok r ->
     Hosted.get_audio_bitrate h f s t = (Ok (resolved f), s, t ++ resolver_events f) /\
     printed (resolver_events f) = []) /\
  (forall e, try_outcome f = Raise e ->
     Hosted.stdout h (error_reading f e) = Ok tt ->
     Hosted.get_audio_bitrate h f s t = (Ok 0, s, t ++ resolver_events f) /\
     printed (resolver_events f) = [error_reading f e]) /\
  (forall e e', try_outcome f = Raise e ->
     Hosted.stdout h (error_reading f e) = Raise e' ->
     exists calls,
       Hosted.get_audio_bitrate h f s t = (Raise e', s, t ++ calls) /\
       printed calls = []) /\
  (forall e', fst (fst (Hosted.get_audio_bitrate h f s t)) = Raise e' ->
     exists e, try_outcome f = Raise e /\
               Hosted.stdout h (error_reading f e) = Raise e') /\
  (forall v, fst (fst (Hosted.get_audio_bitrate h f s t)) = Ok v ->
     v = resolved f /\ 0 <= v) /\
  (str_in ext resolver_extensions = false -> resolved f = 0) /\
  (forall o a,
     (str_in ext [".m4a"; ".mp4"] = true /\ o = MP4 \/ ext = ".mp3" /\ o = MP3) ->
     node_open (file_node f) o = Ok a ->
     info_bitrate (audio_info a) = None -> resolved f = 0) /\
  (forall a,
     str_in ext [".aac"; ".ogg"; ".opus"; ".wma"] = true ->
     node_probe (file_node f) = Ok (Some a) ->
     info_bitrate (audio_info a) = None -> resolved f = 0) /\
  (forall o a,
     (ext = ".flac" /\ o = FLAC /\ info_bitrate (audio_info a) = None \/
      str_in ext [".wav"; ".wave"] = true /\ o = WAVE) ->
     node_open (file_node f) o = Ok a ->
     no_duration (audio_info a) -> resolved f = 0).
Proof.
  intros ext.
  pose proof (get_audio_bitrate_ideal S f s t Hwf)
    as (Hrun & Hnn & Hraise & Hok & Hz1 & Hz2 & Hz3 & Hz4).
  pose proof (get_audio_bitrate_on_host S h f s t) as Hhost.
  pose proof (resolver_events_split f) as Hsplit.
  pose proof (get_audio_bitrate_try_calls_only f) as Hcalls.
  repeat split.
  - rewrite Hhost, Hsplit, H, (resolved_value f r H). now rewrite app_nil_r.
  - now apply (Hok r).
  - rewrite Hhost, Hsplit, H, H0. now rewrite app_assoc.
  - now apply (Hraise e).
  - intros e e' He He'. exists (snd (get_audio_bitrate_try f tt [])).
    rewrite Hhost, He, He'. split; [reflexivity | exact Hcalls].
  - intros e' He'. rewrite Hhost in He'.
    destruct (try_outcome f) as [r | e]; [discriminate He' |].
    exists e. split; [reflexivity |].
    destruct (Hosted.stdout h (error_reading f e)) as [[] | e'']; [discriminate He' |].
    cbn [fst] in He'. congruence.
  - rewrite Hhost in H.
    destruct (try_outcome f) as [r | e] eqn:E.
    + cbn [fst] in H. injection H as <-. now rewrite (resolved_value f r E).
    + destruct (Hraise e eq_refl) as [H0 _].
      destruct (Hosted.stdout h (error_reading f e)); [| discriminate H].
      cbn [fst] in H. injection H as <-. now rewrite H0.
  - rewrite Hhost in H.
    destruct (try_outcome f) as [r | e] eqn:E.
    + cbn [fst] in H. injection H as <-.
      rewrite <- (resolved_value f r E). exact Hnn.
    + destruct (Hosted.stdout h (error_reading f e)); [| discriminate H].
      cbn [fst] in H. injection H as <-. lia.
  - exact Hz1.
  - exact Hz2.
  - exact Hz3.
  - exact Hz4.
Qed.

Lemma get_audio_bitrate_raises_only_from_print_cd_wav :
  well_formed Samples.cd_wav /\
  Hosted.get_audio_bitrate Hosted.ideal Samples.cd_wav tt []
  = (Ok 1411, tt, resolver_events Samples.cd_wav).
Proof.
  split; [exact cd_wav_well_formed |].
  destruct (get_audio_bitrate_raises_only_from_print unit Hosted.ideal Samples.cd_wav tt []
              cd_wav_well_formed) as (Hok & _).
  destruct (Hok (Some 1411)) as [Hrun _]; [vm_compute; reflexivity |].
  rewrite Hrun. reflexivity.
Defined.

(** C2 as stated fails: the decoder rejects the file, and the console
    cannot encode the name the error line carries. *)
Lemma get_audio_bitrate_propagates_print_error :
  well_formed Hosted.odd_name_mp3 /\
  try_outcome Hosted.odd_name_mp3 = Raise "can't sync to MPEG frame" /\
  Hosted.get_audio_bitrate (Hosted.cannot_encode Hosted.odd_byte) Hosted.odd_name_mp3 tt []
  = (Raise Hosted.UnicodeEncodeError, tt,
     [CallOpen MP3 (file_path Hosted.odd_name_mp3)]).
Proof.
  split; [| split; vm_compute; reflexivity].
  split.
  - intros n [= <-]. lia.
  - intros o a E. discriminate E.
  - intros a E. discriminate E.
Qed.

End HostResolver.

(* ================================================================= *)
(** ** The reports and the console *)

Section HostReports.
Import Py Sys Check Tables Run Aggregate Output Groups Rows.

Lemma check_audio_quality_on_host (h : Hosted.host) (w : world) :
  Hosted.takes_all h ->
  Hosted.check_audio_quality h w no_locals [] = check_audio_quality w no_locals [].
Proof. intros Htakes. now apply check_audio_quality_same. Qed.

Lemma quick_quality_check_on_host (h : Hosted.host) (w : world) :
  Hosted.takes_all h ->
  Hosted.quick_quality_check h w no_locals [] = quick_quality_check w no_locals [].
Proof. intros Htakes. now apply quick_quality_check_same. Qed.



Lemma ideal_takes_all : Hosted.takes_all Hosted.ideal.
Proof. intros l. reflexivity. Qed.







(** X16.  The detailed report in full, on a machine whose standard
    output takes every line: five opening lines, for each file in scan
    order what its turn of the loop does, the summary between its rules,
    and the two totals.  A file whose size cannot be read gets the
    two-line error block, and the only call made for it is the [stat]
    that failed: the resolver is not reached. *)
Theorem detailed_report_output (h : Hosted.host) (w : world)
    (Htakes : Hosted.takes_all h)
    (Hne : find_audio_files (os_flavour w) (script_dir w) <> []) :
  let files := find_audio_files (os_flavour w) (script_dir w) in
  let s := final_locals (Hosted.check_audio_quality h w) no_locals in
  final_trace (Hosted.check_audio_quality h w) no_locals
  = map Print (detailed_head files)
    ++ flat_map detailed_events files
    ++ map Print
         (summary_head
          ++ map (summary_line (len files)) (detailed_rows (quality_stats s))
          ++ [ [Lit (nl ++ "📦 Total files: " ++ str_of_int (len files))%string];
               [Lit "💾 Total size: "; Flt 2 (total_size s); Lit " MB"] ]) /\
  (forall f e, In f files -> size_mb f = Raise e ->
     detailed_events f
     = [CallStat (file_path f);
        Print [Lit ("❌ Error checking " ++ name (file_path f) ++ ": " ++ e)%string];
        Print []]) /\
  (forall f x, In f files -> size_mb f = Ok x ->
     Footprint.calls (detailed_events f)
     = CallStat (file_path f) :: Footprint.calls (resolver_events f)).
Proof.
  intros files s.
  assert (Hs : s = after_loop detailed_key files (mklocals files initial_stats fzero)).
  { subst s. unfold final_locals.
    rewrite (check_audio_quality_on_host h w Htakes).
    now apply check_audio_quality_locals. }
  split; [| split].
  - unfold final_trace.
    rewrite (check_audio_quality_on_host h w Htakes), (check_audio_quality_events w Hne), Hs.
    reflexivity.
  - intros f e _ Hsize. unfold detailed_events, size_mb in *.
    destruct (node_stat (file_node f)) as [n | e0]; [| congruence].
    destruct (int_truediv n MB); congruence.
  - intros f x _ Hsize. unfold detailed_events, size_mb in *.
    destruct (node_stat (file_node f)) as [n | e0]; [| discriminate].
    rewrite Hsize. cbn [Footprint.calls filter].
    fold (Footprint.calls
            (resolver_events f
             ++ map Print
                  [[Lit ("🔊 " ++ name (file_path f))%string];
                   [Lit ("   📁 Location: " ++ parent_name (file_path f) ++ "/")%string];
                   [Lit "   📊 Size: "; Flt 2 x; Lit " MB"];
                   [Lit ("   🎵 Bitrate: " ++ str_of_int (resolved f) ++ " kbps")%string];
                   [Lit ("   ⭐ Quality: " ++ get_audio_quality (resolved f))%string];
                   []])).
    rewrite calls_app. cbn [map Footprint.calls filter]. now rewrite app_nil_r.
Qed.

Lemma detailed_report_output_posix_music :
  Hosted.takes_all Hosted.ideal /\
  find_audio_files Posix Worlds.music <> [] /\
  exists rest,
    final_trace (Hosted.check_audio_quality Hosted.ideal Worlds.posix_music) no_locals
    = map Print (detailed_head (find_audio_files Posix Worlds.music))
      ++ flat_map detailed_events (find_audio_files Posix Worlds.music) ++ rest.
Proof.
  assert (Hne : find_audio_files Posix Worlds.music <> []) by (vm_compute; discriminate).
  split; [exact ideal_takes_all |]. split; [exact Hne |].
  eexists.
  exact (proj1 (detailed_report_output Hosted.ideal Worlds.posix_music
                  ideal_takes_all Hne)).
Defined.

End HostReports.

(* ================================================================= *)
(** ** The inspector and the machine *)

Section HostInspector.
Import Py Sys Metadata Inspect.

(** C8.  The inspector tests existence first, outside any [try]: when
    [exists] raises, that exception leaves [get_audio_info] with nothing
    printed; when the path is not there, whatever its extension, the only
    thing done is the [print] of the file-not-found line; when it is there
    with another extension than .m4a and .mp4, the only thing done is the
    [print] of the unsupported-format line.  In none of the three is the
    file opened or stat'ed. *)
Theorem get_audio_info_fails_fast (h : Hosted.host) (f : file) :
  (forall e, Hosted.exists_error h (path_str (file_path f)) = Some e ->
     Hosted.get_audio_info h f no_locals [] = (Raise e, no_locals, [])) /\
  (Hosted.exists_error h (path_str (file_path f)) = None ->
   node_exists (file_node f) = false ->
   Hosted.get_audio_info h f no_locals []
   = Hosted.print h [Lit ("File not found: " ++ path_str (file_path f))%string]
       no_locals []) /\
  (Hosted.exists_error h (path_str (file_path f)) = None ->
   node_exists (file_node f) = true ->
   str_in (lower (suffix (file_path f))) [".m4a"; ".mp4"] = false ->
   Hosted.get_audio_info h f no_locals []
   = Hosted.print h [Lit "Only supports .m4a or .mp4 files"] no_locals []) /\
  (forall l,
     Hosted.print h l no_locals []
     = match Hosted.stdout h l with
       | Ok _ => (Ok tt, no_locals, [Print l])
       | Raise e => (Raise e, no_locals, [])
       end).
Proof.
  split; [| split; [| split]].
  - intros e Hex. unfold Hosted.get_audio_info. rewrite Hex. reflexivity.
  - intros Hex Hno. unfold Hosted.get_audio_info. rewrite Hex, Hno. reflexivity.
  - intros Hex Hyes Hext. unfold Hosted.get_audio_info. rewrite Hex, Hyes, Hext. reflexivity.
  - intros l. unfold Hosted.print. destruct (Hosted.stdout h l) as [[] | e]; reflexivity.
Qed.

Lemma get_audio_info_on_host (h : Hosted.host) (f : file) :
  Hosted.takes_all h ->
  Hosted.exists_error h (path_str (file_path f)) = None ->
  Hosted.get_audio_info h f no_locals [] = get_audio_info f no_locals [].
Proof. intros Htakes Hex. now apply get_audio_info_same. Qed.

(** X6.  The exit status of the inspector.  Without a path argument it is
    1, and the usage line is all that is printed when standard output
    takes it.  With one it is 1 when [exists] raises on the path, with
    nothing printed; and 0 on a machine whose standard output takes every
    line and where [exists] does not raise, whether or not the file could
    be read.  Arguments after the first are ignored. *)
Theorem script_exit_status (h : Hosted.host) (locate : string -> file)
    (argv : list string) :
  ((List.length argv < 2)%nat -> fst (Hosted.script h locate argv) = 1) /\
  ((List.length argv < 2)%nat -> Hosted.takes_all h ->
   Hosted.script h locate argv = (1, [Print [Lit usage]])) /\
  (forall prog arg more e,
     argv = prog :: arg :: more ->
     Hosted.exists_error h (path_str (file_path (locate arg))) = Some e ->
     Hosted.script h locate argv = (1, [])) /\
  (forall prog arg more,
     argv = prog :: arg :: more ->
     Hosted.takes_all h ->
     Hosted.exists_error h (path_str (file_path (locate arg))) = None ->
     fst (Hosted.script h locate argv) = 0) /\
  (forall prog arg more,
     Hosted.script h locate (prog :: arg :: more) = Hosted.script h locate [prog; arg]).
Proof.
  split; [| split; [| split; [| split]]].
  - destruct argv as [| prog [| arg more]]; cbn [List.length]; intros Hlen; try lia;
      unfold Hosted.script; destruct (Hosted.print h _ tt []) as [[r u] t]; reflexivity.
  - destruct argv as [| prog [| arg more]]; cbn [List.length]; intros Hlen Htakes; try lia;
      unfold Hosted.script, Hosted.print; rewrite Htakes; reflexivity.
  - intros prog arg more e -> Hex. unfold Hosted.script, Hosted.get_audio_info.
    rewrite Hex. reflexivity.
  - intros prog arg more -> Htakes Hex. unfold Hosted.script.
    rewrite (get_audio_info_on_host h (locate arg) Htakes Hex).
    pose proof (get_audio_info_returns (locate arg) no_locals []) as H.
    destruct (get_audio_info (locate arg) no_locals []) as [[r s] t].
    cbn [fst] in *. now rewrite H.
  - reflexivity.
Qed.

(** A name of 300 characters: [exists] raises, the process ends with
    status 1 and nothing was printed. *)
Example long_name_ends_the_inspector :
  let long := (Check.str_mul "a" 300 ++ ".m4a")%string in
  Hosted.script (Hosted.cannot_stat long "[Errno 36] File name too long")
    (fun arg => mkfile (mkpath [] arg) Samples.absent) ["metadata.py"; long]%string
  = (1, []).
Proof. vm_compute. reflexivity. Qed.

End HostInspector.

(* ================================================================= *)
(** ** The menu and the machine *)

Section HostMenu.
Import Py Sys Check Run Aggregate.

Lemma and_then_ok {A B} (a : Hosted.run A) (k : A -> Hosted.run B) (y : B) :
  fst (Hosted.and_then a k) = Ok y ->
  exists x, fst a = Ok x /\ fst (k x) = Ok y.
Proof.
  destruct a as [[x | e] t]; cbn [Hosted.and_then fst]; [| discriminate].
  destruct (k x) as [r t'] eqn:E. cbn [fst]. intros ->.
  exists x. split; [reflexivity |]. now rewrite E.
Qed.

Lemma and_then_raise {A B} (a : Hosted.run A) (k : A -> Hosted.run B) :
  (forall x, exists e, fst (k x) = Raise e) ->
  exists e, fst (Hosted.and_then a k) = Raise e.
Proof.
  intros Hk. destruct a as [[x | e] t]; cbn [Hosted.and_then fst].
  - destruct (Hk x) as [e He]. destruct (k x) as [r t']. cbn [fst] in *.
    exists e. exact He.
  - exists e. reflexivity.
Qed.

Lemma menu_returns_only_after_exit (h : Hosted.host) (w : world) (n : nat) :
  forall stdin, (List.length stdin <= n)%nat ->
  fst (Hosted.menu h w stdin) = Ok tt ->
  exists line, In line stdin /\ strip line = "4"%string.
Proof.
  induction n as [| n IH]; intros stdin Hlen Hok.
  - destruct stdin as [| line rest]; [| cbn [List.length] in Hlen; lia].
    cbn [Hosted.menu] in Hok.
    apply and_then_ok in Hok. destruct Hok as (_ & _ & Hok).
    apply and_then_ok in Hok. destruct Hok as (_ & _ & Hok). discriminate Hok.
  - destruct stdin as [| line rest].
    { cbn [Hosted.menu] in Hok.
      apply and_then_ok in Hok. destruct Hok as (_ & _ & Hok).
      apply and_then_ok in Hok. destruct Hok as (_ & _ & Hok). discriminate Hok. }
    cbn [List.length] in Hlen.
    cbn [Hosted.menu] in Hok.
    apply and_then_ok in Hok. destruct Hok as (_ & _ & Hok).
    apply and_then_ok in Hok. destruct Hok as (_ & _ & Hok).
    cbv zeta in Hok.
    destruct (String.eqb_spec (strip line) "1") as [E1 | N1].
    { apply and_then_ok in Hok. destruct Hok as (_ & _ & Hok).
      destruct (IH rest ltac:(lia) Hok) as (l & Hin & Hl).
      exists l. split; [now right | exact Hl]. }
    destruct (String.eqb_spec (strip line) "2") as [E2 | N2].
    { apply and_then_ok in Hok. destruct Hok as (_ & _ & Hok).
      destruct (IH rest ltac:(lia) Hok) as (l & Hin & Hl).
      exists l. split; [now right | exact Hl]. }
    destruct (String.eqb_spec (strip line) "3") as [E3 | N3].
    { apply and_then_ok in Hok. destruct Hok as (_ & _ & Hok).
      destruct rest as [| typed rest']; [discriminate Hok |].
      apply and_then_ok in Hok. destruct Hok as (_ & _ & Hok).
      cbn [List.length] in Hlen.
      destruct (IH rest' ltac:(lia) Hok) as (l & Hin & Hl).
      exists l. split; [right; now right | exact Hl]. }
    destruct (String.eqb_spec (strip line) "4") as [E4 | N4].
    { exists line. split; [now left | exact E4]. }
    apply and_then_ok in Hok. destruct Hok as (_ & _ & Hok).
    destruct (IH rest ltac:(lia) Hok) as (l & Hin & Hl).
    exists l. split; [now right | exact Hl].
Qed.

Lemma say_takes (h : Hosted.host) (s : string) :
  Hosted.takes_all h -> Hosted.say h s = (Ok tt, [Menu.say s]).
Proof. intros H. unfold Hosted.say. now rewrite H. Qed.

Lemma prompt_takes (h : Hosted.host) (s : string) :
  Hosted.takes_all h -> Hosted.prompt h s = (Ok tt, [Menu.Prompt s]).
Proof. intros H. unfold Hosted.prompt. now rewrite H. Qed.

Lemma say_each_takes (h : Hosted.host) (lines : list string) :
  Hosted.takes_all h -> Hosted.say_each h lines = (Ok tt, map Menu.say lines).
Proof.
  intros H. induction lines as [| s lines IH]; [reflexivity |].
  cbn [Hosted.say_each map]. rewrite (say_takes h s H), IH. reflexivity.
Qed.

(** X3.  [main] returns normally only after a line that reads as the
    choice 4, whatever the machine does; input in which no line reads as
    4 ends it with an exception, and so does input that is empty, where
    the exception is the [EOFError] of the first prompt when standard
    output takes every line. *)
Theorem main_returns_only_after_exit (h : Hosted.host) (w : world)
    (stdin : list string) :
  (fst (Hosted.main h w stdin) = Ok tt ->
   exists line, In line stdin /\ strip line = "4"%string) /\
  (existsb (Menu.chooses "4") stdin = false ->
   exists e, fst (Hosted.main h w stdin) = Raise e) /\
  (exists e, fst (Hosted.main h w []) = Raise e) /\
  (Hosted.takes_all h -> fst (Hosted.main h w []) = Raise Menu.EOFError).
Proof.
  assert (Honly : forall input, fst (Hosted.main h w input) = Ok tt ->
                  exists line, In line input /\ strip line = "4"%string).
  { intros input Hok. unfold Hosted.main in Hok.
    apply and_then_ok in Hok. destruct Hok as (_ & _ & Hok).
    now apply (menu_returns_only_after_exit h w (List.length input)). }
  assert (Hnone : forall input, existsb (Menu.chooses "4") input = false ->
                  exists e, fst (Hosted.main h w input) = Raise e).
  { intros input Hno.
    destruct (fst (Hosted.main h w input)) as [[] | e] eqn:E; [| now exists e].
    destruct (Honly input E) as (line & Hin & Hline).
    assert (Hex : existsb (Menu.chooses "4") input = true).
    { apply existsb_exists. exists line. split; [exact Hin |].
      unfold Menu.chooses. rewrite Hline. reflexivity. }
    congruence. }
  split; [apply Honly |]. split; [apply Hnone |]. split; [now apply Hnone |].
  intros Htakes. unfold Hosted.main. cbn [Hosted.menu].
  rewrite !(say_each_takes h _ Htakes), (prompt_takes h _ Htakes). reflexivity.
Qed.

Lemma check_audio_quality_returns_on_host (h : Hosted.host) (w : world) :
  Hosted.takes_all h ->
  outcome (Hosted.check_audio_quality h w) no_locals = Ok tt.
Proof.
  intros Htakes. unfold outcome.
  rewrite (check_audio_quality_on_host h w Htakes).
  apply check_audio_quality_returns.
Qed.

Lemma quick_quality_check_returns_on_host (h : Hosted.host) (w : world) :
  Hosted.takes_all h ->
  outcome (Hosted.quick_quality_check h w) no_locals = Ok tt.
Proof.
  intros Htakes. unfold outcome.
  rewrite (quick_quality_check_on_host h w Htakes).
  apply quick_quality_check_returns.
Qed.

(** X4.  On a machine whose standard output takes every line, choices
    other than 3 and 4 never end the loop: after any number of them, the
    choice 4 prints "Goodbye!" and [main] returns, without reading what
    follows. *)
Theorem main_survives_reports (h : Hosted.host) (w : world)
    (before after : list string) (line : string)
    (Htakes : Hosted.takes_all h)
    (Hbefore : Forall (fun l => strip l <> "3"%string /\ strip l <> "4"%string) before)
    (Hline : strip line = "4"%string) :
  exists t,
    Hosted.main h w (before ++ line :: after) = (Ok tt, t ++ [Menu.say "Goodbye!"]) /\
    Hosted.main h w (before ++ line :: after) = Hosted.main h w (before ++ [line]).
Proof.
  set (top := (map Menu.say Hosted.option_lines ++ [Menu.Prompt Hosted.choose])%list).
  assert (Hturn : forall l rest,
             Hosted.menu h w (l :: rest)
             = Hosted.and_then (Ok tt, top)
                 (fun _ =>
                    if String.eqb (strip l) "1" then
                      Hosted.and_then (Hosted.call (Hosted.check_audio_quality h w) no_locals)
                        (fun _ => Hosted.menu h w rest)
                    else if String.eqb (strip l) "2" then
                      Hosted.and_then (Hosted.call (Hosted.quick_quality_check h w) no_locals)
                        (fun _ => Hosted.menu h w rest)
                    else if String.eqb (strip l) "3" then
                      Hosted.and_then (Hosted.prompt h Hosted.enter_folder) (fun _ =>
                        match rest with
                        | [] => (Raise Menu.EOFError, [])
                        | typed :: rest' =>
                            Hosted.and_then
                              (Hosted.call (Hosted.check_specific_folder h w typed)
                                 no_folder_locals)
                              (fun _ => Hosted.menu h w rest')
                        end)
                    else if String.eqb (strip l) "4" then Hosted.say h "Goodbye!"
                    else
                      Hosted.and_then
                        (Hosted.say h "Invalid choice! Please enter 1, 2, 3, or 4.")
                        (fun _ => Hosted.menu h w rest))).
  { intros l rest. cbn [Hosted.menu].
    rewrite (say_each_takes h _ Htakes), (prompt_takes h _ Htakes).
    cbn [Hosted.and_then]. unfold top.
    destruct (if String.eqb (strip l) "1" then _ else _) as [r t]. reflexivity. }
  assert (Hmenu : exists t, forall rest,
             Hosted.menu h w (before ++ line :: rest) = (Ok tt, t ++ [Menu.say "Goodbye!"])).
  { induction Hbefore as [| l before [Hn3 Hn4] _ [t IH]].
    - exists top. intros rest. cbn [app]. rewrite Hturn, Hline.
      cbn [String.eqb Ascii.eqb Bool.eqb]. rewrite (say_takes h _ Htakes).
      reflexivity.
    - apply String.eqb_neq in Hn3, Hn4.
      destruct (String.eqb (strip l) "1") eqn:E1;
        [| destruct (String.eqb (strip l) "2") eqn:E2].
      + exists (top ++ map Menu.Out (final_trace (Hosted.check_audio_quality h w) no_locals)
                ++ t).
        intros rest. cbn [app]. rewrite Hturn, E1. unfold Hosted.call.
        rewrite (check_audio_quality_returns_on_host h w Htakes), IH.
        cbn [Hosted.and_then]. now rewrite <- !app_assoc.
      + exists (top ++ map Menu.Out (final_trace (Hosted.quick_quality_check h w) no_locals)
                ++ t).
        intros rest. cbn [app]. rewrite Hturn, E1, E2. unfold Hosted.call.
        rewrite (quick_quality_check_returns_on_host h w Htakes), IH.
        cbn [Hosted.and_then]. now rewrite <- !app_assoc.
      + exists (top ++ Menu.say "Invalid choice! Please enter 1, 2, 3, or 4." :: t).
        intros rest. cbn [app]. rewrite Hturn, E1, E2, Hn3, Hn4.
        rewrite (say_takes h _ Htakes), IH.
        cbn [Hosted.and_then app]. now rewrite <- !app_assoc. }
  destruct Hmenu as [t Ht].
  exists (map Menu.say Hosted.banner_lines ++ t). unfold Hosted.main.
  rewrite (say_each_takes h _ Htakes), !Ht. cbn [Hosted.and_then].
  split; [now rewrite <- app_assoc | reflexivity].
Qed.

Lemma main_survives_reports_sample :
  Hosted.takes_all Hosted.ideal /\
  Forall (fun l => strip l <> "3"%string /\ strip l <> "4"%string) ["x"; " 1"; "2 "]%string /\
  exists t,
    Hosted.main Hosted.ideal Worlds.posix_music ["x"; " 1"; "2 "; "4"; "3"]%string
    = (Ok tt, t ++ [Menu.say "Goodbye!"]).
Proof.
  assert (Hbefore : Forall (fun l => strip l <> "3"%string /\ strip l <> "4"%string)
                      ["x"; " 1"; "2 "]%string)
    by (repeat constructor; vm_compute; discriminate).
  split; [exact ideal_takes_all |]. split; [exact Hbefore |].
  destruct (main_survives_reports Hosted.ideal Worlds.posix_music ["x"; " 1"; "2 "]%string
              ["3"%string] "4"%string ideal_takes_all Hbefore eq_refl) as (t & Ht & _).
  exists t. exact Ht.
Defined.

End HostMenu.

(* ================================================================= *)
(** ** The folder prompt *)

Section WhiteSpace.
Import Py Input.

Variables (p1 : ascii -> bool) (p2 : ascii -> ascii -> bool)
          (p3 : ascii -> ascii -> ascii -> bool).

Lemma made_of_app (a b : string) :
  made_of p1 p2 p3 a -> made_of p1 p2 p3 b -> made_of p1 p2 p3 (a ++ b).
Proof.
  intros Ha Hb. induction Ha; cbn [String.append]; [exact Hb | | |];
    (constructor; assumption).
Qed.

(** What [drop_while] leaves, and that what it dropped was made of such
    characters. *)
Lemma drop_while_split (s : string) :
  exists front,
    made_of p1 p2 p3 front /\ s = (front ++ drop_while p1 p2 p3 s)%string.
Proof.
  assert (H : forall n s, (String.length s <= n)%nat ->
              exists front,
                made_of p1 p2 p3 front /\
                s = (front ++ drop_while p1 p2 p3 s)%string).
  { clear s. induction n as [| n IH]; intros s Hlen.
    - destruct s; [| cbn in Hlen; lia]. exists EmptyString. split; [constructor | reflexivity].
    - destruct s as [| c1 s1]; [exists EmptyString; split; [constructor | reflexivity] |].
      cbn [String.length] in Hlen. cbn [drop_while].
      destruct (p1 c1) eqn:E1.
      { destruct (IH s1 ltac:(lia)) as (front & Hf & Hs).
        exists (String c1 front). split; [now constructor |].
        cbn [String.append]. now rewrite <- Hs. }
      destruct s1 as [| c2 s2]; [exists EmptyString; split; [constructor | reflexivity] |].
      cbn [String.length] in Hlen.
      destruct (p2 c1 c2) eqn:E2.
      { destruct (IH s2 ltac:(lia)) as (front & Hf & Hs).
        exists (String c1 (String c2 front)). split; [now constructor |].
        cbn [String.append]. now rewrite <- Hs. }
      destruct s2 as [| c3 s3]; [exists EmptyString; split; [constructor | reflexivity] |].
      cbn [String.length] in Hlen.
      destruct (p3 c1 c2 c3) eqn:E3.
      { destruct (IH s3 ltac:(lia)) as (front & Hf & Hs).
        exists (String c1 (String c2 (String c3 front))). split; [now constructor |].
        cbn [String.append]. now rewrite <- Hs. }
      exists EmptyString. split; [constructor | reflexivity]. }
  exact (H (String.length s) s (le_n _)).
Qed.

Lemma drop_while_all (s : string) :
  drop_while p1 p2 p3 s = EmptyString -> made_of p1 p2 p3 s.
Proof.
  intros H. destruct (drop_while_split s) as (front & Hf & Hs).
  rewrite H in Hs. rewrite Hs.
  replace (front ++ "")%string with front; [exact Hf |].
  clear. induction front; cbn; congruence.
Qed.

(** Where a character has one reading only, a string made of such
    characters is dropped whole. *)
Hypothesis one_or_two : forall c1 c2, p1 c1 = true -> p2 c1 c2 = false.
Hypothesis one_or_three : forall c1 c2 c3, p1 c1 = true -> p3 c1 c2 c3 = false.
Hypothesis two_or_three : forall c1 c2 c3, p2 c1 c2 = true -> p3 c1 c2 c3 = false.
Hypothesis two_or_one : forall c1 c2, p2 c1 c2 = true -> p1 c1 = false.
Hypothesis three_or_one : forall c1 c2 c3, p3 c1 c2 c3 = true -> p1 c1 = false.
Hypothesis three_or_two : forall c1 c2 c3, p3 c1 c2 c3 = true -> p2 c1 c2 = false.

Lemma made_of_dropped (s : string) :
  made_of p1 p2 p3 s -> drop_while p1 p2 p3 s = EmptyString.
Proof.
  induction 1 as [| c1 s H1 Hs IH | c1 c2 s H2 Hs IH | c1 c2 c3 s H3 Hs IH];
    cbn [drop_while].
  - reflexivity.
  - now rewrite H1.
  - now rewrite (two_or_one c1 c2 H2), H2.
  - now rewrite (three_or_one c1 c2 c3 H3), (three_or_two c1 c2 c3 H3), H3.
Qed.

End WhiteSpace.

Section FolderInput.
Import Py Sys Check Input.

Lemma rev_onto_app (s acc : string) :
  rev_onto s acc = (reverse s ++ acc)%string.
Proof.
  unfold reverse. revert acc.
  induction s as [| c s IH]; intros acc; cbn [rev_onto]; [reflexivity |].
  rewrite (IH (String c acc)), (IH (String c EmptyString)).
  clear. induction (rev_onto s ""); cbn [String.append]; congruence.
Qed.

Lemma reverse_cons (c : ascii) (s : string) :
  reverse (String c s) = (reverse s ++ String c EmptyString)%string.
Proof. unfold reverse at 1. cbn [rev_onto]. apply rev_onto_app. Qed.

Lemma append_nil_r (s : string) : (s ++ "")%string = s.
Proof. induction s; cbn [String.append]; congruence. Qed.

Lemma append_assoc (a b c : string) : ((a ++ b) ++ c)%string = (a ++ (b ++ c))%string.
Proof. induction a; cbn [String.append]; congruence. Qed.

Lemma reverse_app (a b : string) :
  reverse (a ++ b) = (reverse b ++ reverse a)%string.
Proof.
  induction a as [| c a IH]; cbn [String.append].
  - change (reverse "") with ""%string. now rewrite append_nil_r.
  - now rewrite !reverse_cons, IH, append_assoc.
Qed.

Lemma reverse_involutive (s : string) : reverse (reverse s) = s.
Proof.
  induction s as [| c s IH]; [reflexivity |].
  rewrite reverse_cons, reverse_app, IH. reflexivity.
Qed.

Lemma reverse_empty (s : string) : reverse s = ""%string -> s = ""%string.
Proof. intros H. rewrite <- (reverse_involutive s), H. reflexivity. Qed.

Lemma white_reverse (s : string) : white_backwards s -> white (reverse s).
Proof.
  unfold white, white_backwards.
  induction 1 as [| c1 s H1 Hs IH | c1 c2 s H2 Hs IH | c1 c2 c3 s H3 Hs IH].
  - constructor.
  - rewrite reverse_cons. apply made_of_app; [exact IH |].
    apply made_1; [exact H1 | constructor].
  - rewrite !reverse_cons, append_assoc. apply made_of_app; [exact IH |].
    cbn [String.append]. apply made_2; [exact H2 | constructor].
  - rewrite !reverse_cons, !append_assoc. apply made_of_app; [exact IH |].
    cbn [String.append]. apply made_3; [exact H3 | constructor].
Qed.

Lemma blank_white (s : string) : blank s = true <-> white s.
Proof.
  unfold white. split.
  - assert (H : forall n s, (String.length s <= n)%nat -> blank s = true ->
                made_of is_space is_space2 is_space3 s).
    { clear s. induction n as [| n IH]; intros s Hlen Hb.
      - destruct s; [constructor | cbn in Hlen; lia].
      - destruct s as [| c1 s1]; [constructor |].
        cbn [String.length] in Hlen. cbn [blank] in Hb.
        apply orb_prop in Hb. destruct Hb as [Hb | Hb].
        { apply andb_prop in Hb. destruct Hb as [H1 Hb].
          apply made_1; [exact H1 | apply IH; [lia | exact Hb]]. }
        destruct s1 as [| c2 s2]; [discriminate Hb |].
        cbn [String.length] in Hlen.
        apply orb_prop in Hb. destruct Hb as [Hb | Hb].
        { apply andb_prop in Hb. destruct Hb as [H2 Hb].
          apply made_2; [exact H2 | apply IH; [lia | exact Hb]]. }
        destruct s2 as [| c3 s3]; [discriminate Hb |].
        cbn [String.length] in Hlen.
        apply andb_prop in Hb. destruct Hb as [H3 Hb].
        apply made_3; [exact H3 | apply IH; [lia | exact Hb]]. }
    exact (H (String.length s) s (le_n _)).
  - induction 1 as [| c1 s H1 Hs IH | c1 c2 s H2 Hs IH | c1 c2 c3 s H3 Hs IH].
    + reflexivity.
    + cbn [blank]. now rewrite H1, IH.
    + cbn [blank]. rewrite H2, IH. cbn [andb]. now rewrite orb_true_r.
    + cbn [blank]. rewrite H3, IH. cbn [andb]. now rewrite !orb_true_r.
Qed.

(** The first byte tells how many bytes a white-space character has. *)
Lemma space_first_byte :
  (forall c1 c2, is_space c1 = true -> is_space2 c1 c2 = false) /\
  (forall c1 c2 c3, is_space c1 = true -> is_space3 c1 c2 c3 = false) /\
  (forall c1 c2 c3, is_space2 c1 c2 = true -> is_space3 c1 c2 c3 = false) /\
  (forall c1 c2, is_space2 c1 c2 = true -> is_space c1 = false) /\
  (forall c1 c2 c3, is_space3 c1 c2 c3 = true -> is_space c1 = false) /\
  (forall c1 c2 c3, is_space3 c1 c2 c3 = true -> is_space2 c1 c2 = false).
Proof.
  assert (Hone : forall c, is_space c = true -> (nat_of_ascii c <= 32)%nat).
  { intros c. unfold is_space. set (n := nat_of_ascii c). clearbody n.
    rewrite !orb_true_iff, !andb_true_iff, Nat.eqb_eq, !Nat.leb_le. lia. }
  assert (Htwo : forall c1 c2, is_space2 c1 c2 = true -> nat_of_ascii c1 = 194%nat).
  { intros c1 c2. unfold is_space2. rewrite andb_true_iff, Nat.eqb_eq. tauto. }
  assert (Hthree : forall c1 c2 c3, is_space3 c1 c2 c3 = true ->
                   (225 <= nat_of_ascii c1 <= 227)%nat).
  { intros c1 c2 c3. unfold is_space3.
    set (n1 := nat_of_ascii c1). set (n2 := nat_of_ascii c2). set (n3 := nat_of_ascii c3).
    clearbody n1 n2 n3.
    rewrite !orb_true_iff, !andb_true_iff, !Nat.eqb_eq. lia. }
  repeat split; intros; apply not_true_is_false; intros Hc;
    repeat match goal with
           | H : is_space _ = true |- _ => apply Hone in H
           | H : is_space2 _ _ = true |- _ => apply Htwo in H
           | H : is_space3 _ _ _ = true |- _ => apply Hthree in H
           end; lia.
Qed.

Lemma lstrip_white (s : string) : white s -> lstrip s = ""%string.
Proof.
  destruct space_first_byte as (H12 & H13 & H23 & H21 & H31 & H32).
  unfold white, lstrip. now apply made_of_dropped.
Qed.

(** [strip] leaves nothing exactly of the lines that are white space
    throughout. *)
Lemma strip_blank (s : string) : strip s = ""%string <-> blank s = true.
Proof.
  rewrite blank_white. unfold strip. split.
  - intros H. unfold rstrip in H. apply reverse_empty in H.
    apply drop_while_all in H. fold white_backwards in H.
    apply white_reverse in H. rewrite reverse_involutive in H.
    destruct (drop_while_split is_space is_space2 is_space3 s) as (front & Hf & Hs).
    fold (lstrip s) in Hs. rewrite Hs. now apply made_of_app.
  - intros H. rewrite (lstrip_white s H). reflexivity.
Qed.

(** X18.  What is typed at the folder prompt is stripped before it is
    looked at, and [strip] leaves nothing exactly of the lines that are
    white space throughout, the no-break space and its like included.
    For such a line all that is done is the [print] of "No folder
    specified!".  Otherwise, when [exists] raises on the stripped name the
    exception leaves the function with nothing printed, and when the name
    is not there all that is done is the [print] of the line that names
    it, stripped. *)
Theorem folder_input_checked (h : Hosted.host) (w : world) (typed : string) :
  (strip typed = ""%string <-> blank typed = true) /\
  (blank typed = true ->
   Hosted.check_specific_folder h w typed no_folder_locals []
   = Hosted.print h [Lit "No folder specified!"] no_folder_locals []) /\
  (forall e,
     blank typed = false ->
     Hosted.exists_error h (strip typed) = Some e ->
     Hosted.check_specific_folder h w typed no_folder_locals []
     = (Raise e, no_folder_locals, [])) /\
  (blank typed = false ->
   Hosted.exists_error h (strip typed) = None ->
   resolve w (strip typed) = None ->
   Hosted.check_specific_folder h w typed no_folder_locals []
   = Hosted.print h [Lit ("Folder '" ++ strip typed ++ "' does not exist!")%string]
       no_folder_locals []) /\
  strip nbsp = ""%string.
Proof.
  assert (Hfull : blank typed = false -> String.eqb (strip typed) "" = false).
  { intros Hb. apply String.eqb_neq. intros E. apply strip_blank in E. congruence. }
  split; [apply strip_blank |]. split; [| split; [| split]].
  - intros Hb. apply strip_blank in Hb.
    unfold Hosted.check_specific_folder. rewrite Hb. reflexivity.
  - intros e Hb Hex. unfold Hosted.check_specific_folder.
    rewrite (Hfull Hb), Hex. reflexivity.
  - intros Hb Hex Hres. unfold Hosted.check_specific_folder.
    rewrite (Hfull Hb), Hex, Hres. reflexivity.
  - vm_compute. reflexivity.
Qed.

(** The same name typed at the folder prompt: the exception of [exists]
    leaves the folder report before anything is printed. *)
Example long_name_ends_the_folder_report :
  let long := Check.str_mul "a" 300 in
  Hosted.check_specific_folder (Hosted.cannot_stat long "[Errno 36] File name too long")
    Worlds.posix_music long no_folder_locals []
  = (Raise "[Errno 36] File name too long", no_folder_locals, []).
Proof. vm_compute. reflexivity. Qed.

End FolderInput.
